(** * ETL pipeline: extraction, loading and orchestration

    A shallow embedding of the Python sources
      - [src/extractor/database_extractor.py] (DatabaseConnector, DataExtractor),
      - [src/loader/database_loader.py]       (DataLoader),
      - [src/etl_pipeline.py]                 (ETLPipeline),
    followed by the properties of the design document that concern them.

    Python objects whose fields are assigned ([self.connection], [self.cursor],
    [self.data], ...) become records threaded through a state-and-exception
    monad; the database drivers (sqlite3, mysql.connector, psycopg2) are
    outside the repository and are represented by an [engine] of oracles that
    decide, from the calls made so far, whether a driver call returns or
    raises. *)

From Stdlib Require Import String Ascii List ZArith Lia Bool Arith.
Import ListNotations.
Open Scope string_scope.
Open Scope list_scope.
Open Scope nat_scope.

(* ================================================================= *)
(** ** Python primitives used by the sources *)

Module Py.

(** Texts are ASCII; [str.isspace] on that range. *)
Definition isspace (c : ascii) : bool :=
  let n := nat_of_ascii c in
  ((9 <=? n) && (n <=? 13)) || ((28 <=? n) && (n <=? 32)).

Fixpoint lstrip (s : string) : string :=
  match s with
  | EmptyString => EmptyString
  | String c r => if isspace c then lstrip r else s
  end.

Fixpoint rstrip (s : string) : string :=
  match s with
  | EmptyString => EmptyString
  | String c r =>
      match rstrip r with
      | EmptyString => if isspace c then EmptyString else String c EmptyString
      | r' => String c r'
      end
  end.

(** [s.strip()] *)
Definition strip (s : string) : string := rstrip (lstrip s).

Definition upper_char (c : ascii) : ascii :=
  let n := nat_of_ascii c in
  if (97 <=? n) && (n <=? 122) then ascii_of_nat (n - 32) else c.

Definition lower_char (c : ascii) : ascii :=
  let n := nat_of_ascii c in
  if (65 <=? n) && (n <=? 90) then ascii_of_nat (n + 32) else c.

Fixpoint map_string (f : ascii -> ascii) (s : string) : string :=
  match s with
  | EmptyString => EmptyString
  | String c r => String (f c) (map_string f r)
  end.

(** [s.upper()] and [s.lower()] *)
Definition upper : string -> string := map_string upper_char.
Definition lower : string -> string := map_string lower_char.

(** [s.startswith(p)] *)
Fixpoint startswith (s p : string) {struct p} : bool :=
  match p with
  | EmptyString => true
  | String b p' =>
      match s with
      | EmptyString => false
      | String a s' => Ascii.eqb a b && startswith s' p'
      end
  end.

(** [sep.join(parts)] *)
Fixpoint join (sep : string) (parts : list string) : string :=
  match parts with
  | [] => EmptyString
  | [p] => p
  | p :: rest => (p ++ sep ++ join sep rest)%string
  end.

(** Truth value of a list ([if xs:] / [if not xs:]). *)
Definition truthy {A : Type} (xs : list A) : bool :=
  match xs with [] => false | _ :: _ => true end.

(** Truth value of an optional list: [None] and [[]] are both false. *)
Definition truthy_opt {A : Type} (xs : option (list A)) : bool :=
  match xs with None => false | Some l => truthy l end.

(** [range(start, stop, step)] as the list of its elements; [None] is the
    [ValueError] raised for a zero step. *)
Definition range_len (start stop step : Z) : Z :=
  if (0 <? step)%Z then
    if (start <? stop)%Z then ((stop - start - 1) / step + 1)%Z else 0%Z
  else
    if (stop <? start)%Z then ((start - stop - 1) / (- step) + 1)%Z else 0%Z.

Definition range (start stop step : Z) : option (list Z) :=
  if (step =? 0)%Z then None
  else Some (map (fun k => (start + Z.of_nat k * step)%Z)
                 (seq 0 (Z.to_nat (range_len start stop step)))).

(** Index normalisation of a slice bound: negative bounds count from the
    end, and everything is clamped to [0 .. len]. *)
Definition clamp (len i : Z) : Z :=
  let j := if (i <? 0)%Z then (i + len)%Z else i in
  Z.max 0 (Z.min len j).

(** [xs[i:j]] *)
Definition slice {A : Type} (xs : list A) (i j : Z) : list A :=
  let len := Z.of_nat (length xs) in
  let lo := clamp len i in
  let hi := clamp len j in
  firstn (Z.to_nat (hi - lo)) (skipn (Z.to_nat lo) xs).

(** [xs[i]] for a non-negative index; [None] is [IndexError]. *)
Definition index {A : Type} (xs : list A) (i : nat) : option A := nth_error xs i.

(** [enumerate(xs)] *)
Fixpoint enumerate_from {A : Type} (k : nat) (xs : list A) : list (nat * A) :=
  match xs with
  | [] => []
  | x :: r => (k, x) :: enumerate_from (S k) r
  end.
Definition enumerate {A : Type} (xs : list A) : list (nat * A) := enumerate_from 0 xs.

(** A [dict] with text keys, in insertion order. *)
Definition dict (V : Type) : Type := list (string * V).

Fixpoint dict_get {V : Type} (d : dict V) (k : string) : option V :=
  match d with
  | [] => None
  | (k', v) :: r => if String.eqb k k' then Some v else dict_get r k
  end.

(** [k in d] *)
Definition dict_mem {V : Type} (d : dict V) (k : string) : bool :=
  match dict_get d k with Some _ => true | None => false end.

Definition keys {V : Type} (d : dict V) : list string := map fst d.

End Py.

(* ================================================================= *)
(** ** Stateful code that may raise *)

Module Exec.

(** Outcome of a call: a returned value, or an exception that reached the
    caller. *)
Inductive result (A : Type) : Type :=
| Ret (a : A)
| Raise.
Arguments Ret {A} a.
Arguments Raise {A}.

(** A method over an object of type [S]: the object after the call is
    returned in both cases, since assignments made before a [raise] stay. *)
Definition M (S A : Type) : Type := S -> result A * S.

Definition ret {S A : Type} (a : A) : M S A := fun s => (Ret a, s).

Definition raise {S A : Type} : M S A := fun s => (Raise, s).

Definition bind {S A B : Type} (m : M S A) (k : A -> M S B) : M S B :=
  fun s =>
    match m s with
    | (Ret a, s') => k a s'
    | (Raise, s') => (Raise, s')
    end.

Definition gets {S A : Type} (f : S -> A) : M S A := fun s => (Ret (f s), s).

Definition modify {S : Type} (f : S -> S) : M S unit := fun s => (Ret tt, f s).

(** [try: m  except Exception: h] *)
Definition try_catch {S A : Type} (m : M S A) (h : M S A) : M S A :=
  fun s =>
    match m s with
    | (Ret a, s') => (Ret a, s')
    | (Raise, s') => h s'
    end.

(** Run a method of a component stored in a field of a larger object. *)
Definition zoom {S T A : Type} (get : T -> S) (set : S -> T -> T) (m : M S A) : M T A :=
  fun t => let (r, s') := m (get t) in (r, set s' t).

Declare Scope exec_scope.
Delimit Scope exec_scope with exec.

Notation "x <- m ;; k" := (bind m (fun x => k))
  (at level 61, m at next level, right associativity) : exec_scope.
Notation "m ;; k" := (bind m (fun _ => k))
  (at level 61, right associativity) : exec_scope.

(** [for x in xs: body(x)] *)
Fixpoint for_each {S A : Type} (xs : list A) (body : A -> M S unit) : M S unit :=
  match xs with
  | [] => ret tt
  | x :: rest => bind (body x) (fun _ => for_each rest body)
  end.

End Exec.

Import Exec.
Open Scope exec_scope.

(* ================================================================= *)
(** ** The database driver behind a connector *)

Module Driver.

(** Scalar values of a result row. *)
Inductive value : Type :=
| VNull
| VInt (n : Z)
| VText (s : string).

Definition row : Type := list value.

(** Calls made to the driver, in the order they were made. *)
Inductive event : Type :=
| EvConnect
| EvCursor
| EvExecute (query : string) (args : list value)
| EvFetchAll
| EvExecuteMany (query : string) (batch : list row)
| EvCommit
| EvRollback
| EvCursorClose
| EvClose.

(** What [cursor.execute] does: raise, or leave a result to fetch (absent
    when the statement yields no rows) and the column names of
    [cursor.description] (absent when there is no metadata). *)
Inductive exec_outcome : Type :=
| ExecRaises
| ExecDone (fetched : option (list row)) (description : option (list string)).

(** What [cursor.executemany] does: insert the whole batch, or raise after
    [applied] rows of it went into the open transaction. *)
Inductive insert_outcome : Type :=
| InsertDone
| InsertRaises (applied : nat).

(** The engine decides every driver call from the calls made before it. *)
Record engine : Type := {
  eng_connect : list event -> bool;
  eng_cursor : list event -> bool;
  eng_execute : list event -> string -> list value -> exec_outcome;
  eng_executemany : list event -> string -> list row -> insert_outcome;
  eng_commit : list event -> bool;
  eng_rollback : list event -> bool;
  eng_close : list event -> bool
}.

End Driver.

Import Driver.

(* ================================================================= *)
(** ** [class DatabaseConnector] *)

Module DatabaseConnector.

(** The cursor object: [description] and the rows waiting for [fetchall]. *)
Record cursor_state : Type := {
  description : option (list string);
  fetched : option (list row)
}.

(** The connection object. [pending_inserts] are the rows put into the open
    transaction by [executemany] and not yet committed. *)
Record session : Type := {
  is_open : bool;
  pending_inserts : list row
}.

(** The connector object together with the database it talks to:
    [connection] and [cursor] are [None] until [connect] assigns them;
    [backend] stands for the database that [connection_params] designate;
    [calls] is the log of driver calls; [committed_inserts] are the rows
    inserted by [executemany] whose transaction was committed. *)
Record t : Type := {
  db_type : string;
  backend : engine;
  connection : option session;
  cursor : option cursor_state;
  calls : list event;
  committed_inserts : list row
}.

Definition set_connection (v : option session) (c : t) : t :=
  {| db_type := db_type c; backend := backend c; connection := v;
     cursor := cursor c; calls := calls c;
     committed_inserts := committed_inserts c |}.

Definition set_cursor (v : option cursor_state) (c : t) : t :=
  {| db_type := db_type c; backend := backend c; connection := connection c;
     cursor := v; calls := calls c;
     committed_inserts := committed_inserts c |}.

Definition set_committed (v : list row) (c : t) : t :=
  {| db_type := db_type c; backend := backend c; connection := connection c;
     cursor := cursor c; calls := calls c;
     committed_inserts := v |}.

Definition record_call (e : event) (c : t) : t :=
  {| db_type := db_type c; backend := backend c; connection := connection c;
     cursor := cursor c; calls := calls c ++ [e];
     committed_inserts := committed_inserts c |}.

(** [__init__] *)
Definition init (db_type : string) (backend : engine) : t :=
  {| db_type := Py.lower db_type; backend := backend; connection := None;
     cursor := None; calls := []; committed_inserts := [] |}.

(** *** Driver calls *)

(** [sqlite3.connect(...)], [mysql.connector.connect(...)],
    [psycopg2.connect(...)] *)
Definition driver_connect : M t session :=
  fun c =>
    let c' := record_call EvConnect c in
    if eng_connect (backend c) (calls c)
    then (Ret {| is_open := true; pending_inserts := [] |}, c')
    else (Raise, c').

(** [self.connection.cursor()] *)
Definition connection_cursor : M t cursor_state :=
  fun c =>
    match connection c with
    | None => (Raise, c)
    | Some s =>
        let c' := record_call EvCursor c in
        if is_open s && eng_cursor (backend c) (calls c)
        then (Ret {| description := None; fetched := None |}, c')
        else (Raise, c')
    end.

(** [self.cursor.execute(query, params)] *)
Definition cursor_execute (query : string) (args : list value) : M t unit :=
  fun c =>
    match cursor c, connection c with
    | Some _, Some s =>
        let c' := record_call (EvExecute query args) c in
        if is_open s then
          match eng_execute (backend c) (calls c) query args with
          | ExecDone rows desc =>
              (Ret tt, set_cursor (Some {| description := desc; fetched := rows |}) c')
          | ExecRaises => (Raise, c')
          end
        else (Raise, c')
    | _, _ => (Raise, c)
    end.

(** [self.cursor.fetchall()] *)
Definition cursor_fetchall : M t (list row) :=
  fun c =>
    match cursor c with
    | Some cur =>
        let c' := record_call EvFetchAll c in
        match fetched cur with
        | Some rows => (Ret rows, c')
        | None => (Raise, c')
        end
    | None => (Raise, c)
    end.

(** [cursor.executemany(query, batch)] *)
Definition cursor_executemany (query : string) (batch : list row) : M t unit :=
  fun c =>
    match cursor c, connection c with
    | Some _, Some s =>
        let c' := record_call (EvExecuteMany query batch) c in
        if is_open s then
          match eng_executemany (backend c) (calls c) query batch with
          | InsertDone =>
              (Ret tt,
               set_connection
                 (Some {| is_open := true;
                          pending_inserts := pending_inserts s ++ batch |}) c')
          | InsertRaises applied =>
              (Raise,
               set_connection
                 (Some {| is_open := true;
                          pending_inserts := pending_inserts s ++ firstn applied batch |}) c')
          end
        else (Raise, c')
    | _, _ => (Raise, c)
    end.

(** [self.connection.commit()] *)
Definition connection_commit : M t unit :=
  fun c =>
    match connection c with
    | Some s =>
        let c' := record_call EvCommit c in
        if is_open s && eng_commit (backend c) (calls c)
        then (Ret tt,
              set_committed (committed_inserts c ++ pending_inserts s)
                (set_connection (Some {| is_open := true; pending_inserts := [] |}) c'))
        else (Raise, c')
    | None => (Raise, c)
    end.

(** [self.connection.rollback()] *)
Definition connection_rollback : M t unit :=
  fun c =>
    match connection c with
    | Some s =>
        let c' := record_call EvRollback c in
        if is_open s && eng_rollback (backend c) (calls c)
        then (Ret tt, set_connection (Some {| is_open := true; pending_inserts := [] |}) c')
        else (Raise, c')
    | None => (Raise, c)
    end.

(** [self.cursor.close()]: like every other call on the cursor, it raises
    once the session is closed. *)
Definition cursor_close : M t unit :=
  fun c =>
    match connection c with
    | Some s =>
        let c' := record_call EvCursorClose c in
        if is_open s then (Ret tt, c') else (Raise, c')
    | None => (Raise, c)
    end.

(** [self.connection.close()]: uncommitted rows are lost. *)
Definition connection_close : M t unit :=
  fun c =>
    match connection c with
    | Some s =>
        let c' := record_call EvClose c in
        if eng_close (backend c) (calls c)
        then (Ret tt, set_connection (Some {| is_open := false; pending_inserts := [] |}) c')
        else (Raise, c')
    | None => (Raise, c)
    end.

(** *** Methods *)

Definition supported (db : string) : bool :=
  String.eqb db "sqlite" || String.eqb db "mysql" || String.eqb db "postgresql".

(** [connect]: the three engine branches differ in the driver called and in
    the defaults of its arguments only. *)
Definition connect : M t bool :=
  try_catch
    (db <- gets db_type ;;
     if supported db then
       s <- driver_connect ;;
       modify (set_connection (Some s)) ;;
       cur <- connection_cursor ;;
       modify (set_cursor (Some cur)) ;;
       ret true
     else ret false)
    (ret false).

(** [disconnect] *)
Definition disconnect : M t unit :=
  conn <- gets connection ;;
  match conn with
  | Some _ =>
      try_catch
        (cur <- gets cursor ;;
         (match cur with Some _ => cursor_close | None => ret tt end) ;;
         connection_close)
        (ret tt)
  | None => ret tt
  end.

(** [query.strip().upper().startswith("SELECT")] *)
Definition is_select (query : string) : bool :=
  Py.startswith (Py.upper (Py.strip query)) "SELECT".

Definition args_of (params : option (list value)) : list value :=
  match params with Some l => l | None => [] end.

(** [execute_query]: [None] on error, the fetched rows for a SELECT, [[]]
    after the commit of any other statement. *)
Definition execute_query (query : string) (params : option (list value))
  : M t (option (list row)) :=
  conn <- gets connection ;;
  cur <- gets cursor ;;
  match conn, cur with
  | Some _, Some _ =>
      try_catch
        (cursor_execute query (args_of params) ;;
         if is_select query then
           results <- cursor_fetchall ;;
           ret (Some results)
         else
           connection_commit ;;
           ret (Some []))
        ((if negb (is_select query)
          then try_catch connection_rollback (ret tt)
          else ret tt) ;;
         ret None)
  | _, _ => ret None
  end.

(** [get_column_names] *)
Definition get_column_names : M t (option (list string)) :=
  cur <- gets cursor ;;
  match cur with
  | None => ret None
  | Some cs =>
      try_catch
        (db <- gets db_type ;;
         if supported db then
           match description cs with
           | Some names => ret (Some names)
           | None => raise
           end
         else ret None)
        (ret None)
  end.

End DatabaseConnector.

(* ================================================================= *)
(** ** [class DataExtractor] *)

Module DataExtractor.

Record t : Type := {
  db_connector : DatabaseConnector.t;
  data : option (list row);
  columns : option (list string)
}.

Definition set_db_connector (c : DatabaseConnector.t) (x : t) : t :=
  {| db_connector := c; data := data x; columns := columns x |}.

Definition set_data (d : option (list row)) (x : t) : t :=
  {| db_connector := db_connector x; data := d; columns := columns x |}.

Definition set_columns (cs : option (list string)) (x : t) : t :=
  {| db_connector := db_connector x; data := data x; columns := cs |}.

(** [__init__] *)
Definition init (c : DatabaseConnector.t) : t :=
  {| db_connector := c; data := None; columns := None |}.

(** A call of a method of [self.db_connector]. *)
Definition on_connector {A : Type} (m : M DatabaseConnector.t A) : M t A :=
  zoom db_connector set_db_connector m.

(** [extract_data] *)
Definition extract_data (query : string) (params : option (list value)) : M t bool :=
  if negb (DatabaseConnector.is_select query) then ret false
  else
    conn <- gets (fun x => DatabaseConnector.connection (db_connector x)) ;;
    connected <- match conn with
                 | Some _ => ret true
                 | None => on_connector DatabaseConnector.connect
                 end ;;
    if negb connected then ret false
    else
      d <- on_connector (DatabaseConnector.execute_query query params) ;;
      modify (set_data d) ;;
      match d with
      | None => ret false
      | Some _ =>
          cs <- on_connector DatabaseConnector.get_column_names ;;
          modify (set_columns cs) ;;
          if negb (Py.truthy_opt cs) then ret false else ret true
      end.

(** [get_extracted_data] *)
Definition get_extracted_data (x : t) : option (list row) * option (list string) :=
  (data x, columns x).

End DataExtractor.

(* ================================================================= *)
(** ** [class DataLoader] *)

Module DataLoader.

Import DatabaseConnector.

(** The loader's only state is its [db_connector]; its methods are given
    over the connector directly. *)

(** The source returns [False] at every failure; the returns are told
    apart here by the error that the message logged before them names. *)
Inductive load_error : Type :=
| EmptyInputError
| ConnectionError
| NoMappedColumnsError
| ColumnCountMismatchError
| LoadError.

Inductive status : Type :=
| Succeeded
| Failed (e : load_error).

(** The [bool] that the source returns. *)
Definition to_bool (st : status) : bool :=
  match st with Succeeded => true | Failed _ => false end.

(** [if not self.db_connector.connection: if not self.db_connector.connect(): return False] *)
Definition ensure_connected : M t bool :=
  conn <- gets connection ;;
  match conn with
  | Some _ => ret true
  | None => connect
  end.

(** The loop over [enumerate(source_columns)] that fills [dest_columns] and
    [source_indices]. *)
Fixpoint select_columns (cols : list (nat * string)) (column_mapping : Py.dict string)
  : list string * list nat :=
  match cols with
  | [] => ([], [])
  | (i, src_col) :: rest =>
      let (dest_columns, source_indices) := select_columns rest column_mapping in
      match Py.dict_get column_mapping src_col with
      | Some dest => (dest :: dest_columns, i :: source_indices)
      | None => (dest_columns, source_indices)
      end
  end.

(** [tuple(row[i] for i in source_indices)]; [None] is the [IndexError] of
    a row that is too short. *)
Fixpoint filtered_row (r : row) (source_indices : list nat) : option row :=
  match source_indices with
  | [] => Some []
  | i :: rest =>
      match Py.index r i with
      | None => None
      | Some v =>
          match filtered_row r rest with
          | None => None
          | Some vs => Some (v :: vs)
          end
      end
  end.

(** The loop that builds [filtered_data]. *)
Fixpoint filter_data (data : list row) (source_indices : list nat) : option (list row) :=
  match data with
  | [] => Some []
  | r :: rest =>
      match filtered_row r source_indices with
      | None => None
      | Some fr =>
          match filter_data rest source_indices with
          | None => None
          | Some frs => Some (fr :: frs)
          end
      end
  end.

Definition dquote : string := String (ascii_of_nat 34) EmptyString.

Definition quoted (name : string) : string := (dquote ++ name ++ dquote)%string.

(** The INSERT statement, with the placeholder style of the engine. *)
Definition insert_query (db : string) (target_table : string) (dest_columns : list string)
  : string :=
  let placeholders :=
    if String.eqb db "postgresql"
    then Py.join ", " (repeat "%s" (length dest_columns))
    else Py.join ", " (repeat "?" (length dest_columns)) in
  let columns_str := Py.join ", " (map quoted dest_columns) in
  ("INSERT INTO " ++ quoted target_table ++ " (" ++ columns_str ++ ") VALUES ("
     ++ placeholders ++ ")")%string.

(** The batches [data_to_insert[i:i+batch_size]] for [i] in
    [range(0, total_rows, batch_size)]; [None] when [range] raises. *)
Definition batches (data_to_insert : list row) (batch_size : Z) : option (list (list row)) :=
  match Py.range 0 (Z.of_nat (length data_to_insert)) batch_size with
  | None => None
  | Some starts =>
      Some (map (fun i => Py.slice data_to_insert i (i + batch_size)) starts)
  end.

(** One turn of the insertion loop: [executemany] of the batch, then
    [commit]. *)
Definition insert_batch (query : string) (batch : list row) : M t unit :=
  cursor_executemany query batch ;;
  connection_commit.

(** The body of the [try] block: the loop over the batch starts. *)
Definition insert_batches (query : string) (data_to_insert : list row) (batch_size : Z)
  : M t unit :=
  match Py.range 0 (Z.of_nat (length data_to_insert)) batch_size with
  | None => raise
  | Some starts =>
      for_each starts
        (fun i =>
           let batch := Py.slice data_to_insert i (i + batch_size) in
           insert_batch query batch)
  end.

(** From "Construir a query de insercao" to the end of [load_data]. *)
Definition insert_all (target_table : string) (dest_columns : list string)
    (data_to_insert : list row) (batch_size : Z) : M t status :=
  db <- gets db_type ;;
  let query := insert_query db target_table dest_columns in
  try_catch
    (insert_batches query data_to_insert batch_size ;;
     ret Succeeded)
    (try_catch connection_rollback (ret tt) ;;
     ret (Failed LoadError)).

(** [load_data] *)
Definition load_data (data : list row) (source_columns : list string)
    (target_table : string) (target_columns : option (list string))
    (column_mapping : option (Py.dict string)) (batch_size : Z) : M t status :=
  if negb (Py.truthy data) || negb (Py.truthy source_columns)
  then ret (Failed EmptyInputError)
  else
    connected <- ensure_connected ;;
    if negb connected then ret (Failed ConnectionError)
    else
      match column_mapping with
      | Some ((_ :: _) as mapping) =>
          let (dest_columns, source_indices) :=
            select_columns (Py.enumerate source_columns) mapping in
          if negb (Py.truthy dest_columns) then ret (Failed NoMappedColumnsError)
          else
            match filter_data data source_indices with
            | None => raise
            | Some filtered_data =>
                insert_all target_table dest_columns filtered_data batch_size
            end
      | _ =>
          match target_columns with
          | Some ((_ :: _) as dest_columns) =>
              if negb (length dest_columns =? length source_columns)
              then ret (Failed ColumnCountMismatchError)
              else insert_all target_table dest_columns data batch_size
          | _ => insert_all target_table source_columns data batch_size
          end
      end.

(** [create_table_if_not_exists] *)
Definition create_table_if_not_exists (target_table : string)
    (column_definitions : Py.dict string) : M t bool :=
  if negb (Py.truthy column_definitions) then ret false
  else
    connected <- ensure_connected ;;
    if negb connected then ret false
    else
      let columns_def :=
        Py.join ", "
          (map (fun '(col, dtype) => (quoted col ++ " " ++ dtype)%string)
               column_definitions) in
      let create_query :=
        ("CREATE TABLE IF NOT EXISTS " ++ quoted target_table
           ++ " (" ++ columns_def ++ ")")%string in
      try_catch
        (execute_query create_query None ;;
         ret true)
        (ret false).

(** [truncate_table] *)
Definition truncate_table (target_table : string) : M t bool :=
  connected <- ensure_connected ;;
  if negb connected then ret false
  else
    let truncate_query := ("DELETE FROM " ++ quoted target_table)%string in
    try_catch
      (execute_query truncate_query None ;;
       ret true)
      (ret false).

End DataLoader.

(* ================================================================= *)
(** ** [class ETLPipeline] *)

Module ETLPipeline.

(** The configuration dictionary. A key that may be missing is an [option]
    field; [connection_params] is given as the database it designates. *)
Module Config.

Record db : Type := {
  type : option string;
  connection_params : option engine
}.

Record extraction_t : Type := {
  query : option string;
  params : option (list value)
}.

Record loading_t : Type := {
  target_table : option string;
  target_columns : option (list string);
  column_mapping : option (Py.dict string);
  truncate_before_load : option bool;
  create_table : option bool;
  column_definitions : option (Py.dict string);
  batch_size : option Z
}.

Record t : Type := {
  source_db : option db;
  target_db : option db;
  extraction : option extraction_t;
  loading : option loading_t
}.

End Config.

Definition present {A : Type} (o : option A) : bool :=
  match o with Some _ => true | None => false end.

(** [d.get(key, default)] *)
Definition get_default {A : Type} (o : option A) (default : A) : A :=
  match o with Some v => v | None => default end.

(** [validate_config] *)
Definition validate_config (config : Config.t) : bool :=
  match Config.source_db config, Config.target_db config,
        Config.extraction config, Config.loading config with
  | Some source_db, Some target_db, Some extraction, Some loading =>
      if negb (present (Config.type source_db))
         || negb (present (Config.connection_params source_db))
      then false
      else if negb (present (Config.type target_db))
              || negb (present (Config.connection_params target_db))
      then false
      else if negb (present (Config.query extraction)) then false
      else if negb (present (Config.target_table loading)) then false
      else true
  | _, _, _, _ => false
  end.

(** The objects that [run] creates: the extractor holds the source
    connector, the loader is its target connector. *)
Record world : Type := {
  extractor : DataExtractor.t;
  target_connector : DatabaseConnector.t
}.

Definition source_connector (w : world) : DatabaseConnector.t :=
  DataExtractor.db_connector (extractor w).

Definition set_extractor (x : DataExtractor.t) (w : world) : world :=
  {| extractor := x; target_connector := target_connector w |}.

Definition set_target_connector (c : DatabaseConnector.t) (w : world) : world :=
  {| extractor := extractor w; target_connector := c |}.

Definition on_extractor {A : Type} (m : M DataExtractor.t A) : M world A :=
  zoom extractor set_extractor m.

Definition on_source {A : Type} (m : M DatabaseConnector.t A) : M world A :=
  on_extractor (DataExtractor.on_connector m).

Definition on_loader {A : Type} (m : M DatabaseConnector.t A) : M world A :=
  zoom target_connector set_target_connector m.

(** [run], from "Extrair dados" on. *)
Definition run_steps (query : string) (query_params : option (list value))
    (target_table : string) (loading_config : Config.loading_t) : M world bool :=
  extracted <- on_extractor (DataExtractor.extract_data query query_params) ;;
  if negb extracted then ret false
  else
    got <- gets (fun w => DataExtractor.get_extracted_data (extractor w)) ;;
    match got with
    | (Some ((_ :: _) as data), Some ((_ :: _) as columns)) =>
        let target_columns := Config.target_columns loading_config in
        let column_mapping := Config.column_mapping loading_config in
        let truncate_before_load :=
          get_default (Config.truncate_before_load loading_config) false in
        let create_table := get_default (Config.create_table loading_config) false in
        created <-
          (match create_table, Config.column_definitions loading_config with
           | true, Some column_definitions =>
               on_loader (DataLoader.create_table_if_not_exists target_table
                            column_definitions)
           | _, _ => ret true
           end) ;;
        if negb created then ret false
        else
          truncated <-
            (if truncate_before_load
             then on_loader (DataLoader.truncate_table target_table)
             else ret true) ;;
          if negb truncated then ret false
          else
            loaded <-
              on_loader
                (DataLoader.load_data data columns target_table target_columns
                   column_mapping
                   (get_default (Config.batch_size loading_config) 100%Z)) ;;
            if negb (DataLoader.to_bool loaded) then ret false
            else
              on_source DatabaseConnector.disconnect ;;
              on_loader DatabaseConnector.disconnect ;;
              ret true
    | _ => ret false
    end.

(** [run]: the returned value and the objects it created, if any. A key
    missing after validation would be a [KeyError]. *)
Definition run (config : Config.t) : result bool * option world :=
  if negb (validate_config config) then (Ret false, None)
  else
    match Config.source_db config, Config.target_db config,
          Config.extraction config, Config.loading config with
    | Some source_config, Some target_config, Some extraction_config, Some loading_config =>
        match Config.type source_config, Config.connection_params source_config,
              Config.type target_config, Config.connection_params target_config,
              Config.query extraction_config, Config.target_table loading_config with
        | Some source_type, Some source_params, Some target_type, Some target_params,
          Some query, Some target_table =>
            let w :=
              {| extractor :=
                   DataExtractor.init (DatabaseConnector.init source_type source_params);
                 target_connector := DatabaseConnector.init target_type target_params |} in
            let (r, w') :=
              run_steps query (Config.params extraction_config) target_table
                loading_config w in
            (r, Some w')
        | _, _, _, _, _, _ => (Raise, None)
        end
    | _, _, _, _ => (Raise, None)
    end.

(** A connector holds an open session. *)
Definition session_open (c : DatabaseConnector.t) : bool :=
  match DatabaseConnector.connection c with
  | Some s => DatabaseConnector.is_open s
  | None => false
  end.

End ETLPipeline.

(* ================================================================= *)
(** ** Concrete databases and inputs used in the examples *)

Module Sample.

(** The rows and column names that a source answers a SELECT with. *)
Definition clientes_columns : list string := ["id"; "nome"; "idade"].

Definition clientes_rows : list row :=
  [ [VInt 1; VText "Joao"; VInt 35];
    [VInt 3; VText "Pedro"; VInt 42];
    [VInt 5; VText "Carlos"; VInt 39] ].

Definition count_inserts (history : list event) : nat :=
  length (filter (fun e => match e with EvExecuteMany _ _ => true | _ => false end)
                 history).

(** A database on which every call succeeds; a SELECT yields
    [clientes_rows]. *)
Definition healthy : engine :=
  {| eng_connect := fun _ => true;
     eng_cursor := fun _ => true;
     eng_execute := fun _ q _ =>
       if DatabaseConnector.is_select q
       then ExecDone (Some clientes_rows) (Some clientes_columns)
       else ExecDone None None;
     eng_executemany := fun _ _ _ => InsertDone;
     eng_commit := fun _ => true;
     eng_rollback := fun _ => true;
     eng_close := fun _ => true |}.

(** A database that rejects every statement given to [execute] (a missing
    table, a DDL error). *)
Definition rejecting : engine :=
  {| eng_connect := fun _ => true;
     eng_cursor := fun _ => true;
     eng_execute := fun _ _ _ => ExecRaises;
     eng_executemany := fun _ _ _ => InsertDone;
     eng_commit := fun _ => true;
     eng_rollback := fun _ => true;
     eng_close := fun _ => true |}.

(** A database whose second [executemany] fails on its first row. *)
Definition second_insert_fails : engine :=
  {| eng_connect := fun _ => true;
     eng_cursor := fun _ => true;
     eng_execute := fun _ _ _ => ExecDone None None;
     eng_executemany := fun history _ _ =>
       if count_inserts history =? 1 then InsertRaises 0 else InsertDone;
     eng_commit := fun _ => true;
     eng_rollback := fun _ => true;
     eng_close := fun _ => true |}.

(** A connector on [backend] after a successful [connect]. *)
Definition connected (backend : engine) : DatabaseConnector.t :=
  snd (DatabaseConnector.connect (DatabaseConnector.init "sqlite" backend)).

Definition five_rows : list row :=
  [[VInt 1]; [VInt 2]; [VInt 3]; [VInt 4]; [VInt 5]].

Definition sqlite_on (backend : engine) : ETLPipeline.Config.db :=
  {| ETLPipeline.Config.type := Some "sqlite";
     ETLPipeline.Config.connection_params := Some backend |}.

Definition loading_into (table : string) (target_columns : option (list string))
  : ETLPipeline.Config.loading_t :=
  {| ETLPipeline.Config.target_table := Some table;
     ETLPipeline.Config.target_columns := target_columns;
     ETLPipeline.Config.column_mapping := None;
     ETLPipeline.Config.truncate_before_load := None;
     ETLPipeline.Config.create_table := None;
     ETLPipeline.Config.column_definitions := None;
     ETLPipeline.Config.batch_size := None |}.

(** A run whose load fails after both connections were opened: two target
    columns are configured for three source columns. *)
Definition mismatched_config : ETLPipeline.Config.t :=
  {| ETLPipeline.Config.source_db := Some (sqlite_on healthy);
     ETLPipeline.Config.target_db := Some (sqlite_on healthy);
     ETLPipeline.Config.extraction :=
       Some {| ETLPipeline.Config.query := Some "SELECT id, nome, idade FROM clientes";
               ETLPipeline.Config.params := None |};
     ETLPipeline.Config.loading :=
       Some (loading_into "clientes_filtrados" (Some ["id"; "nome"])) |}.

(** The same run with matching target columns. *)
Definition matching_config : ETLPipeline.Config.t :=
  {| ETLPipeline.Config.source_db := Some (sqlite_on healthy);
     ETLPipeline.Config.target_db := Some (sqlite_on healthy);
     ETLPipeline.Config.extraction :=
       Some {| ETLPipeline.Config.query := Some "SELECT id, nome, idade FROM clientes";
               ETLPipeline.Config.params := None |};
     ETLPipeline.Config.loading :=
       Some (loading_into "clientes_filtrados" (Some ["id"; "name"; "age"])) |}.

(** A database whose driver opens the session but cannot create a cursor. *)
Definition no_cursor : engine :=
  {| eng_connect := fun _ => true;
     eng_cursor := fun _ => false;
     eng_execute := fun _ _ _ => ExecDone None None;
     eng_executemany := fun _ _ _ => InsertDone;
     eng_commit := fun _ => true;
     eng_rollback := fun _ => true;
     eng_close := fun _ => true |}.

(** A database that answers its first statement and rejects the later
    ones. *)
Definition answers_once : engine :=
  {| eng_connect := fun _ => true;
     eng_cursor := fun _ => true;
     eng_execute := fun history _ _ =>
       if existsb (fun e => match e with EvExecute _ _ => true | _ => false end) history
       then ExecRaises
       else ExecDone (Some clientes_rows) (Some clientes_columns);
     eng_executemany := fun _ _ _ => InsertDone;
     eng_commit := fun _ => true;
     eng_rollback := fun _ => true;
     eng_close := fun _ => true |}.

(** A connector on [backend] after [connect] and [disconnect]. *)
Definition disconnected (backend : engine) : DatabaseConnector.t :=
  snd (DatabaseConnector.disconnect (connected backend)).

(** A mapping whose keys come in another order than the source columns. *)
Definition reordered_mapping : Py.dict string :=
  [("idade", "age"); ("id", "ident")].

(** A run whose extraction fails after the source connection was opened:
    the source rejects the query. *)
Definition failing_extraction_config : ETLPipeline.Config.t :=
  {| ETLPipeline.Config.source_db := Some (sqlite_on rejecting);
     ETLPipeline.Config.target_db := Some (sqlite_on healthy);
     ETLPipeline.Config.extraction :=
       Some {| ETLPipeline.Config.query := Some "SELECT id FROM missing";
               ETLPipeline.Config.params := None |};
     ETLPipeline.Config.loading := Some (loading_into "clientes_filtrados" None) |}.

End Sample.

(* ================================================================= *)
(** ** Properties as the design document words them *)

Module Stated.

Definition word_char (c : ascii) : bool :=
  let n := nat_of_ascii c in
  ((48 <=? n) && (n <=? 57)) || ((65 <=? n) && (n <=? 90))
  || ((97 <=? n) && (n <=? 122)) || (n =? 95).

(** The text that remains after a prefix, when the prefix is there. *)
Fixpoint after_prefix (s p : string) {struct p} : option string :=
  match p with
  | EmptyString => Some s
  | String b p' =>
      match s with
      | EmptyString => None
      | String a s' => if Ascii.eqb a b then after_prefix s' p' else None
      end
  end.

(** "Begins with the literal token SELECT": the word SELECT, ended by the
    end of the text or by a character that cannot continue a word. *)
Definition begins_with_select_token (query : string) : bool :=
  match after_prefix (Py.upper (Py.strip query)) "SELECT" with
  | Some EmptyString => true
  | Some (String c _) => negb (word_char c)
  | None => false
  end.

(** [ceil(a / b)] *)
Definition ceil_div (a b : Z) : Z := (- ((- a) / b))%Z.

(** "[ceil(len(rows)/batchSize)] batches, all but the last of size
    [batchSize], concatenation of batches in order reconstructs the
    original projected row sequence exactly." *)
Definition batch_partition (rows : list row) (batch_size : Z)
    (parts : list (list row)) : Prop :=
  Z.of_nat (length parts) = ceil_div (Z.of_nat (length rows)) batch_size
  /\ (forall k part, S k < length parts -> nth_error parts k = Some part ->
        Z.of_nat (length part) = batch_size)
  /\ concat parts = rows.

(** Position of a column name among the source columns. *)
Fixpoint position (source_columns : list string) (name : string) : option nat :=
  match source_columns with
  | [] => None
  | c :: rest =>
      if String.eqb name c then Some 0
      else match position rest name with Some i => Some (S i) | None => None end
  end.

(** "The values at the mapped positions, in mapping-insertion order": one
    value per key of the mapping, in the order of the keys. *)
Fixpoint in_mapping_order (source_columns : list string) (r : row)
    (mapping_keys : list string) : option row :=
  match mapping_keys with
  | [] => Some []
  | k :: rest =>
      match position source_columns k with
      | None => None
      | Some i =>
          match nth_error r i, in_mapping_order source_columns r rest with
          | Some v, Some vs => Some (v :: vs)
          | _, _ => None
          end
      end
  end.

(** The values under the mapped source columns, in the order of the source
    columns. *)
Definition in_source_order (source_columns : list string)
    (column_mapping : Py.dict string) (r : row) : row :=
  map snd (filter (fun cv => Py.dict_mem column_mapping (fst cv))
                  (combine source_columns r)).

(** Column resolution when no mapping is given: "Else if [targetColumns]
    given: must have identical length to [sourceColumns]; positional
    identity mapping to the given names. Else: target columns = source
    columns verbatim, full row kept." *)
Definition load_data_without_mapping (data : list row) (source_columns : list string)
    (target_table : string) (target_columns : option (list string)) (batch_size : Z)
  : M DatabaseConnector.t DataLoader.status :=
  if negb (Py.truthy data) || negb (Py.truthy source_columns)
  then ret (DataLoader.Failed DataLoader.EmptyInputError)
  else
    connected <- DataLoader.ensure_connected ;;
    if negb connected then ret (DataLoader.Failed DataLoader.ConnectionError)
    else
      match target_columns with
      | Some ((_ :: _) as dest_columns) =>
          if negb (length dest_columns =? length source_columns)
          then ret (DataLoader.Failed DataLoader.ColumnCountMismatchError)
          else DataLoader.insert_all target_table dest_columns data batch_size
      | _ => DataLoader.insert_all target_table source_columns data batch_size
      end.

(** The driver calls of batches that went through: one insert and one
    commit each. *)
Definition committed_calls (query : string) (parts : list (list row)) : list event :=
  flat_map (fun batch => [EvExecuteMany query batch; EvCommit]) parts.

(** The state of a connector [c'] once the first [k] of the batches
    [parts] went through, starting from [c] with the open session [s]. *)
Definition after_committed (query : string) (c : DatabaseConnector.t)
    (s : DatabaseConnector.session) (parts : list (list row)) (k : nat)
    (c' : DatabaseConnector.t) : Prop :=
  DatabaseConnector.db_type c' = DatabaseConnector.db_type c
  /\ DatabaseConnector.backend c' = DatabaseConnector.backend c
  /\ DatabaseConnector.cursor c' = DatabaseConnector.cursor c
  /\ DatabaseConnector.calls c'
     = DatabaseConnector.calls c ++ committed_calls query (firstn k parts)
  /\ DatabaseConnector.connection c'
     = Some {| DatabaseConnector.is_open := true;
               DatabaseConnector.pending_inserts :=
                 match k with
                 | 0 => DatabaseConnector.pending_inserts s
                 | _ => []
                 end |}
  /\ DatabaseConnector.committed_inserts c'
     = DatabaseConnector.committed_inserts c
         ++ match k with
            | 0 => []
            | _ => DatabaseConnector.pending_inserts s ++ concat (firstn k parts)
            end.

End Stated.

(* ================================================================= *)
(** ** Vocabulary of the further properties *)

Module Observed.

(** A text made of whitespace only. *)
Fixpoint blank (s : string) : bool :=
  match s with
  | EmptyString => true
  | String c r => Py.isspace c && blank r
  end.

(** Driver calls that open a session. *)
Definition opening_call (e : event) : bool :=
  match e with
  | EvConnect | EvCursor => true
  | _ => false
  end.

(** Driver calls that leave the data alone: all but inserts, commits and
    rollbacks. *)
Definition reading_call (e : event) : bool :=
  match e with
  | EvExecuteMany _ _ | EvCommit | EvRollback => false
  | _ => true
  end.

(** A method keeps a property of the object it runs on, whether it returns
    or raises. *)
Definition preserves {S A : Type} (P : S -> Prop) (m : M S A) : Prop :=
  forall s, P s -> P (snd (m s)).

(** The connector has a connection object assigned. *)
Definition assigned (c : DatabaseConnector.t) : Prop :=
  DatabaseConnector.connection c <> None.

(** The session of the connector, if it has one, was not closed. *)
Definition live (c : DatabaseConnector.t) : Prop :=
  forall s, DatabaseConnector.connection c = Some s ->
            DatabaseConnector.is_open s = true.

(** Whatever a method does, the driver calls it makes are added after the
    earlier ones and all satisfy [Q]. *)
Definition appends {A : Type} (Q : event -> Prop) (m : M DatabaseConnector.t A) : Prop :=
  forall c, exists evs,
    DatabaseConnector.calls (snd (m c)) = DatabaseConnector.calls c ++ evs
    /\ Forall Q evs.

(** Every driver call made through the connector so far left the data
    alone. *)
Definition only_read (c : DatabaseConnector.t) : Prop :=
  Forall (fun e => reading_call e = true) (DatabaseConnector.calls c).

(** The loading section of a configuration with the key [create_table]
    taken out. *)
Definition without_create_table (loading_config : ETLPipeline.Config.loading_t)
  : ETLPipeline.Config.loading_t :=
  {| ETLPipeline.Config.target_table := ETLPipeline.Config.target_table loading_config;
     ETLPipeline.Config.target_columns := ETLPipeline.Config.target_columns loading_config;
     ETLPipeline.Config.column_mapping := ETLPipeline.Config.column_mapping loading_config;
     ETLPipeline.Config.truncate_before_load :=
       ETLPipeline.Config.truncate_before_load loading_config;
     ETLPipeline.Config.create_table := None;
     ETLPipeline.Config.column_definitions :=
       ETLPipeline.Config.column_definitions loading_config;
     ETLPipeline.Config.batch_size := ETLPipeline.Config.batch_size loading_config |}.

End Observed.

(* ================================================================= *)
(** ** Facts about the Python primitives *)

Section PyFacts.

Lemma startswith_iff (s p : string) :
  Py.startswith s p = true <-> exists rest, s = (p ++ rest)%string.
Proof.
  revert s; induction p as [|b p IH]; intros s; simpl.
  - split; [intros _; now exists s | reflexivity].
  - destruct s as [|a s].
    + split; [discriminate | intros [rest H]; discriminate].
    + rewrite andb_true_iff, IH, Ascii.eqb_eq.
      split.
      * intros [-> [rest ->]]. now exists rest.
      * intros [rest H]. injection H as -> ->. split; [reflexivity | now exists rest].
Qed.

End PyFacts.

(* ================================================================= *)
(** ** Query classification and [execute_query] *)

Ltac exec_unfold :=
  unfold bind, ret, gets, modify, try_catch, raise, zoom in *.

Section Classification.

Import DatabaseConnector.

Local Arguments is_select : simpl never.
Local Arguments app : simpl never.

(** A statement that is not a SELECT: executed, then committed; a rollback
    is attempted when either step raises. *)
Lemma execute_query_mutating (q : string) (params : option (list value))
    (c : t) (s : session) (cur : cursor_state) :
  connection c = Some s -> cursor c = Some cur -> is_select q = false ->
  let (r, c') := execute_query q params c in
  (r = Ret (Some []) /\
     calls c' = calls c ++ [EvExecute q (args_of params); EvCommit])
  \/ (r = Ret None /\
     exists mid, calls c' = calls c ++ EvExecute q (args_of params) :: mid ++ [EvRollback]).
Proof.
  intros Hc Hcur Hsel.
  unfold execute_query. exec_unfold. cbn. rewrite Hc, Hcur, Hsel. cbn.
  unfold cursor_execute. rewrite Hc, Hcur.
  destruct (is_open s) eqn:Hopen.
  - destruct (eng_execute (backend c) (calls c) q (args_of params)) as [|rows desc].
    + unfold connection_rollback. cbn. rewrite Hc, Hopen. cbn.
      destruct (eng_rollback _ _); cbn; right; (split; [reflexivity|]);
        exists []; cbn; now rewrite <- app_assoc.
    + unfold connection_commit. cbn. rewrite Hc, Hopen. cbn.
      destruct (eng_commit _ _); cbn.
      * left. split; [reflexivity|]. now rewrite <- app_assoc.
      * unfold connection_rollback. cbn. rewrite Hc, Hopen. cbn.
        destruct (eng_rollback _ _); cbn; right; (split; [reflexivity|]);
          exists [EvCommit]; cbn; now rewrite <- !app_assoc.
  - unfold connection_rollback. cbn. rewrite Hc, Hopen. cbn.
    right. split; [reflexivity|]. exists []. cbn. now rewrite <- app_assoc.
Qed.

(** A SELECT: executed and fetched, never committed nor rolled back. *)
Lemma execute_query_read (q : string) (params : option (list value))
    (c : t) (s : session) (cur : cursor_state) :
  connection c = Some s -> cursor c = Some cur -> is_select q = true ->
  let (r, c') := execute_query q params c in
  calls c' = calls c ++ [EvExecute q (args_of params)]
  \/ calls c' = calls c ++ [EvExecute q (args_of params); EvFetchAll].
Proof.
  intros Hc Hcur Hsel.
  unfold execute_query. exec_unfold. cbn. rewrite Hc, Hcur, Hsel. cbn.
  unfold cursor_execute. rewrite Hc, Hcur.
  destruct (is_open s) eqn:Hopen; [|cbn; now left].
  destruct (eng_execute (backend c) (calls c) q (args_of params)) as [|rows desc];
    [cbn; now left|].
  unfold cursor_fetchall. cbn.
  destruct rows; cbn; right; now rewrite <- app_assoc.
Qed.

(** C8 (as amended): a statement is a read query exactly when its trimmed,
    upper-cased text has the six characters SELECT as a prefix, whatever
    follows them; on a connected connector a read query is executed and
    fetched without commit or rollback, and every other statement is
    committed right after it executed, with a rollback attempted when the
    execution or the commit raises. *)
Theorem query_classification (q : string) (params : option (list value))
    (c : t) (s : session) (cur : cursor_state)
    (Hc : connection c = Some s) (Hcur : cursor c = Some cur) :
  (is_select q = true <->
     exists rest, Py.upper (Py.strip q) = ("SELECT" ++ rest)%string)
  /\ (let (r, c') := execute_query q params c in
      if is_select q then
        calls c' = calls c ++ [EvExecute q (args_of params)]
        \/ calls c' = calls c ++ [EvExecute q (args_of params); EvFetchAll]
      else
        (r = Ret (Some []) /\
           calls c' = calls c ++ [EvExecute q (args_of params); EvCommit])
        \/ (r = Ret None /\
           exists mid,
             calls c' = calls c ++ EvExecute q (args_of params) :: mid ++ [EvRollback])).
Proof.
  split.
  - unfold is_select. apply startswith_iff.
  - destruct (is_select q) eqn:Hsel.
    + now apply (execute_query_read q params c s cur).
    + now apply (execute_query_mutating q params c s cur).
Qed.

Lemma query_classification_witness :
  let c := Sample.connected Sample.healthy in
  (is_select "DELETE FROM t" = true <->
     exists rest, Py.upper (Py.strip "DELETE FROM t") = ("SELECT" ++ rest)%string)
  /\ (let (r, c') := execute_query "DELETE FROM t" None c in
      if is_select "DELETE FROM t" then
        calls c' = calls c ++ [EvExecute "DELETE FROM t" (args_of None)]
        \/ calls c' = calls c ++ [EvExecute "DELETE FROM t" (args_of None); EvFetchAll]
      else
        (r = Ret (Some []) /\
           calls c' = calls c ++ [EvExecute "DELETE FROM t" (args_of None); EvCommit])
        \/ (r = Ret None /\
           exists mid,
             calls c' = calls c ++ EvExecute "DELETE FROM t" (args_of None)
                                     :: mid ++ [EvRollback])).
Proof.
  exact (query_classification "DELETE FROM t" None (Sample.connected Sample.healthy)
           {| is_open := true; pending_inserts := [] |}
           {| description := None; fetched := None |} eq_refl eq_refl).
Defined.

(** C8 (as stated) fails: SELECTED is a longer word with SELECT as a
    prefix, not the token SELECT, and it is classified as a read query. *)
Lemma select_prefix_is_not_token :
  is_select "SELECTED FROM t" = true
  /\ Stated.begins_with_select_token "SELECTED FROM t" = false.
Proof. split; reflexivity. Qed.

End Classification.

(* ================================================================= *)
(** ** Extraction *)

Section Extraction.

Import DataExtractor.

(** C9: a query that is not a read query makes [extract_data] return
    failure and leaves the extractor and its connector as they were: no
    connect is attempted, no statement is executed. *)
Theorem extract_data_rejects_non_select (q : string) (params : option (list value))
    (x : t) (Hq : DatabaseConnector.is_select q = false) :
  extract_data q params x = (Ret false, x).
Proof.
  unfold extract_data. rewrite Hq. reflexivity.
Qed.

Lemma extract_data_rejects_non_select_witness :
  extract_data "DELETE FROM clientes" None
    (init (DatabaseConnector.init "sqlite" Sample.healthy))
  = (Ret false, init (DatabaseConnector.init "sqlite" Sample.healthy)).
Proof.
  apply (extract_data_rejects_non_select "DELETE FROM clientes" None
           (init (DatabaseConnector.init "sqlite" Sample.healthy))).
  reflexivity.
Defined.

End Extraction.

(* ================================================================= *)
(** ** Batch partitioning *)

Section Batching.

Import DatabaseConnector DataLoader.

Context {A : Type}.

(** A slice with bounds [0 <= i <= j] needs no normalisation. *)
Lemma slice_firstn_skipn (xs : list A) (i j : Z) :
  (0 <= i <= j)%Z ->
  Py.slice xs i j = firstn (Z.to_nat j - Z.to_nat i) (skipn (Z.to_nat i) xs).
Proof.
  intros Hij. unfold Py.slice, Py.clamp.
  destruct (i <? 0)%Z eqn:Hi; [apply Z.ltb_lt in Hi; lia|].
  destruct (j <? 0)%Z eqn:Hj; [apply Z.ltb_lt in Hj; lia|].
  set (len := Z.of_nat (length xs)).
  destruct (Z.le_gt_cases i len) as [Hle|Hgt].
  - rewrite (Z.max_r 0 (Z.min len i)) by lia.
    rewrite (Z.min_r len i) by lia.
    destruct (Z.le_gt_cases j len) as [Hjle|Hjgt].
    + rewrite (Z.max_r 0 (Z.min len j)) by lia.
      rewrite (Z.min_r len j) by lia.
      f_equal. lia.
    + rewrite (Z.max_r 0 (Z.min len j)) by lia.
      rewrite (Z.min_l len j) by lia.
      rewrite !firstn_all2; [reflexivity| |]; rewrite length_skipn; subst len; lia.
  - rewrite (Z.min_l len i) by lia.
    rewrite (Z.min_l len j) by lia.
    rewrite !skipn_all2; [now rewrite !firstn_nil| |]; subst len; lia.
Qed.

(** The [k]-th chunk of [b] elements. *)
Lemma chunk_slice (xs : list A) (b : Z) (k : nat) :
  (0 < b)%Z ->
  Py.slice xs (0 + Z.of_nat k * b) (0 + Z.of_nat k * b + b)
  = firstn (Z.to_nat b) (skipn (k * Z.to_nat b) xs).
Proof.
  intros Hb. rewrite slice_firstn_skipn by nia.
  f_equal; [|f_equal]; nia.
Qed.

Lemma firstn_plus (xs : list A) (m n : nat) :
  firstn (m + n) xs = firstn m xs ++ firstn n (skipn m xs).
Proof.
  revert xs; induction m as [|m IH]; intros xs; [reflexivity|].
  destruct xs as [|x xs]; cbn; [now rewrite firstn_nil | now rewrite IH].
Qed.

Lemma concat_chunks (xs : list A) (b m : nat) :
  concat (map (fun k => firstn b (skipn (k * b) xs)) (seq 0 m)) = firstn (m * b) xs.
Proof.
  induction m as [|m IH]; [reflexivity|].
  rewrite seq_S, map_app, concat_app, IH. cbn [map concat].
  rewrite app_nil_r, <- firstn_plus. f_equal. lia.
Qed.

Lemma for_each_map {S B : Type} (f : B -> A) (xs : list B) (body : A -> M S unit) (s : S) :
  for_each (map f xs) body s = for_each xs (fun x => body (f x)) s.
Proof.
  revert s; induction xs as [|x xs IH]; intros s; [reflexivity|].
  cbn. unfold bind. destruct (body (f x) s) as [[[]|] s']; [apply IH | reflexivity].
Qed.

End Batching.

Section BatchPartition.

Import DatabaseConnector DataLoader.

Lemma range_len_positive (n b : Z) :
  (0 <= n)%Z -> (0 < b)%Z ->
  let m := Py.range_len 0 n b in
  (0 <= m)%Z /\ m = Stated.ceil_div n b
  /\ (n <= m * b)%Z /\ (0 < n -> (m - 1) * b < n)%Z.
Proof.
  intros Hn Hb. unfold Py.range_len, Stated.ceil_div.
  destruct (0 <? b)%Z eqn:Eb; [|apply Z.ltb_ge in Eb; lia].
  assert (Hceil : (- (- n / b) = (n + b - 1) / b)%Z).
  { pose proof (Z.div_mod (- n) b ltac:(lia)) as H1.
    pose proof (Z.mod_pos_bound (- n) b Hb) as H2.
    pose proof (Z.div_mod (n + b - 1) b ltac:(lia)) as H3.
    pose proof (Z.mod_pos_bound (n + b - 1) b Hb) as H4.
    nia. }
  destruct (0 <? n)%Z eqn:En.
  - apply Z.ltb_lt in En.
    replace (n - 0 - 1)%Z with (n - 1)%Z by lia.
    pose proof (Z.div_mod (n - 1) b ltac:(lia)) as H1.
    pose proof (Z.mod_pos_bound (n - 1) b Hb) as H2.
    assert (0 <= (n - 1) / b)%Z by (apply Z.div_pos; lia).
    rewrite Hceil.
    replace (n + b - 1)%Z with (n - 1 + 1 * b)%Z by lia.
    rewrite Z.div_add by lia.
    repeat split; nia.
  - apply Z.ltb_ge in En. assert (n = 0%Z) by lia. subst n.
    cbn [Z.opp]. rewrite Z.div_0_l by lia. repeat split; lia.
Qed.

(** The insertion loop runs over the batches, in order. *)
Lemma insert_batches_for_each (query : string) (rows : list row) (batch_size : Z)
    (parts : list (list row)) (c : t) :
  batches rows batch_size = Some parts ->
  insert_batches query rows batch_size c
  = for_each parts (insert_batch query) c.
Proof.
  unfold batches, insert_batches.
  destruct (Py.range 0 (Z.of_nat (length rows)) batch_size) as [starts|]; [|discriminate].
  intros H. injection H as <-. now rewrite for_each_map.
Qed.

(** C2 (as amended): for a batch size of at least 1, the batches that
    [load_data] inserts are a function of the rows and the batch size
    alone: there are [ceil(len(rows)/batch_size)] of them, every batch but
    the last has exactly [batch_size] rows, the last one has between 1 and
    [batch_size] rows, their concatenation in order is the row sequence
    itself, and the insertion loop runs over exactly these batches. *)
Theorem batches_partition (rows : list row) (batch_size : Z)
    (Hsize : (0 < batch_size)%Z) :
  exists parts,
    batches rows batch_size = Some parts
    /\ Stated.batch_partition rows batch_size parts
    /\ (forall part, nth_error parts (length parts - 1) = Some part ->
          (0 < Z.of_nat (length part) <= batch_size)%Z)
    /\ (forall query c,
          insert_batches query rows batch_size c
          = for_each parts (insert_batch query) c).
Proof.
  set (b := Z.to_nat batch_size).
  set (n := Z.of_nat (length rows)).
  destruct (range_len_positive n batch_size ltac:(lia) Hsize) as (Hm0 & Hceil & Hcover & Hlast).
  set (m := Z.to_nat (Py.range_len 0 n batch_size)) in *.
  assert (Hparts : batches rows batch_size
                   = Some (map (fun k => firstn b (skipn (k * b) rows)) (seq 0 m))).
  { unfold batches, Py.range. fold n.
    destruct (batch_size =? 0)%Z eqn:E; [apply Z.eqb_eq in E; lia|].
    f_equal. rewrite map_map. apply map_ext. intros k.
    now apply chunk_slice. }
  exists (map (fun k => firstn b (skipn (k * b) rows)) (seq 0 m)).
  split; [exact Hparts|].
  assert (Hlen : length (map (fun k => firstn b (skipn (k * b) rows)) (seq 0 m)) = m)
    by now rewrite length_map, length_seq.
  assert (Hnth : forall k part,
             nth_error (map (fun k => firstn b (skipn (k * b) rows)) (seq 0 m)) k = Some part ->
             k < m /\ part = firstn b (skipn (k * b) rows)).
  { intros k part Hk.
    assert (k < m) by (rewrite <- Hlen; apply nth_error_Some; congruence).
    split; [assumption|].
    rewrite nth_error_map, nth_error_seq in Hk.
    destruct (k <? m) eqn:E; [|apply Nat.ltb_ge in E; lia].
    cbn in Hk. congruence. }
  assert (Hb : batch_size = Z.of_nat b) by (subst b; lia).
  assert (Hm : Py.range_len 0 n batch_size = Z.of_nat m) by (subst m; lia).
  assert (Hcover' : length rows <= m * b) by (subst n; nia).
  assert (Hfull : forall k, S k < m -> k * b + b <= length rows).
  { intros k Hk.
    assert ((k + 1) * b <= (m - 1) * b) by (apply Nat.mul_le_mono_r; lia).
    assert (0 < n)%Z by (subst n; destruct rows; [cbn in *; lia | cbn; lia]).
    specialize (Hlast ltac:(assumption)). subst n. nia. }
  assert (Hrest : forall k, k = m - 1 -> 0 < m -> k * b < length rows).
  { intros k -> Hk.
    assert (0 < n)%Z by (subst n; destruct rows; [cbn in *; lia | cbn; lia]).
    specialize (Hlast ltac:(assumption)). subst n. nia. }
  split; [|split].
  - unfold Stated.batch_partition. rewrite Hlen. split; [|split].
    + subst n. rewrite <- Hceil. lia.
    + intros k part Hk Hpart. apply Hnth in Hpart as [_ ->].
      rewrite length_firstn, length_skipn. specialize (Hfull k Hk). lia.
    + rewrite concat_chunks. now apply firstn_all2.
  - rewrite Hlen. intros part Hpart. apply Hnth in Hpart as [Hk ->].
    rewrite length_firstn, length_skipn.
    specialize (Hrest (m - 1) eq_refl ltac:(lia)). lia.
  - intros query c. now apply insert_batches_for_each.
Qed.

Lemma batches_partition_witness :
  exists parts,
    batches Sample.five_rows 2 = Some parts
    /\ Stated.batch_partition Sample.five_rows 2 parts
    /\ (forall part, nth_error parts (length parts - 1) = Some part ->
          (0 < Z.of_nat (length part) <= 2)%Z)
    /\ (forall query c,
          insert_batches query Sample.five_rows 2 c
          = for_each parts (insert_batch query) c).
Proof.
  apply (batches_partition Sample.five_rows 2). lia.
Defined.

(** C2 (as stated) fails for a batch size below 1: with [batch_size = -1]
    the loop builds no batch at all, so the batches do not add up to the
    rows. *)
Lemma negative_batch_size_builds_no_batch :
  batches [[VInt 1]] (-1) = Some []
  /\ ~ Stated.batch_partition [[VInt 1]] (-1) [].
Proof.
  split; [reflexivity|].
  intros (_ & _ & Hconcat). discriminate Hconcat.
Qed.

End BatchPartition.

(* ================================================================= *)
(** ** Column resolution and row projection *)

Section ColumnResolution.

Import DatabaseConnector DataLoader.

Variable column_mapping : Py.dict string.

Lemma dict_mem_get (k : string) :
  Py.dict_mem column_mapping k = true <-> exists v, Py.dict_get column_mapping k = Some v.
Proof.
  unfold Py.dict_mem. destruct (Py.dict_get column_mapping k) as [v|].
  - split; [intros _; now exists v | reflexivity].
  - split; [discriminate | intros [v H]; discriminate].
Qed.

(** What the loop over [enumerate(source_columns)] collects, for an
    enumeration that starts at [k]. *)
Lemma select_columns_from (source_columns : list string) (k : nat) :
  let (dest_columns, source_indices) :=
    select_columns (Py.enumerate_from k source_columns) column_mapping in
  Forall2 (fun i dest =>
             exists col, k <= i /\ nth_error source_columns (i - k) = Some col
                         /\ Py.dict_get column_mapping col = Some dest)
          source_indices dest_columns
  /\ (forall i col, nth_error source_columns i = Some col ->
        (In (k + i) source_indices <-> Py.dict_mem column_mapping col = true))
  /\ (forall i, In i source_indices -> k <= i).
Proof.
  revert k. induction source_columns as [|c rest IH]; intros k; cbn.
  - split; [constructor|split].
    + intros i col H. destruct i; discriminate.
    + intros i [].
  - specialize (IH (S k)).
    destruct (select_columns (Py.enumerate_from (S k) rest) column_mapping)
      as [dest_columns source_indices].
    destruct IH as (Hall & Hin & Hlow).
    assert (Hall' :
              Forall2 (fun i dest =>
                         exists col, k <= i /\ nth_error (c :: rest) (i - k) = Some col
                                     /\ Py.dict_get column_mapping col = Some dest)
                      source_indices dest_columns).
    { eapply Forall2_impl; [|exact Hall]. cbn.
      intros i dest (col & Hle & Hnth & Hget). exists col.
      split; [lia|]. split; [|assumption].
      replace (i - k) with (S (i - S k)) by lia. exact Hnth. }
    destruct (Py.dict_get column_mapping c) as [dest|] eqn:Hget.
    + split; [|split].
      * constructor; [|exact Hall'].
        exists c. rewrite Nat.sub_diag. cbn. auto.
      * intros [|i] col Hnth; cbn in Hnth.
        -- injection Hnth as <-. rewrite Nat.add_0_r. unfold Py.dict_mem. rewrite Hget.
           split; [reflexivity | intros _; now left].
        -- rewrite <- (Hin i col Hnth). cbn.
           replace (k + S i) with (S k + i) by lia.
           split; [intros [H|H]; [lia | exact H] | intros H; now right].
      * intros i [<-|H]; [lia | apply Hlow in H; lia].
    + split; [exact Hall'|split].
      * intros [|i] col Hnth; cbn in Hnth.
        -- injection Hnth as <-. rewrite Nat.add_0_r. unfold Py.dict_mem. rewrite Hget.
           split; [intros H; apply Hlow in H; lia | discriminate].
        -- rewrite <- (Hin i col Hnth).
           now replace (k + S i) with (S k + i) by lia.
      * intros i H. apply Hlow in H. lia.
Qed.

(** No destination column is resolved exactly when no source column is a
    key of the mapping. *)
Lemma select_columns_none (source_columns : list string) :
  fst (select_columns (Py.enumerate source_columns) column_mapping) = []
  <-> (forall col, In col source_columns -> Py.dict_mem column_mapping col = false).
Proof.
  pose proof (select_columns_from source_columns 0) as H. unfold Py.enumerate.
  destruct (select_columns (Py.enumerate_from 0 source_columns) column_mapping)
    as [dest_columns source_indices].
  destruct H as (Hall & Hin & _). cbn [fst]. split.
  - intros ->. inversion Hall; subst. intros col Hcol.
    apply In_nth_error in Hcol as [i Hi].
    destruct (Py.dict_mem column_mapping col) eqn:E; [|reflexivity].
    apply (Hin i col Hi) in E. contradiction.
  - intros Hnone. destruct Hall as [|i dest idxs dests (col & _ & Hnth & Hget) _]; [reflexivity|].
    apply nth_error_In in Hnth. apply Hnone in Hnth.
    unfold Py.dict_mem in Hnth. rewrite Hget in Hnth. discriminate.
Qed.

(** A row at least as wide as the source columns projects, by position, to
    the values under the mapped columns. *)
Lemma filtered_row_from (source_columns : list string) (before r : row) :
  length source_columns <= length r ->
  filtered_row (before ++ r)
    (snd (select_columns (Py.enumerate_from (length before) source_columns)
            column_mapping))
  = Some (Stated.in_source_order source_columns column_mapping r).
Proof.
  revert before r. induction source_columns as [|c rest IH]; intros before r Hlen.
  - reflexivity.
  - destruct r as [|v r]; [cbn in Hlen; lia|]. cbn in Hlen.
    specialize (IH (before ++ [v]) r ltac:(lia)).
    rewrite <- app_assoc, length_app, Nat.add_1_r in IH. cbn [app] in IH.
    cbn [Py.enumerate_from select_columns].
    destruct (select_columns (Py.enumerate_from (S (length before)) rest) column_mapping)
      as [dest_columns source_indices]. cbn [snd] in IH.
    unfold Stated.in_source_order in *. cbn [combine filter fst].
    unfold Py.dict_mem at 1.
    destruct (Py.dict_get column_mapping c) as [dest|]; cbn [snd].
    + cbn [filtered_row]. unfold Py.index.
      rewrite nth_error_app2, Nat.sub_diag by lia. cbn [nth_error].
      rewrite IH. reflexivity.
    + exact IH.
Qed.

Lemma filter_data_in_source_order (source_columns : list string) (data : list row) :
  Forall (fun r => length source_columns <= length r) data ->
  filter_data data
    (snd (select_columns (Py.enumerate source_columns) column_mapping))
  = Some (map (Stated.in_source_order source_columns column_mapping) data).
Proof.
  induction 1 as [|r data Hr _ IH]; [reflexivity|].
  cbn [filter_data map].
  pose proof (filtered_row_from source_columns [] r Hr) as Hrow.
  cbn [app length] in Hrow. unfold Py.enumerate in *.
  rewrite Hrow, IH. reflexivity.
Qed.

End ColumnResolution.

(* ================================================================= *)
(** ** Driver calls made by the loader *)

Section CallsAppended.

Import DatabaseConnector DataLoader.

Variable Q : event -> Prop.

Lemma appends_ret {A : Type} (a : A) : Observed.appends Q (ret a).
Proof. intros c. exists []. cbn. now rewrite app_nil_r. Qed.

Lemma appends_raise {A : Type} : Observed.appends Q (@raise t A).
Proof. intros c. exists []. cbn. now rewrite app_nil_r. Qed.

Lemma appends_gets {A : Type} (f : t -> A) : Observed.appends Q (gets f).
Proof. intros c. exists []. cbn. now rewrite app_nil_r. Qed.

Lemma appends_bind {A B : Type} (m : M t A) (k : A -> M t B) :
  Observed.appends Q m -> (forall a, Observed.appends Q (k a)) ->
  Observed.appends Q (bind m k).
Proof.
  intros Hm Hk c. destruct (Hm c) as (evs & E & F). unfold bind.
  destruct (m c) as [[a|] c1]; cbn [snd] in *.
  - destruct (Hk a c1) as (evs' & E' & F'). exists (evs ++ evs').
    rewrite E', E, app_assoc. split; [reflexivity | now apply Forall_app].
  - now exists evs.
Qed.

Lemma appends_try_catch {A : Type} (m h : M t A) :
  Observed.appends Q m -> Observed.appends Q h -> Observed.appends Q (try_catch m h).
Proof.
  intros Hm Hh c. destruct (Hm c) as (evs & E & F). unfold try_catch.
  destruct (m c) as [[a|] c1]; cbn [snd] in *.
  - now exists evs.
  - destruct (Hh c1) as (evs' & E' & F'). exists (evs ++ evs').
    rewrite E', E, app_assoc. split; [reflexivity | now apply Forall_app].
Qed.

Lemma appends_for_each {A : Type} (xs : list A) (body : A -> M t unit) :
  (forall x, Observed.appends Q (body x)) -> Observed.appends Q (for_each xs body).
Proof.
  intros Hbody. induction xs as [|x xs IH]; cbn [for_each].
  - apply appends_ret.
  - apply appends_bind; [apply Hbody | intros _; exact IH].
Qed.

Ltac appends_primitive :=
  let c := fresh "c" in
  intros c; cbn;
  repeat match goal with
         | |- context [match ?x with _ => _ end] => destruct x; cbn
         end;
  first [ exists []; rewrite app_nil_r; split; [reflexivity | constructor]
        | eexists [_]; split; [reflexivity | repeat constructor; assumption] ].

Lemma cursor_executemany_appends (q : string) (batch : list row) :
  Q (EvExecuteMany q batch) -> Observed.appends Q (cursor_executemany q batch).
Proof. intros HQ. unfold cursor_executemany. appends_primitive. Qed.

Lemma connection_commit_appends :
  Q EvCommit -> Observed.appends Q connection_commit.
Proof. intros HQ. unfold connection_commit. appends_primitive. Qed.

Lemma connection_rollback_appends :
  Q EvRollback -> Observed.appends Q connection_rollback.
Proof. intros HQ. unfold connection_rollback. appends_primitive. Qed.

End CallsAppended.

Section LoaderCalls.

Import DatabaseConnector DataLoader.

Lemma slice_incl {A : Type} (xs : list A) (i j : Z) : incl (Py.slice xs i j) xs.
Proof.
  unfold Py.slice. intros x Hx.
  set (lo := Z.to_nat (Py.clamp (Z.of_nat (length xs)) i)) in *.
  set (n := Z.to_nat (Py.clamp (Z.of_nat (length xs)) j
                      - Py.clamp (Z.of_nat (length xs)) i)) in *.
  rewrite <- (firstn_skipn lo xs). apply in_or_app. right.
  rewrite <- (firstn_skipn n (skipn lo xs)). apply in_or_app. now left.
Qed.

(** Connecting makes opening calls only and commits nothing. *)
Lemma ensure_connected_calls (c : t) :
  exists evs,
    calls (snd (ensure_connected c)) = calls c ++ evs
    /\ Forall (fun e => Observed.opening_call e = true) evs
    /\ committed_inserts (snd (ensure_connected c)) = committed_inserts c.
Proof.
  unfold ensure_connected, connect, driver_connect, connection_cursor.
  exec_unfold. cbn.
  destruct (connection c) as [s|]; cbn.
  - exists []. rewrite app_nil_r. auto.
  - destruct (supported (db_type c)); cbn;
      [|exists []; rewrite app_nil_r; auto].
    destruct (eng_connect (backend c) (calls c)); cbn;
      [|exists [EvConnect]; auto].
    destruct (eng_cursor (backend c) (calls c ++ [EvConnect])); cbn;
      exists [EvConnect; EvCursor]; rewrite <- app_assoc; auto.
Qed.

(** Connecting leaves the engine type as it is, and a loader that got
    connected has a connection. *)
Lemma ensure_connected_session (c c' : t) :
  ensure_connected c = (Ret true, c') ->
  db_type c' = db_type c /\ exists s, connection c' = Some s.
Proof.
  unfold ensure_connected, connect, driver_connect, connection_cursor.
  exec_unfold. cbn.
  destruct (connection c) as [s|] eqn:Hc; cbn.
  - intros H. injection H as <-. eauto.
  - destruct (supported (db_type c)); cbn; [|discriminate].
    destruct (eng_connect (backend c) (calls c)); cbn; [|discriminate].
    destruct (eng_cursor (backend c) (calls c ++ [EvConnect])); cbn; [|discriminate].
    intros H. injection H as <-. cbn. eauto.
Qed.

Lemma ensure_connected_db_type (c : t) :
  db_type (snd (ensure_connected c)) = db_type c.
Proof.
  unfold ensure_connected, connect, driver_connect, connection_cursor.
  exec_unfold. cbn.
  destruct (connection c) as [s|]; cbn; [reflexivity|].
  destruct (supported (db_type c)); cbn; [|reflexivity].
  destruct (eng_connect (backend c) (calls c)); cbn; [|reflexivity].
  destruct (eng_cursor (backend c) (calls c ++ [EvConnect])); reflexivity.
Qed.

(** Whatever the engine does, the insertion phase calls the driver only to
    insert rows taken from the rows it was given, with the INSERT statement
    over the resolved columns, to commit and to roll back. *)
Lemma insert_all_calls (target_table : string) (dest_columns : list string)
    (rows : list row) (batch_size : Z) (c : t) :
  exists evs,
    calls (snd (insert_all target_table dest_columns rows batch_size c)) = calls c ++ evs
    /\ Forall (fun e =>
                 (exists batch,
                     e = EvExecuteMany (insert_query (db_type c) target_table dest_columns)
                           batch
                     /\ incl batch rows)
                 \/ e = EvCommit \/ e = EvRollback) evs.
Proof.
  set (query := insert_query (db_type c) target_table dest_columns).
  set (Q := fun e => (exists batch, e = EvExecuteMany query batch /\ incl batch rows)
                     \/ e = EvCommit \/ e = EvRollback).
  assert (H : Observed.appends Q
                (try_catch
                   (insert_batches query rows batch_size ;; ret Succeeded)
                   (try_catch connection_rollback (ret tt) ;; ret (Failed LoadError)))).
  { apply appends_try_catch.
    - apply appends_bind; [|intros _; apply appends_ret].
      unfold insert_batches. destruct (Py.range _ _ _); [|apply appends_raise].
      apply appends_for_each. intros i. unfold insert_batch.
      apply appends_bind;
        [apply cursor_executemany_appends | intros _; apply connection_commit_appends].
      + left. eexists. split; [reflexivity | apply slice_incl].
      + right; now left.
    - apply appends_bind; [|intros _; apply appends_ret].
      apply appends_try_catch; [|apply appends_ret].
      apply connection_rollback_appends. right; now right. }
  exact (H c).
Qed.

(** The batches of a positive batch size, as chunks of the rows. *)
Lemma batches_chunks (rows : list row) (batch_size : Z) :
  (0 < batch_size)%Z ->
  batches rows batch_size
  = Some (map (fun k => firstn (Z.to_nat batch_size)
                          (skipn (k * Z.to_nat batch_size) rows))
              (seq 0 (Z.to_nat (Py.range_len 0 (Z.of_nat (length rows)) batch_size)))).
Proof.
  intros Hsize. unfold batches, Py.range.
  destruct (batch_size =? 0)%Z eqn:E; [apply Z.eqb_eq in E; lia|].
  f_equal. rewrite map_map. apply map_ext. intros k. now apply chunk_slice.
Qed.

(** On a loader with a connection and a cursor, the insertion phase of
    non-empty rows with a positive batch size starts with the insert of the
    first [batch_size] rows, under the INSERT statement over the resolved
    columns. *)
Lemma insert_all_first_insert (target_table : string) (dest_columns : list string)
    (rows : list row) (batch_size : Z) (c : t) (s : session) (cur : cursor_state) :
  connection c = Some s -> cursor c = Some cur ->
  rows <> [] -> (0 < batch_size)%Z ->
  exists tail,
    calls (snd (insert_all target_table dest_columns rows batch_size c))
    = calls c
        ++ EvExecuteMany (insert_query (db_type c) target_table dest_columns)
             (firstn (Z.to_nat batch_size) rows)
        :: tail.
Proof.
  intros Hc Hcur Hrows Hsize.
  set (query := insert_query (db_type c) target_table dest_columns).
  destruct (range_len_positive (Z.of_nat (length rows)) batch_size ltac:(lia) Hsize)
    as (Hm0 & _ & Hcover & _).
  assert (Hm : exists m, Z.to_nat (Py.range_len 0 (Z.of_nat (length rows)) batch_size)
                         = S m).
  { destruct (Z.to_nat (Py.range_len 0 (Z.of_nat (length rows)) batch_size)) eqn:E;
      [|eauto].
    assert (Py.range_len 0 (Z.of_nat (length rows)) batch_size = 0%Z) as E0 by lia.
    rewrite E0 in Hcover. destruct rows; [contradiction|]. cbn [length] in Hcover. lia. }
  destruct Hm as [m Hm].
  pose proof (batches_chunks rows batch_size Hsize) as Hparts.
  rewrite Hm in Hparts. cbn [seq map Nat.mul skipn] in Hparts.
  set (first := firstn (Z.to_nat batch_size) rows) in *.
  set (rest := map _ (seq 1 m)) in Hparts.
  set (grows := fun _ : event => True).
  assert (Hrest : Observed.appends grows
                    (connection_commit ;; for_each rest (insert_batch query))%exec).
  { apply appends_bind; [now apply connection_commit_appends | intros _].
    apply appends_for_each. intros b. unfold insert_batch.
    apply appends_bind;
      [now apply cursor_executemany_appends
      | intros _; now apply connection_commit_appends]. }
  assert (Hhandler : Observed.appends grows
                       (try_catch connection_rollback (ret tt) ;; ret (Failed LoadError))%exec).
  { apply appends_bind; [|intros _; apply appends_ret].
    apply appends_try_catch; [now apply connection_rollback_appends | apply appends_ret]. }
  unfold insert_all. unfold bind at 1, gets at 1. fold query.
  unfold try_catch at 1. unfold bind at 1.
  rewrite (insert_batches_for_each query rows batch_size _ c Hparts).
  cbn [for_each]. unfold bind at 1. unfold insert_batch at 1. unfold bind at 1.
  assert (Hfirst : calls (snd (cursor_executemany query first c))
                   = calls c ++ [EvExecuteMany query first]).
  { unfold cursor_executemany. rewrite Hcur, Hc.
    destruct (is_open s); [destruct (eng_executemany _ _ _ _)|]; reflexivity. }
  destruct (cursor_executemany query first c) as [[[]|] c1]; cbn [snd] in Hfirst.
  - specialize (Hrest c1). destruct Hrest as (evs & E & _).
    unfold bind at 1 in E.
    destruct (connection_commit c1) as [[[]|] c2]; cbn [snd] in E.
    + destruct (for_each rest (insert_batch query) c2) as [[[]|] c3]; cbn [snd] in E.
      * cbn. exists evs. now rewrite E, Hfirst, <- app_assoc.
      * destruct (Hhandler c3) as (evs' & E' & _).
        exists (evs ++ evs'). rewrite E', E, Hfirst, <- !app_assoc. reflexivity.
    + destruct (Hhandler c2) as (evs' & E' & _).
      exists (evs ++ evs'). rewrite E', E, Hfirst, <- !app_assoc. reflexivity.
  - destruct (Hhandler c1) as (evs' & E' & _).
    exists evs'. rewrite E', Hfirst, <- !app_assoc. reflexivity.
Qed.

End LoaderCalls.

Section LoadPlan.

Import DatabaseConnector DataLoader.

(** The insertion phase ends in success or in a load error, never in an
    exception and never in another error. *)
Lemma insert_all_status (target_table : string) (dest_columns : list string)
    (data_to_insert : list row) (batch_size : Z) (c : t) :
  fst (insert_all target_table dest_columns data_to_insert batch_size c) = Ret Succeeded
  \/ fst (insert_all target_table dest_columns data_to_insert batch_size c)
     = Ret (Failed LoadError).
Proof.
  unfold insert_all. exec_unfold. cbn.
  destruct (insert_batches _ _ _ c) as [[[]|] c']; cbn; [now left|].
  destruct (connection_rollback c') as [[[]|] c'']; cbn; now right.
Qed.

Lemma ensure_connected_present (c : t) (s : session) :
  connection c = Some s -> ensure_connected c = (Ret true, c).
Proof.
  intros Hc. unfold ensure_connected. exec_unfold. cbn. now rewrite Hc.
Qed.

(** [load_data] with a non-empty mapping, on a connected loader. *)
Lemma load_data_mapped (data : list row) (source_columns : list string)
    (target_table : string) (target_columns : option (list string))
    (column_mapping : Py.dict string) (batch_size : Z) (c : t) (s : session) :
  data <> [] -> source_columns <> [] -> column_mapping <> [] ->
  connection c = Some s ->
  load_data data source_columns target_table target_columns (Some column_mapping)
    batch_size c
  = match fst (select_columns (Py.enumerate source_columns) column_mapping) with
    | [] => (Ret (Failed NoMappedColumnsError), c)
    | dest_columns =>
        match filter_data data
                (snd (select_columns (Py.enumerate source_columns) column_mapping)) with
        | None => (Raise, c)
        | Some filtered_data =>
            insert_all target_table dest_columns filtered_data batch_size c
        end
    end.
Proof.
  intros Hdata Hcols Hmap Hc.
  destruct data as [|r data]; [contradiction|].
  destruct source_columns as [|col source_columns]; [contradiction|].
  destruct column_mapping as [|entry column_mapping]; [contradiction|].
  unfold load_data. cbn [Py.truthy negb orb]. unfold bind at 1.
  rewrite (ensure_connected_present c s Hc). cbn [negb].
  destruct (select_columns _ _) as [dest_columns source_indices]. cbn [fst snd].
  destruct dest_columns; [reflexivity|]. cbn [Py.truthy negb].
  destruct (filter_data _ _); reflexivity.
Qed.

Lemma keys_dict_mem (column_mapping : Py.dict string) (k : string) :
  In k (Py.keys column_mapping) -> Py.dict_mem column_mapping k = true.
Proof.
  unfold Py.dict_mem, Py.keys.
  induction column_mapping as [|[k' v] rest IH]; cbn; [contradiction|].
  intros [->|H].
  - now rewrite String.eqb_refl.
  - destruct (String.eqb k k'); [reflexivity | now apply IH].
Qed.

(** [connect] reports an error by its result only. *)
Lemma connect_returns (c : t) : exists ok, fst (connect c) = Ret ok.
Proof.
  unfold connect, try_catch.
  match goal with |- context [match ?m c with _ => _ end] =>
    destruct (m c) as [[ok|] c'] end; cbn; now eexists.
Qed.

Lemma ensure_connected_returns (c : t) : exists ok, fst (ensure_connected c) = Ret ok.
Proof.
  unfold ensure_connected. exec_unfold. cbn.
  destruct (connection c); [now eexists | apply connect_returns].
Qed.

(** [load_data] with a non-empty mapping, step by step. *)
Lemma load_data_mapped_steps (data : list row) (source_columns : list string)
    (target_table : string) (target_columns : option (list string))
    (column_mapping : Py.dict string) (batch_size : Z) (c : t) :
  column_mapping <> [] ->
  load_data data source_columns target_table target_columns (Some column_mapping)
    batch_size c
  = if negb (Py.truthy data) || negb (Py.truthy source_columns)
    then (Ret (Failed EmptyInputError), c)
    else
      match ensure_connected c with
      | (Ret true, c') =>
          match fst (select_columns (Py.enumerate source_columns) column_mapping) with
          | [] => (Ret (Failed NoMappedColumnsError), c')
          | dest_columns =>
              match filter_data data
                      (snd (select_columns (Py.enumerate source_columns)
                              column_mapping)) with
              | None => (Raise, c')
              | Some filtered_data =>
                  insert_all target_table dest_columns filtered_data batch_size c'
              end
          end
      | (Ret false, c') => (Ret (Failed ConnectionError), c')
      | (Raise, c') => (Raise, c')
      end.
Proof.
  intros Hmap. unfold load_data.
  destruct column_mapping as [|entry rest]; [contradiction|].
  destruct (negb (Py.truthy data) || negb (Py.truthy source_columns));
    [reflexivity|].
  unfold bind at 1. destruct (ensure_connected c) as [[[|]|] c']; try reflexivity.
  cbn [negb]. destruct (select_columns _ _) as [ds idxs]. cbn [fst snd].
  destruct ds; [reflexivity|]. cbn [Py.truthy negb].
  destruct (filter_data _ _); reflexivity.
Qed.

(** C3: in every call of [load_data] with a non-empty mapping, the resolved
    columns are exactly the source columns that are keys of the mapping,
    each under its mapped name, and the other source columns are dropped
    from every row that has a value for each source column, without error;
    the call ends with the no-mapped-columns error only if no source column
    is a key of the mapping, it fails whenever no source column is a key,
    and with that very error once the rows and source columns are non-empty
    and the loader is connected or gets connected; [target_columns] plays no
    part in the outcome. When some source column is a key, a call that gets
    past the connection hands the projected rows to the insertion phase
    under the mapped names. Whatever the engine does, every insert that the
    driver sees in the call carries the INSERT statement over the mapped
    names and rows taken from the projected rows; and on a loader with a
    cursor, for a positive batch size, the first driver call after
    connecting is the insert of the first [batch_size] projected rows. *)
Theorem mapped_columns_resolution (data : list row) (source_columns : list string)
    (target_table : string) (target_columns : option (list string))
    (column_mapping : Py.dict string) (batch_size : Z) (c : t)
    (Hmap : column_mapping <> []) :
  let (dest_columns, source_indices) :=
    select_columns (Py.enumerate source_columns) column_mapping in
  let outcome :=
    load_data data source_columns target_table target_columns
      (Some column_mapping) batch_size c in
  let no_match :=
    forall col, In col source_columns -> Py.dict_mem column_mapping col = false in
  let some_match :=
    exists col, In col source_columns /\ Py.dict_mem column_mapping col = true in
  Forall2 (fun i dest =>
             exists col, nth_error source_columns i = Some col
                         /\ Py.dict_get column_mapping col = Some dest)
          source_indices dest_columns
  /\ (forall i col, nth_error source_columns i = Some col ->
        (In i source_indices <-> Py.dict_mem column_mapping col = true))
  /\ (Forall (fun r => length source_columns <= length r) data ->
      filter_data data source_indices
      = Some (map (Stated.in_source_order source_columns column_mapping) data))
  /\ (fst outcome = Ret (Failed NoMappedColumnsError) -> no_match)
  /\ (no_match -> exists e, fst outcome = Ret (Failed e))
  /\ (data <> [] -> source_columns <> [] -> connection c <> None -> no_match ->
      outcome = (Ret (Failed NoMappedColumnsError), c))
  /\ outcome
     = load_data data source_columns target_table None
         (Some column_mapping) batch_size c
  /\ (forall c', data <> [] -> source_columns <> [] ->
        ensure_connected c = (Ret true, c') ->
        (no_match -> outcome = (Ret (Failed NoMappedColumnsError), c'))
        /\ (some_match ->
            dest_columns <> []
            /\ outcome
               = match filter_data data source_indices with
                 | Some filtered_data =>
                     insert_all target_table dest_columns filtered_data batch_size c'
                 | None => (Raise, c')
                 end))
  /\ (exists evs,
        calls (snd outcome) = calls c ++ evs
        /\ forall q batch, In (EvExecuteMany q batch) evs ->
             q = insert_query (db_type c) target_table dest_columns
             /\ exists filtered_data,
                  filter_data data source_indices = Some filtered_data
                  /\ incl batch filtered_data)
  /\ (forall c' cur, data <> [] -> source_columns <> [] ->
        ensure_connected c = (Ret true, c') -> cursor c' = Some cur ->
        (0 < batch_size)%Z ->
        Forall (fun r => length source_columns <= length r) data ->
        some_match ->
        exists tail,
          calls (snd outcome)
          = calls c'
              ++ EvExecuteMany (insert_query (db_type c) target_table dest_columns)
                   (firstn (Z.to_nat batch_size)
                      (map (Stated.in_source_order source_columns column_mapping) data))
              :: tail).
Proof.
  pose proof (select_columns_from column_mapping source_columns 0) as Hsel.
  pose proof (select_columns_none column_mapping source_columns) as Hnone.
  pose proof (filter_data_in_source_order column_mapping source_columns data) as Hrows.
  pose proof (fun tc => load_data_mapped_steps data source_columns target_table tc
                          column_mapping batch_size c Hmap) as Hsteps.
  unfold Py.enumerate in *.
  destruct (select_columns (Py.enumerate_from 0 source_columns) column_mapping)
    as [dest_columns source_indices].
  cbn [fst snd] in *. cbv zeta. destruct Hsel as (Hall & Hin & _).
  assert (Hsome : (exists col, In col source_columns
                               /\ Py.dict_mem column_mapping col = true) ->
                  dest_columns <> []).
  { intros (col & Hcol & Hmem) ->.
    rewrite (proj1 Hnone eq_refl col Hcol) in Hmem. discriminate. }
  split; [|split; [|split; [|split; [|split; [|split; [|split; [|split; [|split]]]]]]]].
  - eapply Forall2_impl; [|exact Hall]. cbn.
    intros i dest (col & _ & Hnth & Hget). rewrite Nat.sub_0_r in Hnth. eauto.
  - exact Hin.
  - exact Hrows.
  - rewrite Hsteps.
    destruct (negb (Py.truthy data) || negb (Py.truthy source_columns));
      [discriminate|].
    destruct (ensure_connected c) as [[[|]|] c']; try discriminate.
    destruct dest_columns as [|d ds]; [intros _; now apply Hnone|].
    destruct (filter_data data source_indices) as [filtered_data|]; [|discriminate].
    intros H.
    destruct (insert_all_status target_table (d :: ds) filtered_data batch_size c')
      as [E|E]; rewrite E in H; discriminate.
  - intros Hno. apply Hnone in Hno. subst dest_columns. rewrite Hsteps.
    destruct (negb (Py.truthy data) || negb (Py.truthy source_columns));
      [now eexists|].
    destruct (ensure_connected_returns c) as [ok Hok].
    destruct (ensure_connected c) as [r c']. cbn in Hok. subst r.
    destruct ok; now eexists.
  - intros Hdata Hcols Hconn Hno. apply Hnone in Hno. subst dest_columns.
    rewrite Hsteps.
    destruct data as [|r data]; [contradiction|].
    destruct source_columns as [|col source_columns]; [contradiction|].
    cbn [Py.truthy negb orb].
    destruct (connection c) as [sess|] eqn:Hc; [|contradiction].
    now rewrite (ensure_connected_present c sess Hc).
  - now rewrite !Hsteps.
  - intros c' Hdata Hcols Hconn. rewrite Hsteps, Hconn.
    destruct data as [|r data]; [contradiction|].
    destruct source_columns as [|col source_columns]; [contradiction|].
    cbn [Py.truthy negb orb]. split.
    + intros Hno. apply Hnone in Hno. now subst dest_columns.
    + intros Hmatch. specialize (Hsome Hmatch). split; [exact Hsome|].
      destruct dest_columns as [|d ds]; [contradiction|].
      destruct (filter_data _ source_indices); reflexivity.
  - rewrite Hsteps.
    destruct (negb (Py.truthy data) || negb (Py.truthy source_columns)).
    { exists []. cbn. rewrite app_nil_r. split; [reflexivity | intros q batch []]. }
    destruct (ensure_connected_calls c) as (evs0 & Hcalls0 & Hopening & _).
    pose proof (ensure_connected_db_type c) as Hdb.
    assert (Hnone_inserted : forall q batch, ~ In (EvExecuteMany q batch) evs0).
    { intros q batch Hq. rewrite Forall_forall in Hopening.
      apply Hopening in Hq. discriminate Hq. }
    destruct (ensure_connected c) as [[[|]|] c']; cbn [snd] in *;
      try (exists evs0; split; [exact Hcalls0 | intros q batch Hq];
           now apply Hnone_inserted in Hq).
    destruct dest_columns as [|d ds];
      [exists evs0; split; [exact Hcalls0 | intros q batch Hq];
       now apply Hnone_inserted in Hq|].
    destruct (filter_data data source_indices) as [filtered_data|];
      [|exists evs0; split; [exact Hcalls0 | intros q batch Hq];
        now apply Hnone_inserted in Hq].
    destruct (insert_all_calls target_table (d :: ds) filtered_data batch_size c')
      as (evs1 & Hcalls1 & Hinserts).
    exists (evs0 ++ evs1). split; [now rewrite Hcalls1, Hcalls0, app_assoc|].
    intros q batch Hq. apply in_app_or in Hq as [Hq|Hq];
      [now apply Hnone_inserted in Hq|].
    rewrite Forall_forall in Hinserts.
    destruct (Hinserts _ Hq) as [(b & Hb & Hincl)|[Hb|Hb]]; try discriminate Hb.
    injection Hb as -> ->. rewrite Hdb. eauto.
  - intros c' cur Hdata Hcols Hconn Hcur Hsize Hwide Hmatch.
    specialize (Hsome Hmatch). specialize (Hrows Hwide).
    destruct (ensure_connected_session c c' Hconn) as (Hdb & sess & Hsess).
    rewrite Hsteps, Hconn, Hrows.
    destruct data as [|r data]; [contradiction|].
    destruct source_columns as [|col source_columns]; [contradiction|].
    cbn [Py.truthy negb orb].
    destruct dest_columns as [|d ds]; [contradiction|].
    rewrite <- Hdb.
    apply (insert_all_first_insert target_table (d :: ds) _ batch_size c' sess cur
             Hsess Hcur); [discriminate | exact Hsize].
Qed.

Lemma mapped_columns_resolution_witness :
  let (dest_columns, source_indices) :=
    select_columns (Py.enumerate Sample.clientes_columns) Sample.reordered_mapping in
  let c := Sample.connected Sample.healthy in
  let outcome :=
    load_data Sample.clientes_rows Sample.clientes_columns "t" (Some ["a"])
      (Some Sample.reordered_mapping) 2 c in
  let no_match :=
    forall col, In col Sample.clientes_columns ->
                Py.dict_mem Sample.reordered_mapping col = false in
  let some_match :=
    exists col, In col Sample.clientes_columns
                /\ Py.dict_mem Sample.reordered_mapping col = true in
  Forall2 (fun i dest =>
             exists col, nth_error Sample.clientes_columns i = Some col
                         /\ Py.dict_get Sample.reordered_mapping col = Some dest)
          source_indices dest_columns
  /\ (forall i col, nth_error Sample.clientes_columns i = Some col ->
        (In i source_indices <-> Py.dict_mem Sample.reordered_mapping col = true))
  /\ (Forall (fun r => length Sample.clientes_columns <= length r) Sample.clientes_rows ->
      filter_data Sample.clientes_rows source_indices
      = Some (map (Stated.in_source_order Sample.clientes_columns
                     Sample.reordered_mapping) Sample.clientes_rows))
  /\ (fst outcome = Ret (Failed NoMappedColumnsError) -> no_match)
  /\ (no_match -> exists e, fst outcome = Ret (Failed e))
  /\ (Sample.clientes_rows <> [] -> Sample.clientes_columns <> [] ->
      connection c <> None -> no_match ->
      outcome = (Ret (Failed NoMappedColumnsError), c))
  /\ outcome
     = load_data Sample.clientes_rows Sample.clientes_columns "t" None
         (Some Sample.reordered_mapping) 2 c
  /\ (forall c', Sample.clientes_rows <> [] -> Sample.clientes_columns <> [] ->
        ensure_connected c = (Ret true, c') ->
        (no_match -> outcome = (Ret (Failed NoMappedColumnsError), c'))
        /\ (some_match ->
            dest_columns <> []
            /\ outcome
               = match filter_data Sample.clientes_rows source_indices with
                 | Some filtered_data => insert_all "t" dest_columns filtered_data 2 c'
                 | None => (Raise, c')
                 end))
  /\ (exists evs,
        calls (snd outcome) = calls c ++ evs
        /\ forall q batch, In (EvExecuteMany q batch) evs ->
             q = insert_query (db_type c) "t" dest_columns
             /\ exists filtered_data,
                  filter_data Sample.clientes_rows source_indices = Some filtered_data
                  /\ incl batch filtered_data)
  /\ (forall c' cur, Sample.clientes_rows <> [] -> Sample.clientes_columns <> [] ->
        ensure_connected c = (Ret true, c') -> cursor c' = Some cur ->
        (0 < 2)%Z ->
        Forall (fun r => length Sample.clientes_columns <= length r)
          Sample.clientes_rows ->
        some_match ->
        exists tail,
          calls (snd outcome)
          = calls c'
              ++ EvExecuteMany (insert_query (db_type c) "t" dest_columns)
                   (firstn (Z.to_nat 2)
                      (map (Stated.in_source_order Sample.clientes_columns
                              Sample.reordered_mapping) Sample.clientes_rows))
              :: tail).
Proof.
  apply (mapped_columns_resolution Sample.clientes_rows Sample.clientes_columns "t"
           (Some ["a"]) Sample.reordered_mapping 2 (Sample.connected Sample.healthy)).
  discriminate.
Defined.

(** C4 (as amended): for a non-empty mapping whose keys are source columns,
    on a connected loader given non-empty rows with a value for every
    source column: the projection keeps every row, each projected row holds
    exactly the values under the mapped source columns, arranged in the
    order of the source columns, and these projected rows are what
    [load_data] inserts. *)
Theorem projection_in_source_order (data : list row) (source_columns : list string)
    (target_table : string) (target_columns : option (list string))
    (column_mapping : Py.dict string) (batch_size : Z) (c : t) (s : session)
    (Hdata : data <> []) (Hcols : source_columns <> [])
    (Hmap : column_mapping <> [])
    (Hsubset : forall k, In k (Py.keys column_mapping) -> In k source_columns)
    (Hc : connection c = Some s)
    (Hwide : Forall (fun r => length source_columns <= length r) data) :
  let (dest_columns, source_indices) :=
    select_columns (Py.enumerate source_columns) column_mapping in
  exists filtered_data,
    filter_data data source_indices = Some filtered_data
    /\ length filtered_data = length data
    /\ (forall k r, nth_error data k = Some r ->
          nth_error filtered_data k
          = Some (Stated.in_source_order source_columns column_mapping r))
    /\ load_data data source_columns target_table target_columns
         (Some column_mapping) batch_size c
       = insert_all target_table dest_columns filtered_data batch_size c.
Proof.
  pose proof (select_columns_none column_mapping source_columns) as Hnone.
  pose proof (filter_data_in_source_order column_mapping source_columns data Hwide)
    as Hrows.
  pose proof (load_data_mapped data source_columns target_table target_columns
                column_mapping batch_size c s Hdata Hcols Hmap Hc) as Hload.
  destruct (select_columns (Py.enumerate source_columns) column_mapping)
    as [dest_columns source_indices].
  cbn [fst snd] in *.
  exists (map (Stated.in_source_order source_columns column_mapping) data).
  split; [exact Hrows|]. split; [apply length_map|]. split.
  - intros k r Hk. now rewrite nth_error_map, Hk.
  - rewrite Hload, Hrows. destruct dest_columns as [|d ds]; [|reflexivity].
    exfalso. destruct column_mapping as [|[k v] rest]; [contradiction|].
    assert (Hk : In k source_columns) by (apply Hsubset; now left).
    apply (proj1 Hnone eq_refl) in Hk.
    rewrite keys_dict_mem in Hk by now left. discriminate.
Qed.

Lemma projection_in_source_order_witness :
  let (dest_columns, source_indices) :=
    select_columns (Py.enumerate Sample.clientes_columns) Sample.reordered_mapping in
  exists filtered_data,
    filter_data Sample.clientes_rows source_indices = Some filtered_data
    /\ length filtered_data = length Sample.clientes_rows
    /\ (forall k r, nth_error Sample.clientes_rows k = Some r ->
          nth_error filtered_data k
          = Some (Stated.in_source_order Sample.clientes_columns
                    Sample.reordered_mapping r))
    /\ load_data Sample.clientes_rows Sample.clientes_columns "t" None
         (Some Sample.reordered_mapping) 2 (Sample.connected Sample.healthy)
       = insert_all "t" dest_columns filtered_data 2 (Sample.connected Sample.healthy).
Proof.
  apply (projection_in_source_order Sample.clientes_rows Sample.clientes_columns "t"
           None Sample.reordered_mapping 2 (Sample.connected Sample.healthy)
           {| is_open := true; pending_inserts := [] |}).
  - discriminate.
  - discriminate.
  - discriminate.
  - cbn. intros k [<-|[<-|[]]]; cbn; auto.
  - reflexivity.
  - repeat constructor.
Defined.

(** C4 (as stated) fails: with the mapping keys in the order idade, id the
    projected row follows the source columns (id before idade), not the
    order in which the keys were put into the mapping. *)
Lemma projection_not_in_mapping_order :
  filter_data [[VInt 1; VText "Joao"; VInt 35]]
    (snd (select_columns (Py.enumerate Sample.clientes_columns)
            Sample.reordered_mapping))
  = Some [[VInt 1; VInt 35]]
  /\ Stated.in_mapping_order Sample.clientes_columns [VInt 1; VText "Joao"; VInt 35]
       (Py.keys Sample.reordered_mapping)
     = Some [VInt 35; VInt 1]
  /\ [VInt 1; VInt 35] <> [VInt 35; VInt 1].
Proof.
  split; [reflexivity|]. split; [reflexivity|]. discriminate.
Qed.

(** C10: an empty mapping is treated as an absent one: the call is the
    call without mapping, which resolves to [target_columns] if given and
    to the source columns otherwise and hands the full rows to the
    insertion; it never fails with the no-mapped-columns error. *)
Theorem empty_mapping_is_absent (data : list row) (source_columns : list string)
    (target_table : string) (target_columns : option (list string))
    (batch_size : Z) (c : t) :
  load_data data source_columns target_table target_columns (Some []) batch_size c
  = load_data data source_columns target_table target_columns None batch_size c
  /\ load_data data source_columns target_table target_columns (Some []) batch_size c
     = Stated.load_data_without_mapping data source_columns target_table target_columns
         batch_size c
  /\ fst (load_data data source_columns target_table target_columns (Some [])
            batch_size c)
     <> Ret (Failed NoMappedColumnsError).
Proof.
  split; [reflexivity|]. split; [reflexivity|].
  unfold load_data.
  destruct (negb (Py.truthy data) || negb (Py.truthy source_columns));
    [cbn; discriminate|].
  unfold bind at 1. destruct (ensure_connected c) as [[[|]|] c']; cbn [negb];
    try (cbn; discriminate).
  assert (Hins : forall dest,
             fst (insert_all target_table dest data batch_size c')
             <> Ret (Failed NoMappedColumnsError)).
  { intros dest H.
    destruct (insert_all_status target_table dest data batch_size c') as [E|E];
      rewrite E in H; discriminate. }
  destruct target_columns as [[|d ds]|]; try apply Hins.
  destruct (negb (length (d :: ds) =? length source_columns));
    [cbn; discriminate | apply Hins].
Qed.

End LoadPlan.

(* ================================================================= *)
(** ** Batch execution *)

Section BatchExecution.

Import DatabaseConnector DataLoader.

Lemma for_each_app {S A : Type} (xs ys : list A) (body : A -> M S unit) (s : S) :
  for_each (xs ++ ys) body s
  = match for_each xs body s with
    | (Ret _, s') => for_each ys body s'
    | (Raise, s') => (Raise, s')
    end.
Proof.
  revert s; induction xs as [|x xs IH]; intros s; [reflexivity|].
  cbn. unfold bind. destruct (body x s) as [[[]|] s']; [apply IH | reflexivity].
Qed.

Lemma firstn_succ {A : Type} (xs : list A) (k : nat) (x : A) :
  nth_error xs k = Some x -> firstn (S k) xs = firstn k xs ++ [x].
Proof.
  revert k; induction xs as [|y xs IH]; intros [|k] H; try discriminate.
  - injection H as ->. reflexivity.
  - cbn in H. cbn [firstn app]. f_equal. now apply IH.
Qed.

Lemma split_at {A : Type} (xs : list A) (k : nat) (x : A) :
  nth_error xs k = Some x -> xs = firstn k xs ++ x :: skipn (S k) xs.
Proof.
  revert k; induction xs as [|y xs IH]; intros [|k] H; try discriminate.
  - injection H as ->. reflexivity.
  - cbn in H. cbn [firstn skipn app]. f_equal. now apply IH.
Qed.

Variable query : string.

(** While the engine accepts insert and commit, the loop goes on. *)
Lemma committed_prefix (c : t) (s : session) (cur : cursor_state)
    (parts : list (list row)) (k : nat) :
  connection c = Some s -> cursor c = Some cur -> is_open s = true ->
  k <= length parts ->
  (forall j batch, j < k -> nth_error parts j = Some batch ->
     eng_executemany (backend c)
       (calls c ++ Stated.committed_calls query (firstn j parts)) query batch
     = InsertDone
     /\ eng_commit (backend c)
          (calls c ++ Stated.committed_calls query (firstn j parts)
             ++ [EvExecuteMany query batch])
        = true) ->
  exists c', for_each (firstn k parts) (insert_batch query) c = (Ret tt, c')
             /\ Stated.after_committed query c s parts k c'.
Proof.
  intros Hc Hcur Hopen. induction k as [|k IH]; intros Hk Hok.
  - exists c. split; [reflexivity|]. unfold Stated.after_committed. cbn.
    rewrite !app_nil_r. destruct s as [o p]. cbn in *. subst o. auto 10.
  - destruct (nth_error parts k) as [batch|] eqn:Hbatch;
      [|apply nth_error_None in Hbatch; lia].
    destruct IH as (c1 & Hrun & Hdb & Hbackend & Hcursor & Hcalls & Hconn & Hcommitted);
      [lia | intros j b Hj; apply Hok; lia |].
    destruct (Hok k batch ltac:(lia) Hbatch) as [Hins Hcommit].
    unfold Stated.after_committed.
    rewrite (firstn_succ parts k batch Hbatch), for_each_app, Hrun.
    cbn [for_each]. unfold insert_batch at 1, bind, ret.
    unfold cursor_executemany. rewrite Hcursor, Hcur, Hconn. cbn [is_open].
    rewrite Hbackend, Hcalls, Hins.
    unfold connection_commit. cbn -[firstn]. rewrite Hbackend, Hcalls, <- app_assoc, Hcommit.
    eexists. split; [reflexivity|].
    cbn -[firstn].
    rewrite Hdb, Hbackend, Hcursor, Hcalls, Hcommitted.
    unfold Stated.committed_calls. rewrite flat_map_app, concat_app. cbn -[firstn].
    rewrite !app_nil_r, <- !app_assoc. cbn -[firstn].
    repeat split. all: destruct k; cbn; now rewrite <- ?app_assoc.
Qed.

End BatchExecution.

Section FailingBatch.

Import DatabaseConnector DataLoader.

(** C1: in a call of [load_data] that reaches the insertion of the rows
    [rows] on the open connector [c], when the engine accepts the first
    [k] batches and raises on the insert of batch [k], the call returns
    failure with a load error; the driver sees the insert and the commit
    of each of the first [k] batches, then the failing insert, then a
    rollback, and nothing after it (no later batch is inserted); and the
    rows committed through the connector are those committed before the
    call followed by the first [k] batches: the rollback does not undo
    them. *)
Theorem failing_batch_stops_load
    (data : list row) (source_columns : list string) (target_table : string)
    (target_columns : option (list string)) (column_mapping : option (Py.dict string))
    (batch_size : Z) (c0 : t)
    (dest_columns : list string) (rows : list row) (c : t)
    (s : session) (cur : cursor_state)
    (parts : list (list row)) (k : nat) (failing : list row) (applied : nat)
    (Hplan : load_data data source_columns target_table target_columns column_mapping
               batch_size c0
             = insert_all target_table dest_columns rows batch_size c)
    (Hc : connection c = Some s) (Hcur : cursor c = Some cur)
    (Hopen : is_open s = true)
    (Hparts : batches rows batch_size = Some parts)
    (Hk : nth_error parts k = Some failing)
    (Hok : forall j batch, j < k -> nth_error parts j = Some batch ->
       let query := insert_query (db_type c) target_table dest_columns in
       eng_executemany (backend c)
         (calls c ++ Stated.committed_calls query (firstn j parts)) query batch
       = InsertDone
       /\ eng_commit (backend c)
            (calls c ++ Stated.committed_calls query (firstn j parts)
               ++ [EvExecuteMany query batch])
          = true)
    (Hfail :
       let query := insert_query (db_type c) target_table dest_columns in
       eng_executemany (backend c)
         (calls c ++ Stated.committed_calls query (firstn k parts)) query failing
       = InsertRaises applied) :
  let query := insert_query (db_type c) target_table dest_columns in
  let (r, c') :=
    load_data data source_columns target_table target_columns column_mapping
      batch_size c0 in
  r = Ret (Failed LoadError)
  /\ calls c'
     = calls c ++ Stated.committed_calls query (firstn k parts)
         ++ [EvExecuteMany query failing; EvRollback]
  /\ committed_inserts c'
     = committed_inserts c
         ++ match k with
            | 0 => []
            | _ => pending_inserts s ++ concat (firstn k parts)
            end.
Proof.
  cbv zeta in *. rewrite Hplan. clear Hplan.
  set (query := insert_query (db_type c) target_table dest_columns) in *.
  assert (Hlen : k <= length parts).
  { apply Nat.lt_le_incl, nth_error_Some. congruence. }
  destruct (committed_prefix query c s cur parts k Hc Hcur Hopen Hlen Hok)
    as (c1 & Hrun & Hdb & Hbackend & Hcursor & Hcalls & Hconn & Hcommitted).
  assert (Hstep :
            insert_batch query failing c1
            = (Raise,
               set_connection
                 (Some {| is_open := true;
                          pending_inserts :=
                            match k with 0 => pending_inserts s | _ => [] end
                              ++ firstn applied failing |})
                 (record_call (EvExecuteMany query failing) c1))).
  { unfold insert_batch, bind, cursor_executemany.
    rewrite Hcursor, Hcur, Hconn. cbn [is_open pending_inserts].
    rewrite Hbackend, Hcalls, Hfail. reflexivity. }
  pose proof (for_each_app (firstn k parts) (failing :: skipn (S k) parts)
                (insert_batch query) c) as Hloop.
  rewrite <- (split_at parts k failing Hk), Hrun in Hloop.
  cbn [for_each] in Hloop. unfold bind in Hloop. rewrite Hstep in Hloop.
  unfold insert_all. exec_unfold. cbn [fst snd]. fold query.
  rewrite (insert_batches_for_each query rows batch_size parts c Hparts), Hloop.
  unfold connection_rollback. cbn.
  destruct (eng_rollback _ _); cbn;
    rewrite Hcalls, Hcommitted, <- !app_assoc; cbn; auto.
Qed.

Lemma failing_batch_stops_load_witness :
  let c := Sample.connected Sample.second_insert_fails in
  let query := insert_query (db_type c) "t" ["n"] in
  let (r, c') := load_data Sample.five_rows ["n"] "t" None None 2 c in
  r = Ret (Failed LoadError)
  /\ calls c'
     = calls c
         ++ Stated.committed_calls query
              (firstn 1 [[[VInt 1]; [VInt 2]]; [[VInt 3]; [VInt 4]]; [[VInt 5]]])
         ++ [EvExecuteMany query [[VInt 3]; [VInt 4]]; EvRollback]
  /\ committed_inserts c'
     = committed_inserts c
         ++ ([] ++ concat (firstn 1 [[[VInt 1]; [VInt 2]]; [[VInt 3]; [VInt 4]]; [[VInt 5]]])).
Proof.
  apply (failing_batch_stops_load Sample.five_rows ["n"] "t" None None 2
           (Sample.connected Sample.second_insert_fails)
           ["n"] Sample.five_rows (Sample.connected Sample.second_insert_fails)
           {| is_open := true; pending_inserts := [] |}
           {| description := None; fetched := None |}
           [[[VInt 1]; [VInt 2]]; [[VInt 3]; [VInt 4]]; [[VInt 5]]]
           1 [[VInt 3]; [VInt 4]] 0).
  - reflexivity.
  - reflexivity.
  - reflexivity.
  - reflexivity.
  - reflexivity.
  - reflexivity.
  - intros j batch Hj Hbatch. assert (j = 0) by lia. subst j.
    injection Hbatch as <-. split; reflexivity.
  - reflexivity.
Defined.

End FailingBatch.

(* ================================================================= *)
(** ** Table operations of the loader *)

Section TableOperations.

Import DatabaseConnector DataLoader.

Local Arguments is_select : simpl never.

(** [execute_query] never lets an exception through: an error is reported
    by the returned [None] only. *)
Lemma execute_query_returns (q : string) (params : option (list value)) (c : t) :
  exists r, fst (execute_query q params c) = Ret r.
Proof.
  unfold execute_query. exec_unfold. cbn.
  destruct (connection c) as [s|]; [|now eexists].
  destruct (cursor c) as [cur|]; [|now eexists].
  destruct (cursor_execute q (args_of params) c) as [[[]|] c1].
  - destruct (DatabaseConnector.is_select q).
    + destruct (cursor_fetchall c1) as [[rows|] c2]; cbn; [now eexists|].
      now eexists.
    + destruct (connection_commit c1) as [[[]|] c2]; cbn; [now eexists|].
      destruct (connection_rollback c2) as [[[]|] c3]; cbn; now eexists.
  - destruct (DatabaseConnector.is_select q); cbn; [now eexists|].
    destruct (connection_rollback c1) as [[[]|] c2]; cbn; now eexists.
Qed.

(** On a connected loader with column definitions, the creation reports
    success whatever happened to the statement. *)
Lemma create_table_ignores_outcome (target_table : string)
    (column_definitions : Py.dict string) (c : t) (s : session) :
  column_definitions <> [] -> connection c = Some s ->
  fst (create_table_if_not_exists target_table column_definitions c) = Ret true.
Proof.
  intros Hdefs Hc. destruct column_definitions as [|d ds]; [contradiction|].
  unfold create_table_if_not_exists. cbn [Py.truthy negb].
  unfold bind at 1. rewrite (ensure_connected_present c s Hc). cbn [negb].
  exec_unfold.
  match goal with |- context [execute_query ?q None c] =>
    destruct (execute_query_returns q None c) as [r Hr];
    destruct (execute_query q None c) as [r' c']
  end.
  cbn in Hr. subst r'. reflexivity.
Qed.

(** On a connected loader, the truncation reports success whatever
    happened to the statement. *)
Lemma truncate_table_ignores_outcome (target_table : string) (c : t) (s : session) :
  connection c = Some s ->
  fst (truncate_table target_table c) = Ret true.
Proof.
  intros Hc. unfold truncate_table.
  unfold bind at 1. rewrite (ensure_connected_present c s Hc). cbn [negb].
  exec_unfold.
  match goal with |- context [execute_query ?q None c] =>
    destruct (execute_query_returns q None c) as [r Hr];
    destruct (execute_query q None c) as [r' c']
  end.
  cbn in Hr. subst r'. reflexivity.
Qed.

(** C6 (the code departs from it): on a database that rejects the CREATE
    statement, [create_table_if_not_exists] with one column definition
    still returns [True]; the error is met by [execute_query], which
    attempts a rollback and returns [None], a value the caller does not
    look at. *)
Theorem create_table_succeeds_on_ddl_error :
  let c := Sample.connected Sample.rejecting in
  let create_query :=
    ("CREATE TABLE IF NOT EXISTS " ++ quoted "t" ++ " (" ++ quoted "id"
       ++ " INTEGER)")%string in
  eng_execute (backend c) (calls c) create_query [] = ExecRaises
  /\ fst (execute_query create_query None c) = Ret None
  /\ fst (create_table_if_not_exists "t" [("id", "INTEGER")] c) = Ret true
  /\ calls (snd (create_table_if_not_exists "t" [("id", "INTEGER")] c))
     = calls c ++ [EvExecute create_query []; EvRollback].
Proof. repeat split. Qed.

(** C7 (the code departs from it): on a database that rejects the DELETE
    statement (the table does not exist), [truncate_table] of a connected
    loader still returns [True]; the error is met by [execute_query],
    which attempts a rollback and returns [None], a value the caller does
    not look at. *)
Theorem truncate_table_succeeds_on_missing_table :
  let c := Sample.connected Sample.rejecting in
  let truncate_query := ("DELETE FROM " ++ quoted "missing")%string in
  eng_execute (backend c) (calls c) truncate_query [] = ExecRaises
  /\ fst (execute_query truncate_query None c) = Ret None
  /\ fst (truncate_table "missing" c) = Ret true
  /\ calls (snd (truncate_table "missing" c))
     = calls c ++ [EvExecute truncate_query []; EvRollback].
Proof. repeat split. Qed.

End TableOperations.

(* ================================================================= *)
(** ** The orchestrator *)

Section Orchestrator.

Import ETLPipeline.

(** C5 (the code departs from it): a run whose load fails after both
    connections were opened returns [False] with both sessions still open,
    no [close] having been called on either; a run whose extraction fails
    returns [False] with the source session still open; the run that
    succeeds closes both. *)
Theorem failed_run_leaves_connections_open :
  (exists w,
      run Sample.mismatched_config = (Ret false, Some w)
      /\ session_open (source_connector w) = true
      /\ session_open (target_connector w) = true
      /\ ~ In EvClose (DatabaseConnector.calls (source_connector w))
      /\ ~ In EvClose (DatabaseConnector.calls (target_connector w)))
  /\ (exists w,
         run Sample.failing_extraction_config = (Ret false, Some w)
         /\ session_open (source_connector w) = true
         /\ ~ In EvClose (DatabaseConnector.calls (source_connector w)))
  /\ (exists w,
         run Sample.matching_config = (Ret true, Some w)
         /\ session_open (source_connector w) = false
         /\ session_open (target_connector w) = false).
Proof.
  split; [|split].
  - eexists. split; [reflexivity|]. cbn.
    repeat split; intros H; repeat (destruct H as [H|H]; [discriminate|]); exact H.
  - eexists. split; [reflexivity|]. cbn.
    repeat split; intros H; repeat (destruct H as [H|H]; [discriminate|]); exact H.
  - eexists. split; [reflexivity|]. split; reflexivity.
Qed.

End Orchestrator.

(* ================================================================= *)
(** ** Further properties: query classification *)

Section ClassificationInsensitive.

Import DatabaseConnector.

Lemma upper_lower_char (c : ascii) : Py.upper_char (Py.lower_char c) = Py.upper_char c.
Proof. destruct c as [[] [] [] [] [] [] [] []]; reflexivity. Qed.

Lemma upper_upper_char (c : ascii) : Py.upper_char (Py.upper_char c) = Py.upper_char c.
Proof. destruct c as [[] [] [] [] [] [] [] []]; reflexivity. Qed.

Lemma isspace_lower_char (c : ascii) : Py.isspace (Py.lower_char c) = Py.isspace c.
Proof. destruct c as [[] [] [] [] [] [] [] []]; reflexivity. Qed.

Lemma isspace_upper_char (c : ascii) : Py.isspace (Py.upper_char c) = Py.isspace c.
Proof. destruct c as [[] [] [] [] [] [] [] []]; reflexivity. Qed.

Lemma lstrip_map_string (f : ascii -> ascii) (s : string) :
  (forall c, Py.isspace (f c) = Py.isspace c) ->
  Py.lstrip (Py.map_string f s) = Py.map_string f (Py.lstrip s).
Proof.
  intros Hf. induction s as [|c r IH]; [reflexivity|].
  cbn [Py.map_string Py.lstrip]. rewrite Hf.
  destruct (Py.isspace c); [exact IH | reflexivity].
Qed.

Lemma rstrip_map_string (f : ascii -> ascii) (s : string) :
  (forall c, Py.isspace (f c) = Py.isspace c) ->
  Py.rstrip (Py.map_string f s) = Py.map_string f (Py.rstrip s).
Proof.
  intros Hf. induction s as [|c r IH]; [reflexivity|].
  cbn [Py.map_string Py.rstrip]. rewrite IH, Hf.
  destruct (Py.rstrip r); cbn [Py.map_string]; [|reflexivity].
  destruct (Py.isspace c); reflexivity.
Qed.

Lemma strip_map_string (f : ascii -> ascii) (s : string) :
  (forall c, Py.isspace (f c) = Py.isspace c) ->
  Py.strip (Py.map_string f s) = Py.map_string f (Py.strip s).
Proof.
  intros Hf. unfold Py.strip.
  now rewrite lstrip_map_string, rstrip_map_string.
Qed.

Lemma upper_lower (s : string) : Py.upper (Py.lower s) = Py.upper s.
Proof.
  unfold Py.upper, Py.lower.
  induction s as [|c r IH]; cbn; [reflexivity | now rewrite IH, upper_lower_char].
Qed.

Lemma upper_upper (s : string) : Py.upper (Py.upper s) = Py.upper s.
Proof.
  unfold Py.upper.
  induction s as [|c r IH]; cbn; [reflexivity | now rewrite IH, upper_upper_char].
Qed.

Lemma lstrip_blank (ws : string) : Observed.blank ws = true -> Py.lstrip ws = EmptyString.
Proof.
  induction ws as [|c r IH]; cbn; [reflexivity|].
  destruct (Py.isspace c); [exact IH | discriminate].
Qed.

Lemma rstrip_blank (ws : string) : Observed.blank ws = true -> Py.rstrip ws = EmptyString.
Proof.
  induction ws as [|c r IH]; cbn; [reflexivity|].
  destruct (Py.isspace c); cbn; [|discriminate].
  intros H. now rewrite IH.
Qed.

Lemma lstrip_blank_app (ws s : string) :
  Observed.blank ws = true -> Py.lstrip (ws ++ s)%string = Py.lstrip s.
Proof.
  induction ws as [|c r IH]; cbn; [reflexivity|].
  destruct (Py.isspace c); [exact IH | discriminate].
Qed.

Lemma rstrip_app_blank (s ws : string) :
  Observed.blank ws = true -> Py.rstrip (s ++ ws)%string = Py.rstrip s.
Proof.
  intros Hws. induction s as [|c r IH]; cbn.
  - now apply rstrip_blank.
  - now rewrite IH.
Qed.

Lemma strip_padded (ws1 s ws2 : string) :
  Observed.blank ws1 = true -> Observed.blank ws2 = true ->
  Py.strip (ws1 ++ s ++ ws2)%string = Py.strip s.
Proof.
  intros H1 H2. unfold Py.strip. rewrite (lstrip_blank_app ws1 _ H1).
  induction s as [|c r IH].
  - cbn. now rewrite (lstrip_blank ws2 H2).
  - cbn [append Py.lstrip]. destruct (Py.isspace c); [exact IH|].
    now apply (rstrip_app_blank (String c r)).
Qed.

(** X1: whether a statement counts as a read query depends neither on the
    case of its letters nor on whitespace around it. *)
Theorem classification_ignores_case_and_padding (q ws1 ws2 : string)
    (H1 : Observed.blank ws1 = true) (H2 : Observed.blank ws2 = true) :
  is_select (ws1 ++ q ++ ws2)%string = is_select q
  /\ is_select (Py.lower q) = is_select q
  /\ is_select (Py.upper q) = is_select q.
Proof.
  unfold is_select. split; [|split].
  - now rewrite strip_padded.
  - unfold Py.lower at 1. rewrite strip_map_string by apply isspace_lower_char.
    fold (Py.lower (Py.strip q)). now rewrite upper_lower.
  - unfold Py.upper at 2. rewrite strip_map_string by apply isspace_upper_char.
    fold (Py.upper (Py.strip q)). now rewrite upper_upper.
Qed.

Lemma classification_ignores_case_and_padding_witness :
  is_select ("  " ++ "Select 1" ++ " ")%string = is_select "Select 1"
  /\ is_select (Py.lower "Select 1") = is_select "Select 1"
  /\ is_select (Py.upper "Select 1") = is_select "Select 1".
Proof.
  apply (classification_ignores_case_and_padding "Select 1" "  " " "); reflexivity.
Defined.

End ClassificationInsensitive.

(* ================================================================= *)
(** ** Further properties: the connector *)

Section ConnectorBehaviour.

Import DatabaseConnector.

Local Arguments is_select : simpl never.
Local Arguments app : simpl never.

(** X2: [connect] never raises. It returns [True] exactly when the database
    type is one of the three supported ones and the driver both opens the
    session and creates the cursor; the connector then holds an open session
    and a fresh cursor. For an unsupported type nothing is called and
    nothing changes. *)
Theorem connect_outcome (c : t) :
  exists ok c',
    connect c = (Ret ok, c')
    /\ committed_inserts c' = committed_inserts c
    /\ (ok = true <->
          supported (db_type c) = true
          /\ eng_connect (backend c) (calls c) = true
          /\ eng_cursor (backend c) (calls c ++ [EvConnect]) = true)
    /\ (ok = true ->
          connection c' = Some {| is_open := true; pending_inserts := [] |}
          /\ cursor c' = Some {| description := None; fetched := None |}
          /\ calls c' = calls c ++ [EvConnect; EvCursor])
    /\ (supported (db_type c) = false -> c' = c).
Proof.
  unfold connect, driver_connect, connection_cursor. exec_unfold. cbn.
  destruct (supported (db_type c)) eqn:Hs; cbn.
  - destruct (eng_connect (backend c) (calls c)) eqn:Hconn; cbn.
    + destruct (eng_cursor (backend c) (calls c ++ [EvConnect])) eqn:Hcur; cbn.
      * do 2 eexists. split; [reflexivity|]. cbn.
        rewrite <- app_assoc. repeat split; auto; discriminate.
      * do 2 eexists. split; [reflexivity|]. cbn.
        repeat split; try discriminate; intuition discriminate.
    + do 2 eexists. split; [reflexivity|]. cbn.
      repeat split; try discriminate; intuition discriminate.
  - do 2 eexists. split; [reflexivity|].
    repeat split; try discriminate; intuition discriminate.
Qed.

(** X3: when the driver opens the session but fails to create the cursor,
    [connect] returns [False] and yet leaves the connection assigned. The
    connector then counts as connected, so no later call connects again, and
    [execute_query] returns [None] without reaching the driver. *)
Theorem connect_without_cursor (c : t)
    (Hfresh : cursor c = None)
    (Hs : supported (db_type c) = true)
    (Hconn : eng_connect (backend c) (calls c) = true)
    (Hcur : eng_cursor (backend c) (calls c ++ [EvConnect]) = false) :
  let c' := snd (connect c) in
  fst (connect c) = Ret false
  /\ connection c' = Some {| is_open := true; pending_inserts := [] |}
  /\ cursor c' = None
  /\ DataLoader.ensure_connected c' = (Ret true, c')
  /\ (forall q params, execute_query q params c' = (Ret None, c')).
Proof.
  unfold connect, driver_connect, connection_cursor. exec_unfold. cbn.
  rewrite Hs. cbn. rewrite Hconn. cbn. rewrite Hcur. cbn.
  repeat split; try assumption.
  intros q params. unfold execute_query. exec_unfold. cbn. now rewrite Hfresh.
Qed.

Lemma connect_without_cursor_witness :
  let c := init "sqlite" Sample.no_cursor in
  let c' := snd (connect c) in
  fst (connect c) = Ret false
  /\ connection c' = Some {| is_open := true; pending_inserts := [] |}
  /\ cursor c' = None
  /\ DataLoader.ensure_connected c' = (Ret true, c')
  /\ (forall q params, execute_query q params c' = (Ret None, c')).
Proof.
  apply (connect_without_cursor (init "sqlite" Sample.no_cursor)); reflexivity.
Defined.


(** X5: [execute_query] never raises. Without a connection or a cursor it
    returns [None] and calls nothing. It returns rows only if the session is
    open and the driver executed the statement: for a read query these are
    the rows the driver fetched, for any other statement the empty list. *)
Theorem execute_query_outcome (q : string) (params : option (list value)) (c : t) :
  exists r c',
    execute_query q params c = (Ret r, c')
    /\ (connection c = None \/ cursor c = None -> r = None /\ c' = c)
    /\ (forall rows, r = Some rows ->
          exists s cur fetched_rows names,
            connection c = Some s /\ cursor c = Some cur /\ is_open s = true
            /\ eng_execute (backend c) (calls c) q (args_of params)
               = ExecDone fetched_rows names
            /\ cursor c' = Some {| description := names; fetched := fetched_rows |}
            /\ if is_select q then fetched_rows = Some rows else rows = []).
Proof.
  unfold execute_query. exec_unfold. cbn.
  destruct (connection c) as [s|] eqn:Hc;
    [|do 2 eexists; split; [reflexivity|]; split; [auto | discriminate]].
  destruct (cursor c) as [cur|] eqn:Hcur;
    [|do 2 eexists; split; [reflexivity|]; split; [auto | discriminate]].
  unfold cursor_execute. rewrite Hc, Hcur.
  destruct (is_open s) eqn:Hopen.
  - destruct (eng_execute (backend c) (calls c) q (args_of params))
      as [|fetched_rows names] eqn:Hexec.
    + destruct (is_select q); cbn.
      * do 2 eexists. split; [reflexivity|]. split; [intros [H|H]; discriminate H|].
        discriminate.
      * unfold connection_rollback. cbn. rewrite Hc, Hopen. cbn.
        destruct (eng_rollback _ _); cbn;
          (do 2 eexists; split; [reflexivity|];
           split; [intros [H|H]; discriminate H | discriminate]).
    + destruct (is_select q) eqn:Hsel; cbn.
      * unfold cursor_fetchall. cbn.
        destruct fetched_rows as [rows|]; cbn;
          (do 2 eexists; split; [reflexivity|];
           split; [intros [H|H]; discriminate H|]); [|discriminate].
        intros rows' Hr. injection Hr as <-.
        exists s, cur, (Some rows), names. cbn. auto 10.
      * unfold connection_commit. cbn. rewrite Hc, Hopen. cbn.
        destruct (eng_commit _ _); cbn.
        -- do 2 eexists. split; [reflexivity|].
           split; [intros [H|H]; discriminate H|].
           intros rows' Hr. injection Hr as <-.
           exists s, cur, fetched_rows, names. cbn. auto 10.
        -- unfold connection_rollback. cbn. rewrite Hc, Hopen. cbn.
           destruct (eng_rollback _ _); cbn;
             (do 2 eexists; split; [reflexivity|];
              split; [intros [H|H]; discriminate H | discriminate]).
  - destruct (is_select q); cbn.
    + do 2 eexists. split; [reflexivity|]. split; [intros [H|H]; discriminate H|].
      discriminate.
    + unfold connection_rollback. cbn. rewrite Hc, Hopen. cbn.
      do 2 eexists. split; [reflexivity|].
      split; [intros [H|H]; discriminate H | discriminate].
Qed.

End ConnectorBehaviour.

(* ================================================================= *)
(** ** Further properties: what the methods keep *)

Section Preservation.

Import DatabaseConnector.

Context {S : Type} (P : S -> Prop).

Lemma preserves_ret {A : Type} (a : A) : Observed.preserves P (ret a).
Proof. intros s Hs. exact Hs. Qed.

Lemma preserves_raise {A : Type} : Observed.preserves P (@raise S A).
Proof. intros s Hs. exact Hs. Qed.

Lemma preserves_gets {A : Type} (f : S -> A) : Observed.preserves P (gets f).
Proof. intros s Hs. exact Hs. Qed.

Lemma preserves_bind {A B : Type} (m : M S A) (k : A -> M S B) :
  Observed.preserves P m -> (forall a, Observed.preserves P (k a)) ->
  Observed.preserves P (bind m k).
Proof.
  intros Hm Hk s Hs. unfold bind. specialize (Hm s Hs).
  destruct (m s) as [[a|] s']; cbn in *; [now apply Hk | exact Hm].
Qed.

Lemma preserves_try_catch {A : Type} (m h : M S A) :
  Observed.preserves P m -> Observed.preserves P h ->
  Observed.preserves P (try_catch m h).
Proof.
  intros Hm Hh s Hs. unfold try_catch. specialize (Hm s Hs).
  destruct (m s) as [[a|] s']; cbn in *; [exact Hm | now apply Hh].
Qed.

Lemma preserves_for_each {A : Type} (xs : list A) (body : A -> M S unit) :
  (forall x, Observed.preserves P (body x)) ->
  Observed.preserves P (for_each xs body).
Proof.
  intros Hbody. induction xs as [|x xs IH]; cbn [for_each].
  - apply preserves_ret.
  - apply preserves_bind; [apply Hbody | intros _; exact IH].
Qed.

End Preservation.

Ltac preserves_step :=
  first
    [ apply preserves_ret
    | apply preserves_raise
    | apply preserves_gets
    | apply preserves_bind; [|intros ?]
    | apply preserves_try_catch
    | apply preserves_for_each; intros ? ].

Section ConnectionStaysAssigned.

Import DatabaseConnector.

Local Arguments is_select : simpl never.

Ltac assigned_primitive :=
  let c := fresh "c" in
  let H := fresh "H" in
  intros c H; unfold Observed.assigned in *; cbn in *;
  repeat match goal with
         | |- context [match ?x with _ => _ end] => destruct x eqn:?; cbn in *
         end;
  try congruence; try discriminate; try assumption.

Lemma cursor_execute_assigned (q : string) (args : list value) :
  Observed.preserves Observed.assigned (cursor_execute q args).
Proof. unfold cursor_execute. assigned_primitive. Qed.

Lemma cursor_fetchall_assigned :
  Observed.preserves Observed.assigned cursor_fetchall.
Proof. unfold cursor_fetchall. assigned_primitive. Qed.

Lemma cursor_executemany_assigned (q : string) (batch : list row) :
  Observed.preserves Observed.assigned (cursor_executemany q batch).
Proof. unfold cursor_executemany. assigned_primitive. Qed.

Lemma connection_commit_assigned :
  Observed.preserves Observed.assigned connection_commit.
Proof. unfold connection_commit. assigned_primitive. Qed.

Lemma connection_rollback_assigned :
  Observed.preserves Observed.assigned connection_rollback.
Proof. unfold connection_rollback. assigned_primitive. Qed.

Lemma connection_close_assigned :
  Observed.preserves Observed.assigned connection_close.
Proof. unfold connection_close. assigned_primitive. Qed.

Lemma cursor_close_assigned :
  Observed.preserves Observed.assigned cursor_close.
Proof. unfold cursor_close. assigned_primitive. Qed.

Lemma execute_query_assigned (q : string) (params : option (list value)) :
  Observed.preserves Observed.assigned (execute_query q params).
Proof.
  unfold execute_query.
  preserves_step; [preserves_step|]. preserves_step; [preserves_step|].
  destruct a as [s|]; [|preserves_step]. destruct a0 as [cur|]; [|preserves_step].
  preserves_step.
  - preserves_step; [apply cursor_execute_assigned|].
    destruct (is_select q).
    + preserves_step; [apply cursor_fetchall_assigned | preserves_step].
    + preserves_step; [apply connection_commit_assigned | preserves_step].
  - preserves_step; [|preserves_step].
    destruct (negb (is_select q)); [|preserves_step].
    preserves_step; [apply connection_rollback_assigned | preserves_step].
Qed.

Lemma get_column_names_unchanged (c : t) :
  get_column_names c
  = (Ret match cursor c with
         | Some cs => if supported (db_type c) then description cs else None
         | None => None
         end, c).
Proof.
  unfold get_column_names. exec_unfold. cbn.
  destruct (cursor c) as [cs|]; [|reflexivity].
  destruct (supported (db_type c)); [|reflexivity].
  destruct (description cs); reflexivity.
Qed.

Lemma disconnect_assigned : Observed.preserves Observed.assigned disconnect.
Proof.
  unfold disconnect. preserves_step; [preserves_step|].
  destruct a as [s|]; [|preserves_step].
  preserves_step; [|preserves_step].
  preserves_step; [preserves_step|]. preserves_step.
  - destruct a as [cur|]; [apply cursor_close_assigned | preserves_step].
  - apply connection_close_assigned.
Qed.

Lemma connect_true_assigned (c : t) :
  fst (connect c) = Ret true -> Observed.assigned (snd (connect c)).
Proof.
  unfold connect, driver_connect, connection_cursor, Observed.assigned.
  exec_unfold. cbn.
  destruct (supported (db_type c)); cbn; [|discriminate].
  destruct (eng_connect (backend c) (calls c)); cbn; [|discriminate].
  destruct (eng_cursor (backend c) (calls c ++ [EvConnect])); cbn; discriminate.
Qed.

Lemma connect_assigned : Observed.preserves Observed.assigned connect.
Proof.
  intros c Hc. unfold connect, driver_connect, connection_cursor, Observed.assigned in *.
  exec_unfold. cbn.
  destruct (supported (db_type c)); cbn; [|exact Hc].
  destruct (eng_connect (backend c) (calls c)); cbn; [|exact Hc].
  destruct (eng_cursor (backend c) (calls c ++ [EvConnect])); cbn; discriminate.
Qed.

Lemma ensure_connected_true_assigned (c : t) :
  fst (DataLoader.ensure_connected c) = Ret true ->
  Observed.assigned (snd (DataLoader.ensure_connected c)).
Proof.
  unfold DataLoader.ensure_connected. exec_unfold. cbn.
  destruct (connection c) as [s|] eqn:Hc; cbn.
  - intros _. unfold Observed.assigned. congruence.
  - apply connect_true_assigned.
Qed.

End ConnectionStaysAssigned.

(* ================================================================= *)
(** ** Further properties: the extractor *)

Section ExtractorBehaviour.

Import DatabaseConnector DataExtractor.

Local Arguments is_select : simpl never.

Ltac extraction_tail q params c Hassigned :=
  let Hkeep := fresh "Hkeep" in
  let d := fresh "d" in
  let Hd := fresh "Hd" in
  let r := fresh "r" in
  let c1 := fresh "c1" in
  let rows := fresh "rows" in
  let n := fresh "n" in
  let ns := fresh "ns" in
  pose proof (execute_query_assigned q params c Hassigned) as Hkeep;
  destruct (execute_query_returns q params c) as [d Hd];
  destruct (execute_query q params c) as [r c1]; cbn in Hd, Hkeep; subst r;
  destruct d as [rows|]; cbn -[get_column_names];
  [|do 2 eexists; split; [reflexivity | discriminate]];
  rewrite get_column_names_unchanged; cbn;
  match goal with
  | |- context [Py.truthy_opt ?v] => destruct v as [[|n ns]|]
  end;
  cbn; do 2 eexists; (split; [reflexivity|]); try discriminate;
  intros _; split; [reflexivity|]; split; [exact Hkeep|];
  exists rows, (n :: ns); split; [reflexivity | discriminate].

(** X6: [extract_data] never raises, and when it returns [True] the query
    was a read query, the extractor holds the fetched rows and a non-empty
    list of column names, and its connector has a connection assigned. *)
Theorem extract_data_outcome (q : string) (params : option (list value)) (x : t) :
  exists ok x',
    extract_data q params x = (Ret ok, x')
    /\ (ok = true ->
          is_select q = true
          /\ Observed.assigned (db_connector x')
          /\ exists rows names,
               get_extracted_data x' = (Some rows, Some names) /\ names <> []).
Proof.
  unfold extract_data, get_extracted_data.
  destruct (is_select q) eqn:Hsel; cbn [negb];
    [|do 2 eexists; split; [reflexivity | discriminate]].
  unfold on_connector. exec_unfold. cbn -[execute_query get_column_names connect].
  destruct (connection (db_connector x)) as [s|] eqn:Hc;
    cbn -[execute_query get_column_names connect].
  - assert (Hassigned : Observed.assigned (db_connector x))
      by (unfold Observed.assigned; congruence).
    extraction_tail q params (db_connector x) Hassigned.
  - pose proof (connect_true_assigned (db_connector x)) as Hassigned.
    destruct (connect_returns (db_connector x)) as [ok Hok].
    destruct (connect (db_connector x)) as [r c0]. cbn in Hok, Hassigned. subst r.
    destruct ok; cbn -[execute_query get_column_names connect];
      [|do 2 eexists; split; [reflexivity | discriminate]].
    specialize (Hassigned eq_refl).
    extraction_tail q params c0 Hassigned.
Qed.

End ExtractorBehaviour.

Section ExtractionResults.

Import DatabaseConnector DataExtractor.

Local Arguments is_select : simpl never.

(** X7: on a fresh extractor over a supported database that accepts the
    connection and answers the read query, [extract_data] returns [True]
    after exactly one connect, one cursor, one execute and one fetch; the
    extracted rows and column names are those the driver gave, and the
    session is left open. *)
Theorem extraction_delivers_result (db q : string) (params : option (list value))
    (backend : engine) (rows : list row) (names : list string)
    (Hdb : supported (Py.lower db) = true)
    (Hsel : is_select q = true)
    (Hconnect : eng_connect backend [] = true)
    (Hcursor : eng_cursor backend [EvConnect] = true)
    (Hexec : eng_execute backend [EvConnect; EvCursor] q (args_of params)
             = ExecDone (Some rows) (Some names))
    (Hnames : names <> []) :
  exists x',
    extract_data q params (init (DatabaseConnector.init db backend)) = (Ret true, x')
    /\ get_extracted_data x' = (Some rows, Some names)
    /\ calls (db_connector x')
       = [EvConnect; EvCursor; EvExecute q (args_of params); EvFetchAll]
    /\ ETLPipeline.session_open (db_connector x') = true.
Proof.
  destruct names as [|n ns]; [contradiction|].
  unfold extract_data, on_connector, get_extracted_data. rewrite Hsel. cbn [negb].
  unfold connect, execute_query, get_column_names, driver_connect, connection_cursor,
    cursor_execute, cursor_fetchall.
  exec_unfold. cbn. rewrite Hdb. cbn. rewrite Hconnect. cbn. rewrite Hcursor. cbn.
  rewrite Hsel, Hexec. cbn. rewrite Hdb. cbn.
  eexists. repeat split.
Qed.

Lemma extraction_delivers_result_witness :
  exists x',
    extract_data "SELECT id, nome, idade FROM clientes" None
      (init (DatabaseConnector.init "SQLite" Sample.healthy)) = (Ret true, x')
    /\ get_extracted_data x' = (Some Sample.clientes_rows, Some Sample.clientes_columns)
    /\ calls (db_connector x')
       = [EvConnect; EvCursor;
          EvExecute "SELECT id, nome, idade FROM clientes" (args_of None); EvFetchAll]
    /\ ETLPipeline.session_open (db_connector x') = true.
Proof.
  apply (extraction_delivers_result "SQLite" "SELECT id, nome, idade FROM clientes" None
           Sample.healthy Sample.clientes_rows Sample.clientes_columns);
    try reflexivity.
  discriminate.
Defined.

(** X8: when the statement of a read query fails on a connected extractor,
    [extract_data] returns [False] and replaces the extracted rows by
    [None], but keeps the column names of the previous extraction. *)
Theorem failed_extraction_keeps_columns (q : string) (params : option (list value))
    (x : t) (s : session)
    (Hsel : is_select q = true)
    (Hc : connection (db_connector x) = Some s)
    (Hfail : fst (execute_query q params (db_connector x)) = Ret None) :
  let x' := snd (extract_data q params x) in
  fst (extract_data q params x) = Ret false
  /\ data x' = None
  /\ columns x' = columns x.
Proof.
  unfold extract_data, on_connector. rewrite Hsel. cbn [negb].
  exec_unfold. cbn -[execute_query]. rewrite Hc. cbn -[execute_query].
  destruct (execute_query q params (db_connector x)) as [r c1].
  cbn in Hfail. subst r. cbn. repeat split.
Qed.

Lemma failed_extraction_keeps_columns_witness :
  let x := snd (extract_data "SELECT id, nome, idade FROM clientes" None
                  (init (DatabaseConnector.init "sqlite" Sample.answers_once))) in
  let x' := snd (extract_data "SELECT id FROM clientes" None x) in
  fst (extract_data "SELECT id FROM clientes" None x) = Ret false
  /\ data x' = None
  /\ columns x' = columns x.
Proof.
  apply (failed_extraction_keeps_columns "SELECT id FROM clientes" None
           (snd (extract_data "SELECT id, nome, idade FROM clientes" None
                   (init (DatabaseConnector.init "sqlite" Sample.answers_once))))
           {| is_open := true; pending_inserts := [] |});
    reflexivity.
Defined.

End ExtractionResults.

(* ================================================================= *)
(** ** Further properties: the loader *)

Section LoaderBehaviour.

Import DatabaseConnector DataLoader.

(** [load_data] without a mapping, or with an empty one. *)
Lemma load_data_unmapped (data : list row) (source_columns : list string)
    (target_table : string) (target_columns : option (list string))
    (column_mapping : option (Py.dict string)) (batch_size : Z) (c : t) :
  column_mapping = None \/ column_mapping = Some [] ->
  load_data data source_columns target_table target_columns column_mapping batch_size c
  = Stated.load_data_without_mapping data source_columns target_table target_columns
      batch_size c.
Proof. intros [->| ->]; reflexivity. Qed.

(** [load_data] with neither mapping nor target columns, on a connected
    loader. *)
Lemma load_data_identity (data : list row) (source_columns : list string)
    (target_table : string) (batch_size : Z) (c : t) (s : session) :
  data <> [] -> source_columns <> [] -> connection c = Some s ->
  load_data data source_columns target_table None None batch_size c
  = insert_all target_table source_columns data batch_size c.
Proof.
  intros Hdata Hcols Hc.
  destruct data as [|r data]; [contradiction|].
  destruct source_columns as [|col source_columns]; [contradiction|].
  unfold load_data. cbn [Py.truthy negb orb]. unfold bind at 1.
  now rewrite (ensure_connected_present c s Hc).
Qed.

(** X9: whenever [load_data] ends otherwise than in success or in a load
    error (empty input, failed connection, no mapped column, column count
    mismatch, or an exception), it has made no driver call beyond those
    that open the session, and nothing more is committed than before: no
    insert, commit or rollback was issued. *)
Theorem load_data_writes_only_after_resolution
    (data : list row) (source_columns : list string) (target_table : string)
    (target_columns : option (list string)) (column_mapping : option (Py.dict string))
    (batch_size : Z) (c : t) :
  let (r, c') :=
    load_data data source_columns target_table target_columns column_mapping
      batch_size c in
  r = Ret Succeeded
  \/ r = Ret (Failed LoadError)
  \/ exists evs,
       calls c' = calls c ++ evs
       /\ Forall (fun e => Observed.opening_call e = true) evs
       /\ committed_inserts c' = committed_inserts c.
Proof.
  assert (Hstay : exists evs,
             calls c = calls c ++ evs
             /\ Forall (fun e => Observed.opening_call e = true) evs
             /\ committed_inserts c = committed_inserts c)
    by (exists []; rewrite app_nil_r; auto).
  unfold load_data.
  destruct (negb (Py.truthy data) || negb (Py.truthy source_columns)); [cbn; auto|].
  unfold bind at 1.
  pose proof (ensure_connected_calls c) as Hconn.
  destruct (ensure_connected c) as [[[|]|] c1]; cbn [snd negb] in *; [|cbn; auto..].
  assert (Hins : forall dest rows,
             let (r, c') := insert_all target_table dest rows batch_size c1 in
             r = Ret Succeeded \/ r = Ret (Failed LoadError)
             \/ exists evs,
                  calls c' = calls c ++ evs
                  /\ Forall (fun e => Observed.opening_call e = true) evs
                  /\ committed_inserts c' = committed_inserts c).
  { intros dest rows.
    pose proof (insert_all_status target_table dest rows batch_size c1) as Hst.
    destruct (insert_all target_table dest rows batch_size c1) as [r c2].
    cbn in Hst. destruct Hst as [->| ->]; auto. }
  destruct column_mapping as [[|entry mapping]|].
  - destruct target_columns as [[|d ds]|]; try apply Hins.
    destruct (negb (length (d :: ds) =? length source_columns)); [cbn; auto | apply Hins].
  - destruct (select_columns (Py.enumerate source_columns) (entry :: mapping))
      as [dest_columns source_indices].
    destruct (negb (Py.truthy dest_columns)); [cbn; auto|].
    destruct (filter_data data source_indices); [apply Hins | cbn; auto].
  - destruct target_columns as [[|d ds]|]; try apply Hins.
    destruct (negb (length (d :: ds) =? length source_columns)); [cbn; auto | apply Hins].
Qed.

(** X10: without a mapping, on a connected loader given non-empty rows and
    source columns, a non-empty list of target columns is accepted exactly
    when it has as many names as there are source columns: otherwise the
    call fails with the column count error and calls nothing; when accepted,
    the rows are inserted unchanged under the target names. *)
Theorem target_columns_must_match (data : list row) (source_columns : list string)
    (target_table : string) (target_columns : list string)
    (column_mapping : option (Py.dict string)) (batch_size : Z) (c : t) (s : session)
    (Hdata : data <> []) (Hcols : source_columns <> [])
    (Htarget : target_columns <> [])
    (Hmap : column_mapping = None \/ column_mapping = Some [])
    (Hc : connection c = Some s) :
  (length target_columns <> length source_columns ->
   load_data data source_columns target_table (Some target_columns) column_mapping
     batch_size c
   = (Ret (Failed ColumnCountMismatchError), c))
  /\ (length target_columns = length source_columns ->
      load_data data source_columns target_table (Some target_columns) column_mapping
        batch_size c
      = insert_all target_table target_columns data batch_size c).
Proof.
  rewrite (load_data_unmapped _ _ _ _ _ _ _ Hmap).
  destruct data as [|r data]; [contradiction|].
  destruct source_columns as [|col source_columns]; [contradiction|].
  destruct target_columns as [|d ds]; [contradiction|].
  split; intros Hlen;
    unfold Stated.load_data_without_mapping; cbn [Py.truthy negb orb]; unfold bind;
    rewrite (ensure_connected_present c s Hc); cbn [negb].
  - apply Nat.eqb_neq in Hlen. rewrite Hlen. reflexivity.
  - apply Nat.eqb_eq in Hlen. rewrite Hlen. reflexivity.
Qed.

Lemma target_columns_must_match_witness :
  let c := Sample.connected Sample.healthy in
  (length ["id"; "nome"] <> length Sample.clientes_columns ->
   load_data Sample.clientes_rows Sample.clientes_columns "t" (Some ["id"; "nome"]) None
     2 c
   = (Ret (Failed ColumnCountMismatchError), c))
  /\ (length ["id"; "nome"] = length Sample.clientes_columns ->
      load_data Sample.clientes_rows Sample.clientes_columns "t" (Some ["id"; "nome"]) None
        2 c
      = insert_all "t" ["id"; "nome"] Sample.clientes_rows 2 c).
Proof.
  apply (target_columns_must_match Sample.clientes_rows Sample.clientes_columns "t"
           ["id"; "nome"] None 2 (Sample.connected Sample.healthy)
           {| is_open := true; pending_inserts := [] |}).
  - discriminate.
  - discriminate.
  - discriminate.
  - now left.
  - reflexivity.
Defined.

(** X11: a batch size of zero makes the insertion phase fail before any
    insert: the [ValueError] of [range] is caught like a driver error, one
    rollback is attempted, and the call returns failure with a load error
    and nothing more committed. *)
Theorem zero_batch_size_fails
    (data : list row) (source_columns : list string) (target_table : string)
    (target_columns : option (list string)) (column_mapping : option (Py.dict string))
    (c0 : t) (dest_columns : list string) (rows : list row) (c : t) (s : session)
    (Hplan : load_data data source_columns target_table target_columns column_mapping
               0 c0
             = insert_all target_table dest_columns rows 0 c)
    (Hc : connection c = Some s) :
  let (r, c') :=
    load_data data source_columns target_table target_columns column_mapping 0 c0 in
  r = Ret (Failed LoadError)
  /\ calls c' = calls c ++ [EvRollback]
  /\ committed_inserts c' = committed_inserts c.
Proof.
  rewrite Hplan. unfold insert_all, insert_batches, connection_rollback.
  exec_unfold. cbn. rewrite Hc.
  destruct (is_open s && eng_rollback (backend c) (calls c)); cbn; auto.
Qed.

Lemma zero_batch_size_fails_witness :
  let c := Sample.connected Sample.healthy in
  let (r, c') := load_data Sample.five_rows ["n"] "t" None None 0 c in
  r = Ret (Failed LoadError)
  /\ calls c' = calls c ++ [EvRollback]
  /\ committed_inserts c' = committed_inserts c.
Proof.
  apply (zero_batch_size_fails Sample.five_rows ["n"] "t" None None
           (Sample.connected Sample.healthy) ["n"] Sample.five_rows
           (Sample.connected Sample.healthy)
           {| is_open := true; pending_inserts := [] |});
    reflexivity.
Defined.

(** X12: with a negative batch size the insertion phase inserts nothing and
    still reports success: the loop over the batch starts is empty, so the
    connector is left exactly as it was. *)
Theorem negative_batch_size_loads_nothing
    (data : list row) (source_columns : list string) (target_table : string)
    (target_columns : option (list string)) (column_mapping : option (Py.dict string))
    (batch_size : Z) (c0 : t) (dest_columns : list string) (rows : list row) (c : t)
    (Hplan : load_data data source_columns target_table target_columns column_mapping
               batch_size c0
             = insert_all target_table dest_columns rows batch_size c)
    (Hneg : (batch_size < 0)%Z) :
  load_data data source_columns target_table target_columns column_mapping
    batch_size c0
  = (Ret Succeeded, c).
Proof.
  rewrite Hplan. unfold insert_all, insert_batches, Py.range, Py.range_len.
  destruct (batch_size =? 0)%Z eqn:E0; [apply Z.eqb_eq in E0; lia|].
  destruct (0 <? batch_size)%Z eqn:E1; [apply Z.ltb_lt in E1; lia|].
  destruct (Z.of_nat (length rows) <? 0)%Z eqn:E2; [apply Z.ltb_lt in E2; lia|].
  reflexivity.
Qed.

Lemma negative_batch_size_loads_nothing_witness :
  load_data Sample.five_rows ["n"] "t" None None (-2) (Sample.connected Sample.healthy)
  = (Ret Succeeded, Sample.connected Sample.healthy).
Proof.
  apply (negative_batch_size_loads_nothing Sample.five_rows ["n"] "t" None None (-2)
           (Sample.connected Sample.healthy) ["n"] Sample.five_rows
           (Sample.connected Sample.healthy)).
  - reflexivity.
  - lia.
Defined.

End LoaderBehaviour.

Section LoaderResults.

Import DatabaseConnector DataLoader.

(** For a positive batch size the batches add up to the rows. *)
Lemma batches_concat (rows : list row) (batch_size : Z) (parts : list (list row)) :
  (0 < batch_size)%Z -> batches rows batch_size = Some parts -> concat parts = rows.
Proof.
  intros Hsize Hparts.
  destruct (range_len_positive (Z.of_nat (length rows)) batch_size ltac:(lia) Hsize)
    as (Hm0 & _ & Hcover & _).
  unfold batches, Py.range in Hparts.
  destruct (batch_size =? 0)%Z eqn:E; [apply Z.eqb_eq in E; lia|].
  injection Hparts as <-. rewrite map_map.
  rewrite (map_ext _ (fun k => firstn (Z.to_nat batch_size)
                                 (skipn (k * Z.to_nat batch_size) rows)))
    by (intros k; now apply chunk_slice).
  rewrite concat_chunks. apply firstn_all2. nia.
Qed.

(** X13: on a connected loader with an open session, given non-empty rows
    and source columns, no mapping, no target columns and a positive batch
    size, when the engine accepts every batch and every commit, [load_data]
    returns success, the driver sees one insert and one commit per batch in
    order and nothing else, every row is committed, in the order given,
    after what was pending before, and nothing is left pending. *)
Theorem accepted_load_commits_every_row
    (data : list row) (source_columns : list string) (target_table : string)
    (batch_size : Z) (c : t) (s : session) (cur : cursor_state)
    (parts : list (list row))
    (Hdata : data <> []) (Hcols : source_columns <> [])
    (Hc : connection c = Some s) (Hcur : cursor c = Some cur)
    (Hopen : is_open s = true)
    (Hsize : (0 < batch_size)%Z)
    (Hparts : batches data batch_size = Some parts)
    (Hok : forall j batch, nth_error parts j = Some batch ->
       let query := insert_query (db_type c) target_table source_columns in
       eng_executemany (backend c)
         (calls c ++ Stated.committed_calls query (firstn j parts)) query batch
       = InsertDone
       /\ eng_commit (backend c)
            (calls c ++ Stated.committed_calls query (firstn j parts)
               ++ [EvExecuteMany query batch])
          = true) :
  let query := insert_query (db_type c) target_table source_columns in
  exists c',
    load_data data source_columns target_table None None batch_size c
    = (Ret Succeeded, c')
    /\ calls c' = calls c ++ Stated.committed_calls query parts
    /\ committed_inserts c' = committed_inserts c ++ pending_inserts s ++ data
    /\ connection c' = Some {| is_open := true; pending_inserts := [] |}.
Proof.
  cbv zeta in *.
  set (query := insert_query (db_type c) target_table source_columns) in *.
  rewrite (load_data_identity data source_columns target_table batch_size c s
             Hdata Hcols Hc).
  pose proof (batches_concat data batch_size parts Hsize Hparts) as Hconcat.
  destruct (committed_prefix query c s cur parts (length parts) Hc Hcur Hopen
              (Nat.le_refl _) (fun j batch _ => Hok j batch))
    as (c1 & Hrun & _ & _ & _ & Hcalls & Hconn & Hcommitted).
  rewrite firstn_all in Hrun, Hcalls, Hcommitted.
  unfold insert_all. exec_unfold. cbn [fst snd]. fold query.
  rewrite (insert_batches_for_each query data batch_size parts c Hparts), Hrun.
  exists c1. split; [reflexivity|]. split; [exact Hcalls|].
  destruct parts as [|part parts]; [cbn in Hconcat; congruence|].
  cbn [length] in Hconn, Hcommitted. rewrite Hconcat in Hcommitted. auto.
Qed.

Lemma accepted_load_commits_every_row_witness :
  let c := Sample.connected Sample.healthy in
  let query := insert_query (db_type c) "t" ["n"] in
  exists c',
    load_data Sample.five_rows ["n"] "t" None None 2 c = (Ret Succeeded, c')
    /\ calls c'
       = calls c
           ++ Stated.committed_calls query
                [[[VInt 1]; [VInt 2]]; [[VInt 3]; [VInt 4]]; [[VInt 5]]]
    /\ committed_inserts c' = committed_inserts c ++ [] ++ Sample.five_rows
    /\ connection c' = Some {| is_open := true; pending_inserts := [] |}.
Proof.
  apply (accepted_load_commits_every_row Sample.five_rows ["n"] "t" 2
           (Sample.connected Sample.healthy)
           {| is_open := true; pending_inserts := [] |}
           {| description := None; fetched := None |}
           [[[VInt 1]; [VInt 2]]; [[VInt 3]; [VInt 4]]; [[VInt 5]]]);
    try reflexivity; try discriminate.
  intros j batch _. split; reflexivity.
Defined.

(** Rows that fit into one batch make one batch. *)
Lemma batches_single (rows : list row) (batch_size : Z) :
  rows <> [] -> (Z.of_nat (length rows) <= batch_size)%Z ->
  batches rows batch_size = Some [rows].
Proof.
  intros Hrows Hfit.
  assert (Hn : (0 < Z.of_nat (length rows))%Z) by (destruct rows; [contradiction | cbn; lia]).
  unfold batches, Py.range, Py.range_len.
  destruct (batch_size =? 0)%Z eqn:E0; [apply Z.eqb_eq in E0; lia|].
  destruct (0 <? batch_size)%Z eqn:E1; [|apply Z.ltb_ge in E1; lia].
  destruct (0 <? Z.of_nat (length rows))%Z eqn:E2; [|apply Z.ltb_ge in E2; lia].
  replace (Z.of_nat (length rows) - 0 - 1)%Z with (Z.of_nat (length rows) - 1)%Z by lia.
  rewrite Z.div_small by lia. change (Z.to_nat (0 + 1)) with 1. cbn [seq map].
  rewrite (chunk_slice rows batch_size 0) by lia. cbn [Nat.mul skipn].
  rewrite firstn_all2 by lia. reflexivity.
Qed.

(** The insertion loop over such rows is one turn. *)
Lemma insert_batches_single (query : string) (rows : list row) (batch_size : Z) (c : t) :
  rows <> [] -> (Z.of_nat (length rows) <= batch_size)%Z ->
  insert_batches query rows batch_size c = insert_batch query rows c.
Proof.
  intros Hrows Hfit.
  rewrite (insert_batches_for_each query rows batch_size [rows] c
             (batches_single rows batch_size Hrows Hfit)).
  cbn [for_each]. unfold bind at 1.
  destruct (insert_batch query rows c) as [[[]|] c']; reflexivity.
Qed.

(** What the driver sees of the insertion phase over such rows. *)
Lemma insert_all_single (target_table : string) (dest_columns : list string)
    (rows : list row) (batch_size : Z) (c : t) (s : session) (cur : cursor_state) :
  rows <> [] -> (Z.of_nat (length rows) <= batch_size)%Z ->
  connection c = Some s -> cursor c = Some cur ->
  let query := insert_query (db_type c) target_table dest_columns in
  let (r, c') := insert_all target_table dest_columns rows batch_size c in
  exists tail,
    calls c' = calls c ++ EvExecuteMany query rows :: tail
    /\ (tail = [EvCommit] \/ tail = [EvRollback] \/ tail = [EvCommit; EvRollback])
    /\ (r = Ret Succeeded <-> tail = [EvCommit])
    /\ (r = Ret Succeeded ->
        committed_inserts c' = committed_inserts c ++ pending_inserts s ++ rows).
Proof.
  intros Hrows Hfit Hc Hcur. cbv zeta.
  unfold insert_all. unfold bind at 1, gets at 1.
  generalize (insert_query (db_type c) target_table dest_columns). intros query.
  unfold try_catch at 1. unfold bind at 1.
  rewrite (insert_batches_single query rows batch_size c Hrows Hfit).
  unfold insert_batch, bind, cursor_executemany, connection_commit, connection_rollback,
    try_catch, ret.
  rewrite Hcur, Hc.
  destruct s as [opened pending]. cbn [is_open pending_inserts].
  destruct opened; cbn; rewrite ?Hc; cbn.
  - destruct (eng_executemany (backend c) (calls c) query rows); cbn.
    + destruct (eng_commit (backend c) (calls c ++ [EvExecuteMany query rows])); cbn.
      * exists [EvCommit]. rewrite <- app_assoc. cbn.
        repeat split; auto.
      * destruct (eng_rollback _ _); cbn;
          exists [EvCommit; EvRollback]; rewrite <- !app_assoc; cbn;
          repeat split; auto; discriminate.
    + destruct (eng_rollback _ _); cbn;
        exists [EvRollback]; rewrite <- !app_assoc; cbn;
        repeat split; auto; discriminate.
  - exists [EvRollback]. rewrite <- !app_assoc. cbn.
    repeat split; auto; discriminate.
Qed.

(** X14: non-empty rows that fit into one batch are inserted as a single
    batch holding all of them. The batches are the rows themselves and the
    insertion loop is one turn: the insert of all the rows, then its
    commit. In the insertion phase on a connector with a connection and a
    cursor, and so in a call of [load_data] with such rows on a connected
    loader, the driver sees one insert, of all the rows under the INSERT
    statement over the resolved columns, followed by nothing but its commit,
    a rollback, or a commit that failed and the rollback; the call succeeds
    exactly when the insert is followed by the commit alone, and then all
    the rows are committed after what was pending. *)
Theorem small_load_is_one_batch (rows : list row) (batch_size : Z)
    (Hrows : rows <> [])
    (Hfit : (Z.of_nat (length rows) <= batch_size)%Z) :
  batches rows batch_size = Some [rows]
  /\ (forall query c,
        insert_batches query rows batch_size c = insert_batch query rows c)
  /\ (forall target_table dest_columns c s cur,
        connection c = Some s -> cursor c = Some cur ->
        let query := insert_query (db_type c) target_table dest_columns in
        let (r, c') := insert_all target_table dest_columns rows batch_size c in
        exists tail,
          calls c' = calls c ++ EvExecuteMany query rows :: tail
          /\ (tail = [EvCommit] \/ tail = [EvRollback]
              \/ tail = [EvCommit; EvRollback])
          /\ (r = Ret Succeeded <-> tail = [EvCommit])
          /\ (r = Ret Succeeded ->
              committed_inserts c' = committed_inserts c ++ pending_inserts s ++ rows))
  /\ (forall source_columns target_table c s cur,
        source_columns <> [] ->
        connection c = Some s -> cursor c = Some cur ->
        let query := insert_query (db_type c) target_table source_columns in
        let (r, c') :=
          load_data rows source_columns target_table None None batch_size c in
        exists tail,
          calls c' = calls c ++ EvExecuteMany query rows :: tail
          /\ (tail = [EvCommit] \/ tail = [EvRollback]
              \/ tail = [EvCommit; EvRollback])
          /\ (r = Ret Succeeded <-> tail = [EvCommit])
          /\ (r = Ret Succeeded ->
              committed_inserts c' = committed_inserts c ++ pending_inserts s ++ rows)).
Proof.
  split; [now apply batches_single|].
  split; [intros query c; now apply insert_batches_single|].
  split.
  - intros target_table dest_columns c s cur Hc Hcur.
    exact (insert_all_single target_table dest_columns rows batch_size c s cur
             Hrows Hfit Hc Hcur).
  - intros source_columns target_table c s cur Hcols Hc Hcur.
    rewrite (load_data_identity rows source_columns target_table batch_size c s
               Hrows Hcols Hc).
    exact (insert_all_single target_table source_columns rows batch_size c s cur
             Hrows Hfit Hc Hcur).
Qed.

Lemma small_load_is_one_batch_witness :
  batches Sample.clientes_rows 100 = Some [Sample.clientes_rows]
  /\ (forall query c,
        insert_batches query Sample.clientes_rows 100 c
        = insert_batch query Sample.clientes_rows c)
  /\ (forall target_table dest_columns c s cur,
        connection c = Some s -> cursor c = Some cur ->
        let query := insert_query (db_type c) target_table dest_columns in
        let (r, c') := insert_all target_table dest_columns Sample.clientes_rows 100 c in
        exists tail,
          calls c' = calls c ++ EvExecuteMany query Sample.clientes_rows :: tail
          /\ (tail = [EvCommit] \/ tail = [EvRollback]
              \/ tail = [EvCommit; EvRollback])
          /\ (r = Ret Succeeded <-> tail = [EvCommit])
          /\ (r = Ret Succeeded ->
              committed_inserts c'
              = committed_inserts c ++ pending_inserts s ++ Sample.clientes_rows))
  /\ (forall source_columns target_table c s cur,
        source_columns <> [] ->
        connection c = Some s -> cursor c = Some cur ->
        let query := insert_query (db_type c) target_table source_columns in
        let (r, c') :=
          load_data Sample.clientes_rows source_columns target_table None None 100 c in
        exists tail,
          calls c' = calls c ++ EvExecuteMany query Sample.clientes_rows :: tail
          /\ (tail = [EvCommit] \/ tail = [EvRollback]
              \/ tail = [EvCommit; EvRollback])
          /\ (r = Ret Succeeded <-> tail = [EvCommit])
          /\ (r = Ret Succeeded ->
              committed_inserts c'
              = committed_inserts c ++ pending_inserts s ++ Sample.clientes_rows)).
Proof.
  apply (small_load_is_one_batch Sample.clientes_rows 100).
  - discriminate.
  - cbn. lia.
Defined.

End LoaderResults.

Section ProjectionShape.

Import DatabaseConnector DataLoader.


Lemma filtered_row_short (r : row) (source_indices : list nat) (i : nat) :
  In i source_indices -> length r <= i -> filtered_row r source_indices = None.
Proof.
  intros Hin Hshort. induction source_indices as [|j rest IH]; [contradiction|].
  cbn. destruct Hin as [->|Hin].
  - unfold Py.index. now rewrite (proj2 (nth_error_None r i) Hshort).
  - destruct (Py.index r j); [|reflexivity]. now rewrite (IH Hin).
Qed.

Lemma filter_data_short (data : list row) (source_indices : list nat) (r : row) (i : nat) :
  In r data -> In i source_indices -> length r <= i ->
  filter_data data source_indices = None.
Proof.
  intros Hr Hi Hshort. induction data as [|r' data IH]; [contradiction|].
  cbn. destruct Hr as [->|Hr].
  - now rewrite (filtered_row_short r source_indices i Hi Hshort).
  - destruct (filtered_row r' source_indices); [|reflexivity]. now rewrite (IH Hr).
Qed.

Lemma select_columns_lengths (source_columns : list string) (column_mapping : Py.dict string) :
  length (fst (select_columns (Py.enumerate source_columns) column_mapping))
  = length (snd (select_columns (Py.enumerate source_columns) column_mapping)).
Proof.
  pose proof (select_columns_from column_mapping source_columns 0) as H.
  unfold Py.enumerate.
  destruct (select_columns (Py.enumerate_from 0 source_columns) column_mapping)
    as [dest_columns source_indices].
  destruct H as (Hall & _). cbn. symmetry. eapply Forall2_length, Hall.
Qed.



(** X16: with a non-empty mapping on a connected loader, a row that has no
    value at the position of a mapped column makes [load_data] raise: the
    [IndexError] of the projection is not caught, the connector is left
    untouched and no insert is attempted. *)
Theorem short_row_escapes_as_exception
    (data : list row) (source_columns : list string) (target_table : string)
    (target_columns : option (list string)) (column_mapping : Py.dict string)
    (batch_size : Z) (c : t) (s : session) (r : row) (i : nat)
    (Hcols : source_columns <> []) (Hmap : column_mapping <> [])
    (Hc : connection c = Some s)
    (Hr : In r data)
    (Hi : In i (snd (select_columns (Py.enumerate source_columns) column_mapping)))
    (Hshort : length r <= i) :
  load_data data source_columns target_table target_columns (Some column_mapping)
    batch_size c
  = (Raise, c).
Proof.
  assert (Hdata : data <> []) by (intros ->; contradiction).
  rewrite (load_data_mapped data source_columns target_table target_columns
             column_mapping batch_size c s Hdata Hcols Hmap Hc).
  pose proof (select_columns_lengths source_columns column_mapping) as Hlen.
  rewrite (filter_data_short data _ r i Hr Hi Hshort).
  destruct (fst (select_columns (Py.enumerate source_columns) column_mapping));
    [|reflexivity].
  destruct (snd (select_columns (Py.enumerate source_columns) column_mapping));
    [contradiction | discriminate].
Qed.

Lemma short_row_escapes_as_exception_witness :
  load_data [[VInt 1; VText "Joao"]] Sample.clientes_columns "t" None
    (Some Sample.reordered_mapping) 2 (Sample.connected Sample.healthy)
  = (Raise, Sample.connected Sample.healthy).
Proof.
  apply (short_row_escapes_as_exception [[VInt 1; VText "Joao"]] Sample.clientes_columns
           "t" None Sample.reordered_mapping 2 (Sample.connected Sample.healthy)
           {| is_open := true; pending_inserts := [] |} [VInt 1; VText "Joao"] 2).
  - discriminate.
  - discriminate.
  - reflexivity.
  - now left.
  - cbn. auto.
  - cbn. lia.
Defined.

End ProjectionShape.

Section TableResults.

Import DatabaseConnector DataLoader.

Local Arguments is_select : simpl never.

Lemma statement_result_ignored (q : string) (c : t) :
  try_catch (execute_query q None ;; ret true) (ret false) c
  = (Ret true, snd (execute_query q None c)).
Proof.
  exec_unfold. destruct (execute_query_returns q None c) as [r Hr].
  destruct (execute_query q None c) as [r' c']. cbn in Hr. now subst r'.
Qed.

(** X17: the two table operations never raise, and what they return tells
    about the connection only: [create_table_if_not_exists] returns [True]
    exactly when there are column definitions and the loader is or gets
    connected, [truncate_table] exactly when the loader is or gets
    connected, whatever the engine did with the statement. *)
Theorem table_operations_report_connection_only (target_table : string)
    (column_definitions : Py.dict string) (c : t) :
  (exists ok, fst (create_table_if_not_exists target_table column_definitions c) = Ret ok)
  /\ (fst (create_table_if_not_exists target_table column_definitions c) = Ret true
      <-> column_definitions <> [] /\ fst (ensure_connected c) = Ret true)
  /\ (exists ok, fst (truncate_table target_table c) = Ret ok)
  /\ (fst (truncate_table target_table c) = Ret true
      <-> fst (ensure_connected c) = Ret true).
Proof.
  assert (Hcreate :
            fst (create_table_if_not_exists target_table column_definitions c)
            = match column_definitions, fst (ensure_connected c) with
              | [], _ => Ret false
              | _ :: _, Ret ok => Ret ok
              | _ :: _, Raise => Raise
              end).
  { unfold create_table_if_not_exists.
    destruct column_definitions as [|d ds]; cbn [Py.truthy negb]; [reflexivity|].
    unfold bind at 1. destruct (ensure_connected c) as [[[|]|] c1]; cbn [negb fst];
      try reflexivity.
    cbv zeta. now rewrite statement_result_ignored. }
  assert (Htruncate :
            fst (truncate_table target_table c) = fst (ensure_connected c)).
  { unfold truncate_table.
    unfold bind at 1. destruct (ensure_connected c) as [[[|]|] c1]; cbn [negb fst];
      try reflexivity.
    cbv zeta. now rewrite statement_result_ignored. }
  rewrite Hcreate, Htruncate.
  destruct (ensure_connected_returns c) as [ok Hok]. rewrite Hok.
  split; [|split; [|split]].
  - destruct column_definitions; now eexists.
  - destruct column_definitions as [|d ds].
    + split; [discriminate | intros [H _]; contradiction].
    + split; [intros H; split; [discriminate | exact H] | intros [_ H]; exact H].
  - now eexists.
  - reflexivity.
Qed.

End TableResults.

Section ClosedSession.

Import DatabaseConnector DataLoader.

(** X18: [disconnect] leaves the connection object assigned, so a loader
    whose session was closed does not connect again: [load_data] sends the
    first batch to the closed session, fails, attempts a rollback that fails
    too, and returns failure with a load error; the connector is unchanged
    but for these two calls. *)
Theorem closed_session_is_not_reopened
    (data : list row) (source_columns : list string) (target_table : string)
    (batch_size : Z) (c : t) (s : session) (cur : cursor_state)
    (first : list row) (rest : list (list row))
    (Hdata : data <> []) (Hcols : source_columns <> [])
    (Hc : connection c = Some s) (Hcur : cursor c = Some cur)
    (Hclosed : is_open s = false)
    (Hparts : batches data batch_size = Some (first :: rest)) :
  let query := insert_query (db_type c) target_table source_columns in
  load_data data source_columns target_table None None batch_size c
  = (Ret (Failed LoadError),
     record_call EvRollback (record_call (EvExecuteMany query first) c)).
Proof.
  cbv zeta.
  rewrite (load_data_identity data source_columns target_table batch_size c s
             Hdata Hcols Hc).
  unfold insert_all. exec_unfold. cbn [fst snd].
  rewrite (insert_batches_for_each _ data batch_size (first :: rest) c Hparts).
  cbn [for_each]. unfold insert_batch at 1, bind, cursor_executemany.
  rewrite Hcur, Hc, Hclosed.
  unfold connection_rollback. cbn. rewrite Hc, Hclosed. reflexivity.
Qed.

Lemma closed_session_is_not_reopened_witness :
  let c := Sample.disconnected Sample.healthy in
  let query := insert_query (db_type c) "t" ["n"] in
  load_data Sample.five_rows ["n"] "t" None None 2 c
  = (Ret (Failed LoadError),
     record_call EvRollback (record_call (EvExecuteMany query [[VInt 1]; [VInt 2]]) c)).
Proof.
  apply (closed_session_is_not_reopened Sample.five_rows ["n"] "t" 2
           (Sample.disconnected Sample.healthy)
           {| is_open := false; pending_inserts := [] |}
           {| description := None; fetched := None |}
           [[VInt 1]; [VInt 2]] [[[VInt 3]; [VInt 4]]; [[VInt 5]]]);
    try reflexivity; discriminate.
Defined.

End ClosedSession.

(* ================================================================= *)
(** ** Further properties: only [disconnect] closes a session *)

Section SessionStaysLive.

Import DatabaseConnector DataLoader.

Local Arguments is_select : simpl never.

Ltac live_primitive :=
  let c := fresh "c" in
  let H := fresh "H" in
  let s' := fresh "s'" in
  let Hs' := fresh "Hs'" in
  intros c H; unfold Observed.live in *; cbn;
  repeat match goal with
         | |- context [match ?x with _ => _ end] => destruct x eqn:?; cbn
         end;
  intros s' Hs'; cbn in Hs';
  first [ injection Hs' as <-; reflexivity
        | apply H; congruence ].

Lemma driver_connect_live : Observed.preserves Observed.live driver_connect.
Proof. unfold driver_connect. live_primitive. Qed.

Lemma connection_cursor_live : Observed.preserves Observed.live connection_cursor.
Proof. unfold connection_cursor. live_primitive. Qed.

Lemma cursor_execute_live (q : string) (args : list value) :
  Observed.preserves Observed.live (cursor_execute q args).
Proof. unfold cursor_execute. live_primitive. Qed.

Lemma cursor_fetchall_live : Observed.preserves Observed.live cursor_fetchall.
Proof. unfold cursor_fetchall. live_primitive. Qed.

Lemma cursor_executemany_live (q : string) (batch : list row) :
  Observed.preserves Observed.live (cursor_executemany q batch).
Proof. unfold cursor_executemany. live_primitive. Qed.

Lemma connection_commit_live : Observed.preserves Observed.live connection_commit.
Proof. unfold connection_commit. live_primitive. Qed.

Lemma connection_rollback_live : Observed.preserves Observed.live connection_rollback.
Proof. unfold connection_rollback. live_primitive. Qed.

Lemma connect_live : Observed.preserves Observed.live connect.
Proof.
  intros c Hc. unfold connect, driver_connect, connection_cursor, Observed.live in *.
  exec_unfold. cbn.
  destruct (supported (db_type c)); cbn; [|exact Hc].
  destruct (eng_connect (backend c) (calls c)); cbn; [|exact Hc].
  destruct (eng_cursor (backend c) (calls c ++ [EvConnect])); cbn;
    intros s Hs; injection Hs as <-; reflexivity.
Qed.

Lemma execute_query_live (q : string) (params : option (list value)) :
  Observed.preserves Observed.live (execute_query q params).
Proof.
  unfold execute_query.
  apply preserves_bind; [preserves_step | intros conn].
  apply preserves_bind; [preserves_step | intros cur].
  destruct conn as [s|]; [|preserves_step]. destruct cur as [cs|]; [|preserves_step].
  apply preserves_try_catch.
  - apply preserves_bind; [apply cursor_execute_live | intros _].
    destruct (is_select q).
    + apply preserves_bind; [apply cursor_fetchall_live | intros rows; preserves_step].
    + apply preserves_bind; [apply connection_commit_live | intros _; preserves_step].
  - apply preserves_bind; [|intros _; preserves_step].
    destruct (negb (is_select q)); [|preserves_step].
    apply preserves_try_catch; [apply connection_rollback_live | preserves_step].
Qed.

Lemma ensure_connected_live : Observed.preserves Observed.live ensure_connected.
Proof.
  unfold ensure_connected.
  apply preserves_bind; [preserves_step | intros conn].
  destruct conn; [preserves_step | apply connect_live].
Qed.

Lemma insert_all_live (target_table : string) (dest_columns : list string)
    (rows : list row) (batch_size : Z) :
  Observed.preserves Observed.live
    (insert_all target_table dest_columns rows batch_size).
Proof.
  unfold insert_all.
  apply preserves_bind; [preserves_step | intros db].
  apply preserves_try_catch.
  - apply preserves_bind; [|intros _; preserves_step].
    unfold insert_batches.
    destruct (Py.range _ _ _); [|preserves_step].
    apply preserves_for_each. intros i. unfold insert_batch.
    apply preserves_bind;
      [apply cursor_executemany_live | intros _; apply connection_commit_live].
  - apply preserves_bind; [|intros _; preserves_step].
    apply preserves_try_catch; [apply connection_rollback_live | preserves_step].
Qed.

Lemma load_data_live
    (data : list row) (source_columns : list string) (target_table : string)
    (target_columns : option (list string)) (column_mapping : option (Py.dict string))
    (batch_size : Z) :
  Observed.preserves Observed.live
    (load_data data source_columns target_table target_columns column_mapping
       batch_size).
Proof.
  unfold load_data.
  destruct (negb (Py.truthy data) || negb (Py.truthy source_columns)); [preserves_step|].
  apply preserves_bind; [apply ensure_connected_live | intros connected].
  destruct (negb connected); [preserves_step|].
  destruct column_mapping as [[|entry mapping]|].
  - destruct target_columns as [[|d ds]|]; try apply insert_all_live.
    destruct (negb (length (d :: ds) =? length source_columns));
      [preserves_step | apply insert_all_live].
  - destruct (select_columns (Py.enumerate source_columns) (entry :: mapping))
      as [dest_columns source_indices].
    destruct (negb (Py.truthy dest_columns)); [preserves_step|].
    destruct (filter_data data source_indices); [apply insert_all_live | preserves_step].
  - destruct target_columns as [[|d ds]|]; try apply insert_all_live.
    destruct (negb (length (d :: ds) =? length source_columns));
      [preserves_step | apply insert_all_live].
Qed.

Lemma create_table_live (target_table : string) (column_definitions : Py.dict string) :
  Observed.preserves Observed.live
    (create_table_if_not_exists target_table column_definitions).
Proof.
  unfold create_table_if_not_exists.
  destruct (negb (Py.truthy column_definitions)); [preserves_step|].
  apply preserves_bind; [apply ensure_connected_live | intros connected].
  destruct (negb connected); [preserves_step|].
  cbv zeta. apply preserves_try_catch; [|preserves_step].
  apply preserves_bind; [apply execute_query_live | intros _; preserves_step].
Qed.

Lemma truncate_table_live (target_table : string) :
  Observed.preserves Observed.live (truncate_table target_table).
Proof.
  unfold truncate_table.
  apply preserves_bind; [apply ensure_connected_live | intros connected].
  destruct (negb connected); [preserves_step|].
  cbv zeta. apply preserves_try_catch; [|preserves_step].
  apply preserves_bind; [apply execute_query_live | intros _; preserves_step].
Qed.

(** On a session that was not closed, [disconnect] gets to close the
    connection. *)
Lemma disconnect_closes (c : t) :
  Observed.assigned c -> Observed.live c ->
  exists before, calls (snd (disconnect c)) = before ++ [EvClose].
Proof.
  unfold Observed.assigned, Observed.live, disconnect, cursor_close, connection_close.
  exec_unfold. cbn. intros Hc Hlive.
  destruct (connection c) as [s|] eqn:Hconn; [|contradiction]. cbn.
  destruct (cursor c); cbn; rewrite ?Hconn, ?(Hlive s eq_refl); cbn; rewrite ?Hconn;
    match goal with |- context [eng_close ?b ?h] => destruct (eng_close b h) end;
    cbn; eexists; reflexivity.
Qed.

End SessionStaysLive.

(* ================================================================= *)
(** ** Further properties: the orchestrator *)

Section RunBehaviour.

Import DatabaseConnector ETLPipeline.

Local Arguments is_select : simpl never.

(** X19: [run] reads no key that validation did not check: with an invalid
    configuration it returns [False] without creating a connector, and with
    a valid one it always gets to create both connectors (no [KeyError]). *)
Theorem run_reads_only_validated_keys (config : Config.t) :
  (validate_config config = false -> run config = (Ret false, None))
  /\ (validate_config config = true -> snd (run config) <> None).
Proof.
  unfold run, validate_config, present.
  destruct config as [[[ty1 cp1]|] [[ty2 cp2]|] [[qu pa]|] [[tbl tc cm tr cr cd bs]|]];
    cbn; try (split; [reflexivity | discriminate]).
  destruct ty1, cp1, ty2, cp2, qu, tbl; cbn;
    try (split; [reflexivity | discriminate]).
  match goal with |- context [run_steps ?a ?b ?c ?d ?e] =>
    destruct (run_steps a b c d e) as [r w] end.
  split; [discriminate | intros _; discriminate].
Qed.


Lemma preserves_zoom {S T A : Type} (get : T -> S) (set : S -> T -> T)
    (P : S -> Prop) (m : M S A) :
  (forall s t, get (set s t) = s) ->
  Observed.preserves P m ->
  Observed.preserves (fun t => P (get t)) (zoom get set m).
Proof.
  intros Hget Hm t Ht. unfold zoom. specialize (Hm (get t) Ht).
  destruct (m (get t)) as [r s']. cbn in *. now rewrite Hget.
Qed.

Lemma preserves_zoom_frame {S T A : Type} (get : T -> S) (set : S -> T -> T)
    (Q : T -> Prop) (m : M S A) :
  (forall s t, Q t -> Q (set s t)) ->
  Observed.preserves Q (zoom get set m).
Proof.
  intros Hset t Ht. unfold zoom.
  destruct (m (get t)) as [r s']. cbn. now apply Hset.
Qed.

Lemma only_read_record (e : event) (c : t) :
  Observed.reading_call e = true -> Observed.only_read c ->
  Observed.only_read (record_call e c).
Proof.
  intros He Hc. unfold Observed.only_read in *. cbn.
  apply Forall_app. split; [exact Hc | now constructor].
Qed.

Ltac only_read_primitive :=
  let c := fresh "c" in
  let H := fresh "H" in
  intros c H; cbn;
  repeat match goal with
         | |- context [match ?x with _ => _ end] => destruct x eqn:?; cbn
         end;
  try exact H;
  try (apply only_read_record; [reflexivity | exact H]).

Lemma driver_connect_only_read : Observed.preserves Observed.only_read driver_connect.
Proof. unfold driver_connect. only_read_primitive. Qed.

Lemma connection_cursor_only_read :
  Observed.preserves Observed.only_read connection_cursor.
Proof. unfold connection_cursor. only_read_primitive. Qed.

Lemma cursor_execute_only_read (q : string) (args : list value) :
  Observed.preserves Observed.only_read (cursor_execute q args).
Proof. unfold cursor_execute. only_read_primitive. Qed.

Lemma cursor_fetchall_only_read : Observed.preserves Observed.only_read cursor_fetchall.
Proof. unfold cursor_fetchall. only_read_primitive. Qed.

Lemma cursor_close_only_read : Observed.preserves Observed.only_read cursor_close.
Proof. unfold cursor_close. only_read_primitive. Qed.

Lemma connection_close_only_read :
  Observed.preserves Observed.only_read connection_close.
Proof. unfold connection_close. only_read_primitive. Qed.

Lemma connect_only_read : Observed.preserves Observed.only_read connect.
Proof.
  unfold connect. preserves_step; [|preserves_step].
  preserves_step; [preserves_step|].
  destruct (supported a); [|preserves_step].
  preserves_step; [apply driver_connect_only_read|].
  preserves_step; [intros c H; exact H|].
  preserves_step; [apply connection_cursor_only_read|].
  preserves_step; [intros c H; exact H | preserves_step].
Qed.

Lemma disconnect_only_read : Observed.preserves Observed.only_read disconnect.
Proof.
  unfold disconnect. preserves_step; [preserves_step|].
  destruct a as [s|]; [|preserves_step].
  preserves_step; [|preserves_step].
  preserves_step; [preserves_step|]. preserves_step.
  - destruct a as [cur|]; [apply cursor_close_only_read | preserves_step].
  - apply connection_close_only_read.
Qed.

Lemma execute_select_only_read (q : string) (params : option (list value)) :
  is_select q = true ->
  Observed.preserves Observed.only_read (execute_query q params).
Proof.
  intros Hsel. unfold execute_query. rewrite Hsel. cbn [negb].
  preserves_step; [preserves_step|]. preserves_step; [preserves_step|].
  destruct a as [s|]; [|preserves_step]. destruct a0 as [cur|]; [|preserves_step].
  preserves_step.
  - preserves_step; [apply cursor_execute_only_read|].
    preserves_step; [apply cursor_fetchall_only_read | preserves_step].
  - preserves_step; preserves_step.
Qed.

Lemma get_column_names_preserves (P : t -> Prop) :
  Observed.preserves P get_column_names.
Proof. intros c Hc. now rewrite get_column_names_unchanged. Qed.

Lemma extract_data_only_read (q : string) (params : option (list value)) :
  Observed.preserves (fun x => Observed.only_read (DataExtractor.db_connector x))
    (DataExtractor.extract_data q params).
Proof.
  unfold DataExtractor.extract_data.
  destruct (is_select q) eqn:Hsel; cbn [negb]; [|preserves_step].
  assert (Hzoom : forall A (m : M t A),
             Observed.preserves Observed.only_read m ->
             Observed.preserves
               (fun x => Observed.only_read (DataExtractor.db_connector x))
               (DataExtractor.on_connector m)).
  { intros A m Hm. unfold DataExtractor.on_connector.
    apply (preserves_zoom DataExtractor.db_connector DataExtractor.set_db_connector
             Observed.only_read m); [reflexivity | exact Hm]. }
  apply preserves_bind; [preserves_step | intros conn].
  apply preserves_bind; [|intros connected].
  - destruct conn; [preserves_step | apply Hzoom, connect_only_read].
  - destruct (negb connected); [preserves_step|].
    apply preserves_bind; [now apply Hzoom, execute_select_only_read | intros d].
    apply preserves_bind; [intros x H; exact H | intros _].
    destruct d; [|preserves_step].
    apply preserves_bind; [apply Hzoom, get_column_names_preserves | intros cs].
    apply preserves_bind; [intros x H; exact H | intros _].
    destruct (negb (Py.truthy_opt cs)); preserves_step.
Qed.

Lemma extract_data_live (q : string) (params : option (list value)) :
  Observed.preserves (fun x => Observed.live (DataExtractor.db_connector x))
    (DataExtractor.extract_data q params).
Proof.
  unfold DataExtractor.extract_data.
  destruct (negb (is_select q)); [preserves_step|].
  assert (Hzoom : forall A (m : M t A),
             Observed.preserves Observed.live m ->
             Observed.preserves
               (fun x => Observed.live (DataExtractor.db_connector x))
               (DataExtractor.on_connector m)).
  { intros A m Hm. unfold DataExtractor.on_connector.
    apply (preserves_zoom DataExtractor.db_connector DataExtractor.set_db_connector
             Observed.live m); [reflexivity | exact Hm]. }
  apply preserves_bind; [preserves_step | intros conn].
  apply preserves_bind; [|intros connected].
  - destruct conn; [preserves_step | apply Hzoom, connect_live].
  - destruct (negb connected); [preserves_step|].
    apply preserves_bind; [apply Hzoom, execute_query_live | intros d].
    apply preserves_bind; [intros x H; exact H | intros _].
    destruct d; [|preserves_step].
    apply preserves_bind; [apply Hzoom, get_column_names_preserves | intros cs].
    apply preserves_bind; [intros x H; exact H | intros _].
    destruct (negb (Py.truthy_opt cs)); preserves_step.
Qed.

Lemma run_steps_only_read (query : string) (query_params : option (list value))
    (target_table : string) (loading_config : Config.loading_t) :
  Observed.preserves (fun w => Observed.only_read (source_connector w))
    (run_steps query query_params target_table loading_config).
Proof.
  assert (Hloader : forall A (m : M t A),
             Observed.preserves (fun w => Observed.only_read (source_connector w))
               (on_loader m)).
  { intros A m. unfold on_loader. apply preserves_zoom_frame. intros s w H. exact H. }
  unfold run_steps.
  apply preserves_bind; [|intros extracted].
  - unfold on_extractor.
    apply (preserves_zoom extractor set_extractor
             (fun x => Observed.only_read (DataExtractor.db_connector x)));
      [reflexivity | apply extract_data_only_read].
  - destruct (negb extracted); [preserves_step|].
    apply preserves_bind; [preserves_step | intros got].
    destruct got as [[[|r data]|] [[|col columns]|]]; try apply preserves_ret.
    apply preserves_bind; [|intros created].
    + destruct (get_default (Config.create_table loading_config) false);
        [|preserves_step].
      destruct (Config.column_definitions loading_config); [apply Hloader | preserves_step].
    + destruct (negb created); [preserves_step|].
      apply preserves_bind; [|intros truncated].
      * destruct (get_default (Config.truncate_before_load loading_config) false);
          [apply Hloader | preserves_step].
      * destruct (negb truncated); [preserves_step|].
        apply preserves_bind; [apply Hloader | intros loaded].
        destruct (negb (DataLoader.to_bool loaded)); [preserves_step|].
        apply preserves_bind; [|intros _].
        -- unfold on_source, on_extractor.
           apply (preserves_zoom extractor set_extractor
                    (fun x => Observed.only_read (DataExtractor.db_connector x)));
             [reflexivity|].
           unfold DataExtractor.on_connector.
           apply (preserves_zoom DataExtractor.db_connector
                    DataExtractor.set_db_connector Observed.only_read);
             [reflexivity | apply disconnect_only_read].
        -- apply preserves_bind; [apply Hloader | intros _; preserves_step].
Qed.

(** X20: [run] never changes the source: whatever the configuration and the
    engines, every driver call made on the source connection is a connect,
    a cursor, an execute of the read query, a fetch or a close, and never an
    insert, a commit or a rollback. *)
Theorem run_never_writes_to_source (config : Config.t) (r : result bool) (w : world)
    (Hrun : run config = (r, Some w)) :
  forall e, In e (calls (source_connector w)) -> Observed.reading_call e = true.
Proof.
  apply Forall_forall. change (Observed.only_read (source_connector w)).
  unfold run in Hrun.
  destruct (negb (validate_config config)); [discriminate|].
  destruct (Config.source_db config) as [sc|]; [|discriminate].
  destruct (Config.target_db config) as [tc|]; [|discriminate].
  destruct (Config.extraction config) as [ec|]; [|discriminate].
  destruct (Config.loading config) as [lc|]; [|discriminate].
  destruct (Config.type sc), (Config.connection_params sc), (Config.type tc),
    (Config.connection_params tc), (Config.query ec), (Config.target_table lc);
    try discriminate.
  match type of Hrun with context [run_steps ?a ?b ?c ?d ?e] =>
    pose proof (run_steps_only_read a b c d e) as Hkeep;
    destruct (run_steps a b c d e) as [r' w'] end.
  cbn in Hkeep. injection Hrun as _ <-.
  apply Hkeep. constructor.
Qed.

Lemma run_never_writes_to_source_witness :
  exists r w,
    run Sample.matching_config = (r, Some w)
    /\ forall e, In e (calls (source_connector w)) -> Observed.reading_call e = true.
Proof.
  do 2 eexists. split; [reflexivity|].
  apply (run_never_writes_to_source Sample.matching_config (Ret true)).
  reflexivity.
Defined.


Ltac assigned_after_extraction q params c Hassigned :=
  let Hkeep := fresh "Hkeep" in
  pose proof (execute_query_assigned q params c Hassigned) as Hkeep;
  destruct (execute_query q params c) as [[[?|]|] ?];
  cbn -[get_column_names] in *; try discriminate;
  rewrite get_column_names_unchanged; cbn;
  match goal with
  | |- context [Py.truthy_opt ?v] => destruct v as [[|? ?]|]
  end;
  cbn; try discriminate; intros _; exact Hkeep.

Lemma extract_data_true_assigned (q : string) (params : option (list value))
    (x : DataExtractor.t) :
  fst (DataExtractor.extract_data q params x) = Ret true ->
  Observed.assigned (DataExtractor.db_connector (snd (DataExtractor.extract_data q params x))).
Proof.
  unfold DataExtractor.extract_data.
  destruct (is_select q); cbn [negb]; [|discriminate].
  unfold DataExtractor.on_connector. exec_unfold.
  cbn -[execute_query get_column_names connect].
  destruct (connection (DataExtractor.db_connector x)) as [s|] eqn:Hc;
    cbn -[execute_query get_column_names connect].
  - assert (Hassigned : Observed.assigned (DataExtractor.db_connector x))
      by (unfold Observed.assigned; congruence).
    assigned_after_extraction q params (DataExtractor.db_connector x) Hassigned.
  - pose proof (connect_true_assigned (DataExtractor.db_connector x)) as Hassigned.
    destruct (connect (DataExtractor.db_connector x)) as [[[|]|] c0];
      cbn -[execute_query get_column_names connect] in *; try discriminate.
    specialize (Hassigned eq_refl).
    assigned_after_extraction q params c0 Hassigned.
Qed.

Lemma insert_all_assigned (target_table : string) (dest_columns : list string)
    (rows : list row) (batch_size : Z) :
  Observed.preserves Observed.assigned
    (DataLoader.insert_all target_table dest_columns rows batch_size).
Proof.
  unfold DataLoader.insert_all.
  apply preserves_bind; [preserves_step | intros db].
  apply preserves_try_catch.
  - apply preserves_bind; [|intros _; preserves_step].
    unfold DataLoader.insert_batches.
    destruct (Py.range _ _ _); [|preserves_step].
    apply preserves_for_each. intros i. unfold DataLoader.insert_batch.
    apply preserves_bind;
      [apply cursor_executemany_assigned | intros _; apply connection_commit_assigned].
  - apply preserves_bind; [|intros _; preserves_step].
    apply preserves_try_catch; [apply connection_rollback_assigned | preserves_step].
Qed.

Lemma load_data_succeeded_assigned
    (data : list row) (source_columns : list string) (target_table : string)
    (target_columns : option (list string)) (column_mapping : option (Py.dict string))
    (batch_size : Z) (c : t) :
  fst (DataLoader.load_data data source_columns target_table target_columns
         column_mapping batch_size c) = Ret DataLoader.Succeeded ->
  Observed.assigned
    (snd (DataLoader.load_data data source_columns target_table target_columns
            column_mapping batch_size c)).
Proof.
  destruct (DataLoader.load_data data source_columns target_table target_columns
              column_mapping batch_size c) as [r c'] eqn:E.
  cbn [fst snd]. intros ->. revert E.
  unfold DataLoader.load_data.
  destruct (negb (Py.truthy data) || negb (Py.truthy source_columns)); [discriminate|].
  unfold bind at 1.
  pose proof (ensure_connected_true_assigned c) as Hassigned.
  destruct (DataLoader.ensure_connected c) as [[[|]|] c1]; cbn [negb fst snd] in *;
    try discriminate.
  specialize (Hassigned eq_refl).
  assert (Hins : forall dest rows,
             DataLoader.insert_all target_table dest rows batch_size c1
             = (Ret DataLoader.Succeeded, c') ->
             Observed.assigned c').
  { intros dest rows E.
    pose proof (insert_all_assigned target_table dest rows batch_size c1 Hassigned) as H.
    now rewrite E in H. }
  destruct column_mapping as [[|entry mapping]|].
  - destruct target_columns as [[|d ds]|].
    + apply Hins.
    + destruct (negb (length (d :: ds) =? length source_columns));
        [discriminate | apply Hins].
    + apply Hins.
  - destruct (DataLoader.select_columns (Py.enumerate source_columns) (entry :: mapping))
      as [dest_columns source_indices].
    destruct (negb (Py.truthy dest_columns)); [discriminate|].
    destruct (DataLoader.filter_data data source_indices); [apply Hins | discriminate].
  - destruct target_columns as [[|d ds]|].
    + apply Hins.
    + destruct (negb (length (d :: ds) =? length source_columns));
        [discriminate | apply Hins].
    + apply Hins.
Qed.

Ltac run_steps_cases E :=
  repeat (match type of E with
          | context [DataLoader.create_table_if_not_exists ?a ?b ?c] =>
              destruct (DataLoader.create_table_if_not_exists a b c) as [[?|] ?] eqn:?
          | context [DataLoader.truncate_table ?a ?c] =>
              destruct (DataLoader.truncate_table a c) as [[?|] ?] eqn:?
          | context [DataLoader.load_data ?a ?b ?c ?d ?e ?f ?g] =>
              destruct (DataLoader.load_data a b c d e f g) as [[?|] ?] eqn:?
          | context [disconnect ?c] =>
              destruct (disconnect c) as [[?|] ?] eqn:?
          | context [if ?b then _ else _] => destruct b eqn:?
          | context [match ?o with Some _ => _ | None => _ end] => destruct o eqn:?
          | context [let (_, _) := ?m in _] => destruct m as [[?|] ?] eqn:?
          end;
          cbn -[DataExtractor.extract_data DataLoader.load_data
                DataLoader.create_table_if_not_exists DataLoader.truncate_table
                disconnect] in E).

Ltac live_after_steps :=
  match goal with
  | H : Observed.live ?c |- Observed.live ?c => exact H
  | H : DataLoader.load_data ?a ?b ?d ?e ?f ?g ?c0 = (_, ?c1) |- Observed.live ?c1 =>
      let Hprev := fresh "Hprev" in
      assert (Hprev : Observed.live c0) by live_after_steps;
      let Hnext := fresh "Hnext" in
      pose proof (load_data_live a b d e f g c0 Hprev) as Hnext;
      rewrite H in Hnext; exact Hnext
  | H : DataLoader.truncate_table ?a ?c0 = (_, ?c1) |- Observed.live ?c1 =>
      let Hprev := fresh "Hprev" in
      assert (Hprev : Observed.live c0) by live_after_steps;
      let Hnext := fresh "Hnext" in
      pose proof (truncate_table_live a c0 Hprev) as Hnext;
      rewrite H in Hnext; exact Hnext
  | H : DataLoader.create_table_if_not_exists ?a ?b ?c0 = (_, ?c1) |- Observed.live ?c1 =>
      let Hprev := fresh "Hprev" in
      assert (Hprev : Observed.live c0) by live_after_steps;
      let Hnext := fresh "Hnext" in
      pose proof (create_table_live a b c0 Hprev) as Hnext;
      rewrite H in Hnext; exact Hnext
  end.

Lemma run_steps_result (query : string) (query_params : option (list value))
    (target_table : string) (loading_config : Config.loading_t)
    (w0 w : world) (r : result bool) :
  Observed.live (source_connector w0) ->
  Observed.live (target_connector w0) ->
  run_steps query query_params target_table loading_config w0 = (r, w) ->
  (target_connector w = target_connector w0
   \/ exists row rows col cols,
        DataExtractor.get_extracted_data (extractor w)
        = (Some (row :: rows), Some (col :: cols)))
  /\ (r = Ret true ->
      (exists before, calls (source_connector w) = before ++ [EvClose])
      /\ (exists before, calls (target_connector w) = before ++ [EvClose])).
Proof.
  intros Hlive_source Hlive_target E.
  unfold run_steps, on_source, on_extractor, on_loader, DataExtractor.on_connector in E.
  exec_unfold.
  cbn -[DataExtractor.extract_data DataLoader.load_data
        DataLoader.create_table_if_not_exists DataLoader.truncate_table disconnect] in E.
  pose proof (extract_data_true_assigned query query_params (extractor w0)) as Hsrc.
  pose proof (extract_data_live query query_params (extractor w0) Hlive_source)
    as Hsrc_live.
  destruct (DataExtractor.extract_data query query_params (extractor w0))
    as [[[|]|] x1];
    cbn -[DataExtractor.extract_data DataLoader.load_data
          DataLoader.create_table_if_not_exists DataLoader.truncate_table disconnect]
      in *;
    try (injection E as <- <-; split; [now left | discriminate]).
  specialize (Hsrc eq_refl).
  destruct (DataExtractor.data x1) as [[|row rows]|] eqn:Hdata;
    try (injection E as <- <-; split; [now left | discriminate]).
  destruct (DataExtractor.columns x1) as [[|col cols]|] eqn:Hcolumns;
    try (injection E as <- <-; split; [now left | discriminate]).
  assert (Hgot : forall c, DataExtractor.get_extracted_data
                             (DataExtractor.set_db_connector c x1)
                           = (Some (row :: rows), Some (col :: cols)))
    by (intros c; unfold DataExtractor.get_extracted_data; cbn; now rewrite Hdata, Hcolumns).
  run_steps_cases E.
  all: injection E as <- <-.
  all: split; [right; exists row, rows, col, cols;
               first [apply Hgot | unfold DataExtractor.get_extracted_data; cbn;
                                   now rewrite Hdata, Hcolumns]
              | try discriminate].
  all: intros _; cbn.
  all: match goal with
       | Hl : DataLoader.load_data ?la ?lb ?lc ?ld ?le ?lf ?cx = (Ret ?st, ?ct),
         Hb : negb (DataLoader.to_bool ?st) = false,
         Hs : disconnect (DataExtractor.db_connector _) = (_, ?cs),
         Ht : disconnect ?ct = (_, ?ct') |- _ =>
           destruct st; [|discriminate Hb];
           pose proof (load_data_succeeded_assigned la lb lc ld le lf cx) as Hassigned;
           rewrite Hl in Hassigned; specialize (Hassigned eq_refl);
           assert (Hlive : Observed.live ct) by live_after_steps;
           pose proof (disconnect_closes _ Hsrc Hsrc_live) as Hclose_source;
           pose proof (disconnect_closes _ Hassigned) as Hclose_target;
           cbn [snd] in Hclose_target; specialize (Hclose_target Hlive);
           rewrite Hs in Hclose_source; rewrite Ht in Hclose_target;
           split; assumption
       end.
Qed.

(** A run that created its connectors is a run of the steps from fresh
    connectors. *)
Lemma run_from_fresh (config : Config.t) (r : result bool) (w : world) :
  run config = (r, Some w) ->
  exists query query_params target_table loading_config w0,
    run_steps query query_params target_table loading_config w0 = (r, w)
    /\ calls (source_connector w0) = []
    /\ calls (target_connector w0) = []
    /\ Observed.live (source_connector w0)
    /\ Observed.live (target_connector w0).
Proof.
  unfold run. intros Hrun.
  destruct (negb (validate_config config)); [discriminate|].
  destruct (Config.source_db config) as [sc|]; [|discriminate].
  destruct (Config.target_db config) as [tc|]; [|discriminate].
  destruct (Config.extraction config) as [ec|]; [|discriminate].
  destruct (Config.loading config) as [lc|]; [|discriminate].
  destruct (Config.type sc), (Config.connection_params sc), (Config.type tc),
    (Config.connection_params tc), (Config.query ec), (Config.target_table lc);
    try discriminate.
  match type of Hrun with context [run_steps ?a ?b ?c ?d ?e] =>
    exists a, b, c, d, e; destruct (run_steps a b c d e) as [r' w'] end.
  injection Hrun as <- <-.
  repeat split; intros session Hsession; discriminate Hsession.
Qed.

(** X21: [run] contacts the target database only once the extraction has
    delivered at least one row and at least one column name: if any driver
    call was made on the target connection, the extractor holds non-empty
    rows and non-empty column names. *)
Theorem target_contacted_only_with_data (config : Config.t) (r : result bool) (w : world)
    (Hrun : run config = (r, Some w))
    (Hcalls : calls (target_connector w) <> []) :
  exists row rows col cols,
    DataExtractor.get_extracted_data (extractor w)
    = (Some (row :: rows), Some (col :: cols)).
Proof.
  destruct (run_from_fresh config r w Hrun)
    as (query & query_params & target_table & loading_config & w0 & Hsteps & _ & Hfresh
        & Hlive_source & Hlive_target).
  destruct (run_steps_result _ _ _ _ _ _ _ Hlive_source Hlive_target Hsteps)
    as [[Hsame|Hdata] _].
  - rewrite Hsame in Hcalls. contradiction.
  - exact Hdata.
Qed.

Lemma target_contacted_only_with_data_witness :
  exists r w,
    run Sample.matching_config = (r, Some w)
    /\ exists row rows col cols,
         DataExtractor.get_extracted_data (extractor w)
         = (Some (row :: rows), Some (col :: cols)).
Proof.
  do 2 eexists. split; [reflexivity|].
  apply (target_contacted_only_with_data Sample.matching_config (Ret true)).
  - reflexivity.
  - discriminate.
Defined.

(** X22: whenever [run] returns [True], it has called [disconnect] on both
    connectors with a connection assigned: the last driver call on the
    source connection and the last one on the target connection are their
    close. *)
Theorem successful_run_closes_both (config : Config.t)
    (Hrun : fst (run config) = Ret true) :
  exists w,
    snd (run config) = Some w
    /\ (exists before, calls (source_connector w) = before ++ [EvClose])
    /\ (exists before, calls (target_connector w) = before ++ [EvClose]).
Proof.
  destruct (run config) as [r [w|]] eqn:E; cbn in Hrun; subst r.
  - exists w. split; [reflexivity|].
    destruct (run_from_fresh config (Ret true) w E)
      as (query & query_params & target_table & loading_config & w0 & Hsteps & _ & _
          & Hlive_source & Hlive_target).
    destruct (run_steps_result _ _ _ _ _ _ _ Hlive_source Hlive_target Hsteps)
      as [_ Hclose].
    now apply Hclose.
  - exfalso. revert E. unfold run.
    destruct (negb (validate_config config)); [discriminate|].
    destruct (Config.source_db config) as [sc|]; [|discriminate].
    destruct (Config.target_db config) as [tc|]; [|discriminate].
    destruct (Config.extraction config) as [ec|]; [|discriminate].
    destruct (Config.loading config) as [lc|]; [|discriminate].
    destruct (Config.type sc), (Config.connection_params sc), (Config.type tc),
      (Config.connection_params tc), (Config.query ec), (Config.target_table lc);
      try discriminate.
    match goal with |- context [run_steps ?a ?b ?c ?d ?e] =>
      destruct (run_steps a b c d e) as [r' w'] end.
    discriminate.
Qed.

Lemma successful_run_closes_both_witness :
  exists w,
    snd (run Sample.matching_config) = Some w
    /\ (exists before, calls (source_connector w) = before ++ [EvClose])
    /\ (exists before, calls (target_connector w) = before ++ [EvClose]).
Proof.
  apply (successful_run_closes_both Sample.matching_config). reflexivity.
Defined.

(** X23: [create_table] without [column_definitions] has no effect: the
    steps of the run are those of the same configuration without the
    [create_table] key, so no CREATE statement is issued and no error is
    reported. *)
Theorem create_table_needs_definitions (query : string)
    (query_params : option (list value)) (target_table : string)
    (loading_config : Config.loading_t) (w : world)
    (Hnone : Config.column_definitions loading_config = None) :
  run_steps query query_params target_table loading_config w
  = run_steps query query_params target_table
      (Observed.without_create_table loading_config) w.
Proof.
  destruct loading_config as [tbl tc cm tr cr cd bs]. cbn in Hnone. subst cd.
  unfold run_steps, Observed.without_create_table. cbn.
  destruct cr as [[|]|]; reflexivity.
Qed.

Lemma create_table_needs_definitions_witness :
  let loading_config :=
    {| Config.target_table := Some "clientes_filtrados";
       Config.target_columns := None;
       Config.column_mapping := None;
       Config.truncate_before_load := None;
       Config.create_table := Some true;
       Config.column_definitions := None;
       Config.batch_size := None |} in
  let w :=
    {| extractor := DataExtractor.init (init "sqlite" Sample.healthy);
       target_connector := init "sqlite" Sample.healthy |} in
  run_steps "SELECT id, nome, idade FROM clientes" None "clientes_filtrados"
    loading_config w
  = run_steps "SELECT id, nome, idade FROM clientes" None "clientes_filtrados"
      (Observed.without_create_table loading_config) w.
Proof.
  apply (create_table_needs_definitions "SELECT id, nome, idade FROM clientes" None
           "clientes_filtrados").
  reflexivity.
Defined.

End RunBehaviour.
